(** * RedbackTech client: a shallow embedding of [redbacktech_client.py]

    The client talks to two vendor back ends (a token based REST API and a
    cookie based web portal) and flattens their JSON payloads into lists of
    entity records.  This development embeds the Python methods as functions
    in a state-and-exception monad over the client object and an explicit
    outside world (clock, HTTP peers, sessions), and states the properties
    of the specification against them.

    Layout: Python values and builtins ([Py]), the vendor payloads and the
    records the client builds ([Model]), the classes of the data set
    ([Data]), the monad ([Effects]), the methods of [RedbackTechClient]
    ([Client]), then the lemmas and theorems. *)

From Stdlib Require Import ZArith Lia List Bool Ascii String.
From Stdlib Require Import Floats.PrimFloat Floats.SpecFloat Floats.FloatOps.
From Stdlib Require DecimalString.
From stdpp Require Import base option list gmap strings.

Local Open Scope Z_scope.

(** A decimal literal of a float stands for the nearest binary64 value, as
    it does in Python. *)
Set Warnings "-inexact-float".

(* ================================================================== *)
(** * Python values and builtins *)
(* ================================================================== *)

Module Py.

(** Exceptions the methods can raise: Python's builtin ones and the two of
    [exceptions.py]. *)
Inductive exn :=
| TypeError | ValueError | KeyError | IndexError | AttributeError
| ZeroDivisionError | OverflowError
| RuntimeError
| AuthError | RedbackTechClientError.

Inductive outcome (A : Type) :=
| Return (a : A)
| Raise (e : exn).
Arguments Return {A} a.
Arguments Raise {A} e.

#[global] Instance outcome_ret : MRet outcome := fun A a => Return a.
#[global] Instance outcome_bind : MBind outcome :=
  fun A B f m => match m with Return a => f a | Raise e => Raise e end.

Definition of_option {A} (e : exn) (o : option A) : outcome A :=
  match o with Some a => Return a | None => Raise e end.

(** ** Strings (ASCII text) *)

Definition is_digit (c : ascii) : bool :=
  (48 <=? Z.of_nat (nat_of_ascii c)) && (Z.of_nat (nat_of_ascii c) <=? 57).

Definition digit_value (c : ascii) : Z := Z.of_nat (nat_of_ascii c) - 48.

(** [str.isspace] on the ASCII range: tab .. carriage return, the four
    separators 0x1c .. 0x1f, and the blank. *)
Definition is_space (c : ascii) : bool :=
  let n := Z.of_nat (nat_of_ascii c) in
  ((9 <=? n) && (n <=? 13)) || ((28 <=? n) && (n <=? 32)).

Definition lower_char (c : ascii) : ascii :=
  let n := nat_of_ascii c in
  if ((65 <=? Z.of_nat n) && (Z.of_nat n <=? 90))%Z then ascii_of_nat (n + 32) else c.

(** [s.lower()] *)
Fixpoint lower (s : string) : string :=
  match s with
  | EmptyString => EmptyString
  | String c s' => String (lower_char c) (lower s')
  end.

(** [s[-n:]] for a positive [n] *)
Definition last_chars (n : nat) (s : string) : string :=
  substring (String.length s - n) n s.

(** [s.find(c) > -1] for a one character needle *)
Fixpoint contains (c : ascii) (s : string) : bool :=
  match s with
  | EmptyString => false
  | String a s' => if Ascii.eqb a c then true else contains c s'
  end.

(** [sub in s] on two strings *)
Fixpoint has_substring (sub s : string) : bool :=
  String.prefix sub s
  || match s with String _ s' => has_substring sub s' | EmptyString => false end.

(** [s.split(c)] for a one character separator: never empty. *)
Fixpoint split (c : ascii) (s : string) : list string :=
  match s with
  | EmptyString => [EmptyString]
  | String a s' =>
      if Ascii.eqb a c then EmptyString :: split c s'
      else match split c s' with
           | p :: ps => String a p :: ps
           | [] => [String a EmptyString]
           end
  end.

(** [s.replace(c, r)] for a one character [c] *)
Fixpoint replace (c : ascii) (r : string) (s : string) : string :=
  match s with
  | EmptyString => EmptyString
  | String a s' =>
      if Ascii.eqb a c then r +:+ replace c r s' else String a (replace c r s')
  end.

(** [l[i]] *)
Definition index {A} (l : list A) (i : Z) : outcome A :=
  let j := if i <? 0 then Z.of_nat (length l) + i else i in
  if j <? 0 then Raise IndexError else of_option IndexError (l !! Z.to_nat j).

(** ** [int(str)]

    Surrounding white space is dropped, one sign is allowed, and the digits
    may be grouped by single underscores; anything else is a [ValueError]. *)

Fixpoint lstrip (s : string) : string :=
  match s with
  | String c s' => if is_space c then lstrip s' else s
  | EmptyString => EmptyString
  end.

Fixpoint rstrip (s : string) : string :=
  match s with
  | EmptyString => EmptyString
  | String c s' =>
      match rstrip s' with
      | EmptyString => if is_space c then EmptyString else String c EmptyString
      | r => String c r
      end
  end.

Fixpoint int_digits (acc : Z) (after_digit : bool) (s : string) : option Z :=
  match s with
  | EmptyString => if after_digit then Some acc else None
  | String c s' =>
      if is_digit c then int_digits (10 * acc + digit_value c) true s'
      else if Ascii.eqb c "_" then
             if after_digit then int_digits acc false s' else None
      else None
  end.

Definition int_of_str (s : string) : outcome Z :=
  match rstrip (lstrip s) with
  | String "-" body => of_option ValueError (option_map Z.opp (int_digits 0 false body))
  | String "+" body => of_option ValueError (int_digits 0 false body)
  | body => of_option ValueError (int_digits 0 false body)
  end.

(** [str(n)] for an [int] *)
Definition str_of_int (n : Z) : string :=
  DecimalString.NilZero.string_of_int (Z.to_int n).

(** ** Numbers: [int] is unbounded, [float] is IEEE 754 binary64 *)

Inductive pynum :=
| PyInt (n : Z)
| PyFloat (f : float).

(** The exact value of an integer as an (unrounded) binary float. *)
Definition SF_of_Z (n : Z) : spec_float :=
  match n with
  | Z0 => S754_zero false
  | Zpos p => S754_finite false p 0
  | Zneg p => S754_finite true p 0
  end.

(** [float(n)]: the nearest float, ties to even; too large is an error. *)
Definition float_of_int (n : Z) : outcome float :=
  let f := SF2Prim (binary_normalize prec emax n 0 false) in
  if is_infinity f then Raise OverflowError else Return f.

(** [a / b] on two ints: the correctly rounded quotient. *)
Definition int_truediv (a b : Z) : outcome float :=
  if b =? 0 then Raise ZeroDivisionError
  else
    let f := SF2Prim (SFdiv prec emax (SF_of_Z a) (SF_of_Z b)) in
    if is_infinity f then Raise OverflowError else Return f.

Definition float_truediv (x y : float) : outcome float :=
  if is_zero y then Raise ZeroDivisionError else Return (x / y)%float.

Definition to_float (x : pynum) : outcome float :=
  match x with
  | PyInt n => float_of_int n
  | PyFloat f => Return f
  end.

(** A binary operator on the numeric tower: ints stay ints, anything mixed
    goes through [float]. *)
Definition arith (fi : Z -> Z -> Z) (ff : float -> float -> float)
    (x y : pynum) : outcome pynum :=
  match x, y with
  | PyInt a, PyInt b => Return (PyInt (fi a b))
  | _, _ => a ← to_float x; b ← to_float y; Return (PyFloat (ff a b))
  end.

Definition num_add := arith Z.add PrimFloat.add.
Definition num_sub := arith Z.sub PrimFloat.sub.
Definition num_mul := arith Z.mul PrimFloat.mul.

Definition num_truediv (x y : pynum) : outcome pynum :=
  match x, y with
  | PyInt a, PyInt b => f ← int_truediv a b; Return (PyFloat f)
  | _, _ => a ← to_float x; b ← to_float y; f ← float_truediv a b; Return (PyFloat f)
  end.

(** [x > y] *)
Definition num_gt (x y : pynum) : outcome bool :=
  match x, y with
  | PyInt a, PyInt b => Return (b <? a)
  | _, _ => a ← to_float x; b ← to_float y; Return (b <? a)%float
  end.

(** [math.sqrt(x)] *)
Definition math_sqrt (x : pynum) : outcome float :=
  f ← to_float x;
  if (f <? 0)%float then Raise ValueError else Return (PrimFloat.sqrt f).

(** [int(x)]: truncation towards zero. *)
Definition int_of_float (f : float) : outcome Z :=
  match Prim2SF f with
  | S754_nan => Raise ValueError
  | S754_infinity _ => Raise OverflowError
  | S754_zero _ => Return 0
  | S754_finite s m e =>
      let mag := if 0 <=? e then Z.shiftl (Zpos m) e else Z.shiftr (Zpos m) (- e) in
      Return (if s then - mag else mag)
  end.

Definition int_of_num (x : pynum) : outcome Z :=
  match x with
  | PyInt n => Return n
  | PyFloat f => int_of_float f
  end.

(** Nearest integer to [n / d] for [d > 0], ties to even. *)
Definition div_half_even (n d : Z) : Z :=
  let q := n / d in
  let r := n mod d in
  match 2 * r ?= d with
  | Lt => q
  | Gt => q + 1
  | Eq => if Z.even q then q else q + 1
  end.

(** [round(x, ndigits)] for a float and [0 <= ndigits]: the exact binary
    value is rounded to [ndigits] decimals, ties to even, and the decimal
    result is read back as the nearest float; infinities and nan are kept. *)
Definition round_float (f : float) (ndigits : Z) : outcome float :=
  match Prim2SF f with
  | S754_finite s m e =>
      let p := 10 ^ ndigits in
      let k := if 0 <=? e then Z.shiftl (Zpos m) e * p
               else div_half_even (Zpos m * p) (2 ^ (- e)) in
      if k =? 0 then Return (SF2Prim (S754_zero s))
      else int_truediv (if s then - k else k) p
  | _ => Return f
  end.

(** [round(x, ndigits)] on the tower: an int is its own rounding. *)
Definition num_round (x : pynum) (ndigits : Z) : outcome pynum :=
  match x with
  | PyInt n => Return (PyInt n)
  | PyFloat f => r ← round_float f ndigits; Return (PyFloat r)
  end.

(** ** [datetime] and [timedelta]

    A datetime is the reading of a clock face in microseconds since
    0001-01-01T00:00:00, with the UTC offset of an aware value; a timedelta
    is a number of microseconds. *)

Record datetime := mk_datetime {
  dt_us : Z;
  dt_utcoffset : option Z
}.

Definition us_per_second : Z := 1000000.
Definition us_per_day : Z := 86400 * us_per_second.

(** 9999-12-31T23:59:59.999999, the last value of the type *)
Definition datetime_max_us : Z := 3652059 * us_per_day - 1.
Definition timedelta_max_days : Z := 999999999.

(** [timedelta(seconds=n)], [timedelta(minutes=n)] for an int [n] *)
Definition timedelta_us (us : Z) : outcome Z :=
  if (Z.abs (us / us_per_day) <=? timedelta_max_days) then Return us
  else Raise OverflowError.

Definition timedelta_seconds (n : Z) : outcome Z := timedelta_us (n * us_per_second).
Definition timedelta_minutes (n : Z) : outcome Z := timedelta_us (n * 60 * us_per_second).

(** [d + td] *)
Definition datetime_add (d : datetime) (td : Z) : outcome datetime :=
  let us := dt_us d + td in
  if (0 <=? us) && (us <=? datetime_max_us)
  then Return (mk_datetime us (dt_utcoffset d))
  else Raise OverflowError.

(** [(a - b)] on two naive or two aware values; mixing them is a
    [TypeError]. *)
Definition datetime_sub (a b : datetime) : outcome Z :=
  match dt_utcoffset a, dt_utcoffset b with
  | None, None => Return (dt_us a - dt_us b)
  | Some oa, Some ob => Return ((dt_us a - oa) - (dt_us b - ob))
  | _, _ => Raise TypeError
  end.

(** [td.total_seconds() < n] for an int [n].  [total_seconds] is the float
    nearest to [td / 10^6]; rounding is monotone and fixes the integer
    [n], so the comparison is the one on microseconds. *)
Definition total_seconds_lt (td : Z) (n : Z) : bool := td <? n * us_per_second.

(** ** Dynamically typed leaves *)

#[warnings="-register-all"]
Inductive pyval :=
| VNone
| VBool (b : bool)
| VNum (n : pynum)
| VStr (s : string)
| VDatetime (d : datetime)
| VList (l : list pyval)
| VDict (d : gmap string pynum).

(** A JSON number that may be [null]. *)
Definition jnum := option pynum.

Definition of_jnum (x : jnum) : pyval :=
  match x with Some n => VNum n | None => VNone end.

(** Arithmetic on a value that may be [None] is a [TypeError]. *)
Definition need_num (x : jnum) : outcome pynum := of_option TypeError x.

(** The builtin [round(v, ndigits)]: only numbers define [__round__]. *)
Definition py_round (v : pyval) (ndigits : Z) : outcome pyval :=
  match v with
  | VNum n => r ← num_round n ndigits; Return (VNum r)
  | VBool b => Return (VNum (PyInt (if b then 1 else 0)))
  | _ => Raise TypeError
  end.

End Py.
Export Py.

(* ================================================================== *)
(** * Vendor payloads and the records the client builds *)
(* ================================================================== *)

Module Model.

(** ** Responses of the REST API, as the client indexes them.

    A field the client computes with is a [jnum] (a number or [null]); a
    field it slices, concatenates or compares is a [string]; a field it only
    copies into an entity is a [pyval]. *)

(** [POST /api/auth] *)
Record auth_response := mk_auth_response {
  access_token : string;
  token_type_ : string;
  expires_in : Z
}.

(** One element of [response['Data'][i]['Nodes']] of the node listing *)
Record node_ref := mk_node_ref {
  node_Type : string;
  node_SerialNumber : string
}.

(** [data['Data']['Nodes'][i]['StaticData']] *)
Record node_static := mk_node_static {
  node_Id : string;
  ModelName : string;
  SoftwareVersion : pyval;
  FirmwareVersion : pyval;
  BatteryCount : jnum;
  BatteryModels : list pyval
}.

(** [data['Data']['StaticData']], with [Location], [RemoteAccessConnection]
    and [SiteDetails] flattened *)
Record site_static := mk_site_static {
  Latitude : pyval;
  Longitude : pyval;
  RemoteAccessConnection_Type : pyval;
  ApprovedCapacityW : pyval;
  GenerationHardLimitVA : pyval;
  GenerationSoftLimitVA : pyval;
  ExportHardLimitkW : pyval;
  ExportSoftLimitkW : pyval;
  SiteExportLimitkW : pyval;
  PanelModel : pyval;
  PanelSizekW : pyval;
  SystemType : pyval;
  InverterMaxExportPowerkW : pyval;
  InverterMaxImportPowerkW : pyval;
  BatteryMaxChargePowerkW : pyval;
  BatteryMaxDischargePowerkW : pyval;
  BatteryCapacitykWh : jnum;
  UsableBatteryCapacitykWh : pyval;
  CommissioningDate : pyval;
  NMI : pyval;
  site_Id : pyval;
  site_Type : pyval
}.

(** [data['Data']] of the static response *)
Record static_data := mk_static_data {
  Nodes : list node_static;
  StaticData : site_static
}.

(** [data2['Data']['Inverters'][i]['PowerMode']] *)
Record power_mode := mk_power_mode {
  InverterMode : pyval;
  PowerW : pyval
}.

(** [data2['Data']['PVs'][i]] *)
Record pv_input := mk_pv_input {
  CurrentA : pyval;
  pv_VoltageV : pyval;
  PowerkW : pyval
}.

(** [data2['Data']['Phases'][i]] *)
Record phase_data := mk_phase_data {
  phase_Id : string;
  ActiveExportedPowerInstantaneouskW : jnum;
  ActiveImportedPowerInstantaneouskW : jnum;
  VoltageInstantaneousV : jnum;
  CurrentInstantaneousA : jnum;
  PowerFactorInstantaneousMinus1to1 : pyval
}.

(** [data2['Data']['Battery']['Modules'][i]] *)
Record battery_module := mk_battery_module {
  module_CurrentNegativeIsChargingA : jnum;
  module_VoltageV : pyval;
  PowerNegativeIsChargingkW : jnum;
  SoC0To1 : jnum
}.

(** [data2['Data']['Battery']['Cabinets'][i]] *)
Record battery_cabinet := mk_battery_cabinet {
  TemperatureC : pyval;
  FanState : pyval
}.

(** [data2['Data']['Battery']] *)
Record battery_data := mk_battery_data {
  CurrentNegativeIsChargingA : pyval;
  battery_VoltageV : pyval;
  VoltageType : pyval;
  NumberOfModules : pyval;
  Modules : list battery_module;
  Cabinets : list battery_cabinet
}.

(** [data2['Data']] of the dynamic response *)
Record dynamic_data := mk_dynamic_data {
  TimestampUtc : string;
  FrequencyInstantaneousHz : pyval;
  PvPowerInstantaneouskW : jnum;
  InverterTemperatureC : pyval;
  PvAllTimeEnergykWh : jnum;
  ExportAllTimeEnergykWh : jnum;
  ImportAllTimeEnergykWh : jnum;
  LoadAllTimeEnergykWh : jnum;
  Status : pyval;
  Inverters : list power_mode;
  PVs : list pv_input;
  Phases : list phase_data;
  BatterySoCInstantaneous0to1 : jnum;
  BatteryPowerNegativeIsChargingkW : jnum;
  BatteryChargeAllTimeEnergykWh : jnum;
  BatteryDischargeAllTimeEnergykWh : jnum;
  Battery : battery_data
}.

(** [soc_data['Data']] of the configuration response *)
Record config_data := mk_config_data {
  MinSoC0to1 : jnum;
  MinOffgridSoC0to1 : jnum
}.

(** [data['Data']['Schedules'][i]], with [DesiredMode] flattened *)
Record vendor_schedule := mk_vendor_schedule {
  ScheduleId : string;
  SerialNumber : string;
  SiteId : pyval;
  StartTimeUtc : string;
  Duration : string;
  DesiredMode_InverterMode : pyval;
  DesiredMode_ArgumentInWatts : pyval
}.

(** A decoded JSON body.  An object with an ['error'] key is [JError],
    the other objects are told apart by the keys the client reads.  A body
    need not be an object: it may be [null], [true] or [false], a number,
    a string or an array; of the elements of an array the client can only
    meet the strings, in the test ['error' in response], so any other
    element is [None]. *)
Inductive json_body :=
| JError (code : string)
| JAuth (a : auth_response)
| JNodes (sites : list (list node_ref))
| JStatic (d : static_data)
| JDynamic (d : dynamic_data)
| JSchedules (l : list vendor_schedule)
| JConfig (c : config_data)
| JOther
| JNull
| JBool (b : bool)
| JNumber (n : pynum)
| JString (s : string)
| JArray (l : list (option string)).

Definition is_object (j : json_body) : bool :=
  match j with
  | JNull | JBool _ | JNumber _ | JString _ | JArray _ => false
  | _ => true
  end.

(** ['error' in response]: a key of an object, a substring of a string,
    an element of an array; [None], a boolean and a number have no
    [__contains__]. *)
Definition has_error (j : json_body) : outcome bool :=
  match j with
  | JError _ => Return true
  | JNull | JBool _ | JNumber _ => Raise TypeError
  | JString s => Return (has_substring "error" s)
  | JArray l => Return (bool_decide (Some "error" ∈ l))
  | _ => Return false
  end.

(** [response[key]] for a key the body does not have: a [KeyError] on an
    object, a [TypeError] on anything else (a string or an array is
    indexed by integers, the rest not at all). *)
Definition no_such_key {A} (j : json_body) : outcome A :=
  if is_object j then Raise KeyError else Raise TypeError.

(** [response['error']] *)
Definition error_code (j : json_body) : outcome string :=
  match j with JError code => Return code | _ => no_such_key j end.

(** Indexing a body by the keys of one of the payloads *)
Definition as_auth (j : json_body) : outcome auth_response :=
  match j with JAuth a => Return a | _ => no_such_key j end.
Definition as_nodes (j : json_body) : outcome (list (list node_ref)) :=
  match j with JNodes l => Return l | _ => no_such_key j end.
Definition as_static (j : json_body) : outcome static_data :=
  match j with JStatic d => Return d | _ => no_such_key j end.
Definition as_dynamic (j : json_body) : outcome dynamic_data :=
  match j with JDynamic d => Return d | _ => no_such_key j end.
Definition as_schedules (j : json_body) : outcome (list vendor_schedule) :=
  match j with JSchedules l => Return l | _ => no_such_key j end.
Definition as_config (j : json_body) : outcome config_data :=
  match j with JConfig c => Return c | _ => no_such_key j end.

(** ** Records built by the client *)

(** The dictionaries appended to [_redback_entities], [_redback_numbers],
    [_redback_selects] and [_redback_schedule_datetime]; ['type_set'] and
    ['options'] are keys only some of them have. *)
Record entity := mk_entity {
  value : pyval;
  entity_name : string;
  device_id : string;
  device_type : string;
  type_set : option string;
  options : option pyval
}.

(** The key under which [get_redback_data] files an entity *)
Definition entity_id (e : entity) : string := device_id e +:+ entity_name e.

Record device_info := mk_device_info {
  identifiers : string;
  name : string;
  model : string;
  sw_version : pyval;
  hw_version : pyval;
  di_serial_number : string
}.

Record schedule_info := mk_schedule_info {
  schedule_id : string;
  sch_serial_number : string;
  siteid : pyval;
  start_time_utc : datetime;
  end_time : datetime;
  duration : Z;
  inverter_mode : pyval;
  power_w : pyval;
  sch_device_id : string;
  sch_device_type : string
}.

(** One value of [_inverter_control_settings]; ['start_time'] is a key
    [_create_select_entities] leaves out. *)
Record control_setting := mk_control_setting {
  power_setting_watts : pyval;
  power_setting_duration : pyval;
  power_setting_mode : pyval;
  start_time : option pyval
}.

(** ** Requests and replies *)

Inductive endpoint :=
| API_AUTH | API_NODES
| API_ENERGY_DYNAMIC_BY_SERIAL | API_STATIC_BY_SERIAL | API_CONFIG_BY_SERIAL
| API_SCHEDULE_BY_SERIALNUMBER
| API_SCHEDULE_CREATE_BY_SERIALNUMBER
| API_SCHEDULE_DELETE_BY_SERIALNUMBER_SCHEDULEID
| PORTAL_LOGIN | PORTAL_CONFIGURE | PORTAL_INVERTER_SET.

Inductive http_method := GET | POST | DELETE.

Inductive payload :=
| NoData
| LoginForm (client_id client_secret : string)
| ScheduleJson (serial : string) (start : option pyval) (duration_str : string)
    (mode : pyval) (watts : Z)
| PortalLoginForm (email password : string) (tok : option string)
| PortalSetForm (serial : string) (mode power ross : pyval) (tok : option string).

(** [via] is the portal session the request goes through, [None] for the
    API session; [path] is what the client appends to the endpoint. *)
Record request := mk_request {
  via : option nat;
  method : http_method;
  target : endpoint;
  path : string;
  authorization : option string;
  data : payload
}.

(** [json] is [None] when the body does not decode as JSON. *)
Record reply := mk_reply {
  status : Z;
  text : string;
  json : option json_body
}.

(** [json.dumps] of a value and of the data of a request: a [datetime] is
    not JSON serializable, and the [TypeError] of the encoder ends the
    call.  Of the data the client builds, only the start time and the mode
    of a schedule are values of any type. *)
Fixpoint json_serializable (v : pyval) : bool :=
  match v with
  | VDatetime _ => false
  | VList l => forallb json_serializable l
  | _ => true
  end.

Definition json_dumps (d : payload) : outcome unit :=
  match d with
  | ScheduleJson _ start _ mode _ =>
      if from_option json_serializable true start && json_serializable mode
      then Return tt else Raise TypeError
  | _ => Return tt
  end.

(** ** The client object *)

Record credentials := mk_credentials {
  client_id : string;
  client_secret : string;
  portal_email : string;
  portal_password : string
}.

(** The attributes of [RedbackTechClient].  An attribute that is not set
    yet ([_session2], [_serial_numbers], [serial_number], [ross_version])
    is [None]; a value of [_redback_schedule_selected] is the value under
    its only key ['schedule_id']. *)
Record client := mk_client {
  creds : credentials;
  token : option string;
  token_type : option pyval;
  token_expiration : option datetime;
  _GAFToken : option string;
  _session2 : option nat;
  _device_info_refresh_time : option datetime;
  serial_numbers : option (list string);
  _serial_numbers : option (list string);
  serial_number : option string;
  ross_version : option pyval;
  _redback_entities : list entity;
  _redback_device_info : list device_info;
  _redback_numbers : list entity;
  _redback_selects : list entity;
  _redback_schedule_datetime : list entity;
  _redback_schedules : list schedule_info;
  _redback_site_load : gmap string pynum;
  _inverter_control_settings : gmap string control_setting;
  _redback_schedule_selected : gmap string pyval;
  _redback_temp_voltage : gmap string pynum
}.

(** [__init__] *)
Definition init (c : credentials) : client :=
  mk_client c None None None None None None None None None None
    [] [] [] [] [] [] ∅ ∅ ∅ ∅.

(** The outside world: the local clock (its successive readings, in
    microseconds), the answer of the vendor to the n-th request, the
    requests sent so far, and the portal sessions opened so far ([true]
    while open). *)
Record world := mk_world {
  clock : nat -> Z;
  utcoffset : Z;
  ticks : nat;
  peer : nat -> request -> reply;
  sent : list request;
  sessions : list bool
}.

End Model.
Export Model.

(* ================================================================== *)
(** * The data set handed to the caller *)
(* ================================================================== *)

(** The classes of [model.py], by the keyword arguments the client
    constructs them with.  The module is not exported: [Inverters] is also
    a key of the dynamic payload. *)
Module Data.

(** An element of [_redback_devices], by the keys [get_redback_data] reads *)
Record device := mk_device {
  dev_device_type : string;
  dev_serial_number : string
}.

Inductive Inverters :=
| mk_Inverters (id device_serial_number : string) (data : device) (type : string).

Inductive Batterys :=
| mk_Batterys (id device_serial_number : string) (data : device) (type : string).

Inductive RedbackEntitys :=
| mk_RedbackEntitys (entity_id device_id type : string) (data : entity).

Inductive DeviceInfo :=
| mk_DeviceInfo (identifiers name model : string) (sw_version hw_version : pyval)
    (serial_number : string).

Inductive Buttons :=
| mk_Buttons (id device_serial_number : string) (data : entity) (type : string).

Inductive Numbers :=
| mk_Numbers (id device_serial_number : string) (data : entity) (type : string).

Inductive Selects :=
| mk_Selects (id device_serial_number : string) (data : entity) (type : string).

Inductive ScheduleInfo :=
| mk_ScheduleInfo (schedule_id : string) (data : schedule_info)
    (device_serial_number : string) (start_time : datetime).

Inductive ScheduleDateTime :=
| mk_ScheduleDateTime (id device_serial_number : string) (data : entity) (type : string).

Record RedbackTechData := mk_RedbackTechData {
  user_id : string;
  inverters : gmap string Inverters;
  batterys : gmap string Batterys;
  entities : gmap string RedbackEntitys;
  devices : gmap string DeviceInfo;
  buttons : gmap string Buttons;
  numbers : gmap string Numbers;
  selects : gmap string Selects;
  schedules : gmap string ScheduleInfo;
  schedules_datetime_data : gmap string ScheduleDateTime
}.

End Data.

(* ================================================================== *)
(** * The monad of the methods *)
(* ================================================================== *)

Module Effects.

(** A method runs on the client object and the world, and ends by
    returning or raising; what it did to the object before raising stays
    done. *)
Definition M (A : Type) : Type := client -> world -> outcome A * client * world.

#[global] Instance M_ret : MRet M := fun A a s w => (Return a, s, w).
#[global] Instance M_bind : MBind M :=
  fun A B f m s w =>
    match m s w with
    | (Return a, s', w') => f a s' w'
    | (Raise e, s', w') => (Raise e, s', w')
    end.

Definition raise {A} (e : exn) : M A := fun s w => (Raise e, s, w).
Definition lift {A} (o : outcome A) : M A := fun s w => (o, s, w).
Definition gets {A} (f : client -> A) : M A := fun s w => (Return (f s), s, w).
Definition modify (g : client -> client) : M unit := fun s w => (Return tt, g s, w).

(** Looking at the world without changing it *)
Definition observe {A} (f : world -> A) : M A := fun s w => (Return (f w), s, w).

(** Reading an attribute that may not be set *)
Definition attr {A} (f : client -> option A) : M A :=
  fun s w => (of_option AttributeError (f s), s, w).

(** [for x in l: body(x)] *)
Fixpoint for_each {A} (l : list A) (body : A -> M unit) : M unit :=
  match l with
  | [] => mret tt
  | x :: l' => body x;; for_each l' body
  end.

(** A loop that carries local variables *)
Fixpoint for_fold {A B} (l : list A) (acc : B) (body : B -> A -> M B) : M B :=
  match l with
  | [] => mret acc
  | x :: l' => acc' ← body acc x; for_fold l' acc' body
  end.

(** ** The world *)

Definition session_open (w : world) (h : nat) : bool :=
  match sessions w !! h with Some b => b | None => false end.

Definition tick (w : world) : world :=
  mk_world (clock w) (utcoffset w) (S (ticks w)) (peer w) (sent w) (sessions w).

(** [datetime.now()] *)
Definition now : M datetime :=
  fun s w => (Return (mk_datetime (clock w (ticks w)) None), s, tick w).

(** [datetime.now(timezone.utc)] *)
Definition now_utc : M datetime :=
  fun s w => (Return (mk_datetime (clock w (ticks w) - utcoffset w) (Some 0)), s, tick w).

(** One HTTP exchange *)
Definition send (r : request) : M reply :=
  fun s w =>
    (Return (peer w (length (sent w)) r), s,
     mk_world (clock w) (utcoffset w) (ticks w) (peer w) (sent w ++ [r]) (sessions w)).

(** [ClientSession()] *)
Definition new_session : M nat :=
  fun s w =>
    (Return (length (sessions w)), s,
     mk_world (clock w) (utcoffset w) (ticks w) (peer w) (sent w) (sessions w ++ [true])).

(** [session.close()] *)
Definition close_session (h : nat) : M unit :=
  fun s w =>
    (Return tt, s,
     mk_world (clock w) (utcoffset w) (ticks w) (peer w) (sent w) (<[h := false]> (sessions w))).


(** ** Assignments to the attributes *)

Definition set_token v (s : client) : client :=
  let 'mk_client a0 _ a2 a3 a4 a5 a6 a7 a8 a9 a10 a11 a12 a13 a14 a15 a16 a17 a18 a19 a20 := s in
  mk_client a0 v a2 a3 a4 a5 a6 a7 a8 a9 a10 a11 a12 a13 a14 a15 a16 a17 a18 a19 a20.
Definition set_token_type v (s : client) : client :=
  let 'mk_client a0 a1 _ a3 a4 a5 a6 a7 a8 a9 a10 a11 a12 a13 a14 a15 a16 a17 a18 a19 a20 := s in
  mk_client a0 a1 v a3 a4 a5 a6 a7 a8 a9 a10 a11 a12 a13 a14 a15 a16 a17 a18 a19 a20.
Definition set_token_expiration v (s : client) : client :=
  let 'mk_client a0 a1 a2 _ a4 a5 a6 a7 a8 a9 a10 a11 a12 a13 a14 a15 a16 a17 a18 a19 a20 := s in
  mk_client a0 a1 a2 v a4 a5 a6 a7 a8 a9 a10 a11 a12 a13 a14 a15 a16 a17 a18 a19 a20.
Definition set_GAFToken v (s : client) : client :=
  let 'mk_client a0 a1 a2 a3 _ a5 a6 a7 a8 a9 a10 a11 a12 a13 a14 a15 a16 a17 a18 a19 a20 := s in
  mk_client a0 a1 a2 a3 v a5 a6 a7 a8 a9 a10 a11 a12 a13 a14 a15 a16 a17 a18 a19 a20.
Definition set_session2 v (s : client) : client :=
  let 'mk_client a0 a1 a2 a3 a4 _ a6 a7 a8 a9 a10 a11 a12 a13 a14 a15 a16 a17 a18 a19 a20 := s in
  mk_client a0 a1 a2 a3 a4 v a6 a7 a8 a9 a10 a11 a12 a13 a14 a15 a16 a17 a18 a19 a20.
Definition set_device_info_refresh_time v (s : client) : client :=
  let 'mk_client a0 a1 a2 a3 a4 a5 _ a7 a8 a9 a10 a11 a12 a13 a14 a15 a16 a17 a18 a19 a20 := s in
  mk_client a0 a1 a2 a3 a4 a5 v a7 a8 a9 a10 a11 a12 a13 a14 a15 a16 a17 a18 a19 a20.
Definition set_serial_numbers v (s : client) : client :=
  let 'mk_client a0 a1 a2 a3 a4 a5 a6 _ a8 a9 a10 a11 a12 a13 a14 a15 a16 a17 a18 a19 a20 := s in
  mk_client a0 a1 a2 a3 a4 a5 a6 v a8 a9 a10 a11 a12 a13 a14 a15 a16 a17 a18 a19 a20.
Definition set__serial_numbers v (s : client) : client :=
  let 'mk_client a0 a1 a2 a3 a4 a5 a6 a7 _ a9 a10 a11 a12 a13 a14 a15 a16 a17 a18 a19 a20 := s in
  mk_client a0 a1 a2 a3 a4 a5 a6 a7 v a9 a10 a11 a12 a13 a14 a15 a16 a17 a18 a19 a20.
Definition set_serial_number v (s : client) : client :=
  let 'mk_client a0 a1 a2 a3 a4 a5 a6 a7 a8 _ a10 a11 a12 a13 a14 a15 a16 a17 a18 a19 a20 := s in
  mk_client a0 a1 a2 a3 a4 a5 a6 a7 a8 v a10 a11 a12 a13 a14 a15 a16 a17 a18 a19 a20.
Definition set_ross_version v (s : client) : client :=
  let 'mk_client a0 a1 a2 a3 a4 a5 a6 a7 a8 a9 _ a11 a12 a13 a14 a15 a16 a17 a18 a19 a20 := s in
  mk_client a0 a1 a2 a3 a4 a5 a6 a7 a8 a9 v a11 a12 a13 a14 a15 a16 a17 a18 a19 a20.
Definition set_entities v (s : client) : client :=
  let 'mk_client a0 a1 a2 a3 a4 a5 a6 a7 a8 a9 a10 _ a12 a13 a14 a15 a16 a17 a18 a19 a20 := s in
  mk_client a0 a1 a2 a3 a4 a5 a6 a7 a8 a9 a10 v a12 a13 a14 a15 a16 a17 a18 a19 a20.
Definition set_device_info v (s : client) : client :=
  let 'mk_client a0 a1 a2 a3 a4 a5 a6 a7 a8 a9 a10 a11 _ a13 a14 a15 a16 a17 a18 a19 a20 := s in
  mk_client a0 a1 a2 a3 a4 a5 a6 a7 a8 a9 a10 a11 v a13 a14 a15 a16 a17 a18 a19 a20.
Definition set_numbers v (s : client) : client :=
  let 'mk_client a0 a1 a2 a3 a4 a5 a6 a7 a8 a9 a10 a11 a12 _ a14 a15 a16 a17 a18 a19 a20 := s in
  mk_client a0 a1 a2 a3 a4 a5 a6 a7 a8 a9 a10 a11 a12 v a14 a15 a16 a17 a18 a19 a20.
Definition set_selects v (s : client) : client :=
  let 'mk_client a0 a1 a2 a3 a4 a5 a6 a7 a8 a9 a10 a11 a12 a13 _ a15 a16 a17 a18 a19 a20 := s in
  mk_client a0 a1 a2 a3 a4 a5 a6 a7 a8 a9 a10 a11 a12 a13 v a15 a16 a17 a18 a19 a20.
Definition set_schedule_datetime v (s : client) : client :=
  let 'mk_client a0 a1 a2 a3 a4 a5 a6 a7 a8 a9 a10 a11 a12 a13 a14 _ a16 a17 a18 a19 a20 := s in
  mk_client a0 a1 a2 a3 a4 a5 a6 a7 a8 a9 a10 a11 a12 a13 a14 v a16 a17 a18 a19 a20.
Definition set_schedules v (s : client) : client :=
  let 'mk_client a0 a1 a2 a3 a4 a5 a6 a7 a8 a9 a10 a11 a12 a13 a14 a15 _ a17 a18 a19 a20 := s in
  mk_client a0 a1 a2 a3 a4 a5 a6 a7 a8 a9 a10 a11 a12 a13 a14 a15 v a17 a18 a19 a20.
Definition set_site_load v (s : client) : client :=
  let 'mk_client a0 a1 a2 a3 a4 a5 a6 a7 a8 a9 a10 a11 a12 a13 a14 a15 a16 _ a18 a19 a20 := s in
  mk_client a0 a1 a2 a3 a4 a5 a6 a7 a8 a9 a10 a11 a12 a13 a14 a15 a16 v a18 a19 a20.
Definition set_control_settings v (s : client) : client :=
  let 'mk_client a0 a1 a2 a3 a4 a5 a6 a7 a8 a9 a10 a11 a12 a13 a14 a15 a16 a17 _ a19 a20 := s in
  mk_client a0 a1 a2 a3 a4 a5 a6 a7 a8 a9 a10 a11 a12 a13 a14 a15 a16 a17 v a19 a20.
Definition set_schedule_selected v (s : client) : client :=
  let 'mk_client a0 a1 a2 a3 a4 a5 a6 a7 a8 a9 a10 a11 a12 a13 a14 a15 a16 a17 a18 _ a20 := s in
  mk_client a0 a1 a2 a3 a4 a5 a6 a7 a8 a9 a10 a11 a12 a13 a14 a15 a16 a17 a18 v a20.
Definition set_temp_voltage v (s : client) : client :=
  let 'mk_client a0 a1 a2 a3 a4 a5 a6 a7 a8 a9 a10 a11 a12 a13 a14 a15 a16 a17 a18 a19 _ := s in
  mk_client a0 a1 a2 a3 a4 a5 a6 a7 a8 a9 a10 a11 a12 a13 a14 a15 a16 a17 a18 a19 v.

(** [self._redback_entities.append(e)] and its siblings *)
Definition append_entity (e : entity) : M unit :=
  modify (fun s => set_entities (_redback_entities s ++ [e]) s).
Definition append_device_info (d : device_info) : M unit :=
  modify (fun s => set_device_info (_redback_device_info s ++ [d]) s).
Definition append_number (e : entity) : M unit :=
  modify (fun s => set_numbers (_redback_numbers s ++ [e]) s).
Definition append_select (e : entity) : M unit :=
  modify (fun s => set_selects (_redback_selects s ++ [e]) s).
Definition append_schedule_datetime (e : entity) : M unit :=
  modify (fun s => set_schedule_datetime (_redback_schedule_datetime s ++ [e]) s).
Definition append_schedule (r : schedule_info) : M unit :=
  modify (fun s => set_schedules (_redback_schedules s ++ [r]) s).

(** ** What a run did *)

Definition result_of {A} (r : outcome A * client * world) : outcome A := r.1.1.
Definition final_state {A} (r : outcome A * client * world) : client := r.1.2.
Definition final_world {A} (r : outcome A * client * world) : world := r.2.

(** The run ended by returning. *)
Definition returned {A} (r : outcome A * client * world) : Prop :=
  match result_of r with Return _ => True | Raise _ => False end.

(** [f] has the same value after [m] as before, however [m] ends. *)
Definition unchanged {A B} (f : client -> B) (m : M A) : Prop :=
  forall s w, f (final_state (m s w)) = f s.

(** [m] only appends to [_redback_entities], however it ends. *)
Definition grows {A} (m : M A) : Prop :=
  forall s w, _redback_entities s `prefix_of` _redback_entities (final_state (m s w)).

(** Triples for the runs of [m] that return. *)
Definition hoare {A} (P : client -> world -> Prop) (m : M A)
    (Q : A -> client -> world -> Prop) : Prop :=
  forall s w, P s w -> forall a s' w', m s w = (Return a, s', w') -> Q a s' w'.

(** An assertion on the entity list that appending keeps *)
Definition on_entities (phi : list entity -> Prop) : client -> world -> Prop :=
  fun s _ => phi (_redback_entities s).

Definition monotone (phi : list entity -> Prop) : Prop :=
  forall l l', l `prefix_of` l' -> phi l -> phi l'.

(** [m] does the same whatever the client was turned into by [T], and
    leaves [T]'s mark on the result. *)
Definition commutes {A} (T : client -> client) (m : M A) : Prop :=
  forall s w, m (T s) w = let '(r, s', w') := m s w in (r, T s', w').

End Effects.
Export Effects.

(* ================================================================== *)
(** * Sample worlds and payloads *)
(* ================================================================== *)

Module Samples.

Local Open Scope string_scope.
Local Open Scope Z_scope.

Definition creds0 : credentials := mk_credentials "id" "secret" "me@example.org" "pw".

(** A clock that starts at 2020-01-01 (day 737424 of the calendar) and
    advances by one second per reading *)
Definition clock0 (n : nat) : Z := 737424 * us_per_day + Z.of_nat n * us_per_second.

(** A vendor whose every answer is an HTTP 500 *)
Definition w_down : world :=
  mk_world clock0 0 0 (fun _ _ => mk_reply 500 "Internal Server Error" None) [] [].

(** The two pages of the portal the client reads: the login form and the
    form [GlobalAntiForgeryToken], each with its hidden input *)
Definition login_page : string :=
  "<html><form class='login-form'><input name='__RequestVerificationToken' type='hidden' value='login-token'></form></html>".

Definition configure_page : string :=
  "<html><form id='GlobalAntiForgeryToken'><input name='__RequestVerificationToken' type='hidden' value='forgery-token'></form></html>".

(** A portal that serves its pages *)
Definition portal0 (r : request) : reply :=
  match method r, target r with
  | GET, PORTAL_LOGIN => mk_reply 200 login_page None
  | GET, PORTAL_CONFIGURE => mk_reply 200 configure_page None
  | _, _ => mk_reply 200 "<html></html>" None
  end.

Definition w_portal : world := mk_world clock0 0 0 (fun _ => portal0) [] [].

(** A portal whose pages have no form *)
Definition w_blank : world :=
  mk_world clock0 0 0 (fun _ _ => mk_reply 200 "<html></html>" None) [] [].

(** What follows the first occurrence of [sub] in [s] *)
Fixpoint after_substring (sub s : string) : option string :=
  if String.prefix sub s
  then Some (String.substring (String.length sub) (String.length s) s)
  else match s with
       | String _ s' => after_substring sub s'
       | EmptyString => None
       end.

(** A page parser for such pages.  The form asked for is found by its
    class or its id; without it there is nothing to search for the input
    ([AttributeError], as without a hidden input), and an input without a
    value is a [KeyError]. *)
Definition hidden0 (kind : Z) (page : string) : outcome string :=
  let form := if kind =? 1 then "class='login-form'" else "id='GlobalAntiForgeryToken'" in
  if has_substring form page && has_substring "type='hidden'" page then
    match after_substring "value='" page with
    | Some rest => index (split "'" rest) 0
    | None => Raise KeyError
    end
  else Raise AttributeError.

(** A phase with the instantaneous voltage [v] *)
Definition phase_at (id : string) (v : pynum) : phase_data :=
  mk_phase_data id (Some (PyFloat 0.1)) (Some (PyFloat 0.6)) (Some v)
    (Some (PyFloat 2.5)) (VNum (PyFloat 0.98)).

Definition three_phases (v : pynum) : list phase_data :=
  [phase_at "A" v; phase_at "B" v; phase_at "C" v].

(** One inverter with a battery of two modules *)
Definition serial0 : string := "RB17123456789012".

Definition node0_sample : node_static :=
  mk_node_static serial0 "ST10000" (VStr "080819") (VStr "080819")
    (Some (PyInt 1)) [VStr "Unknown"; VStr "US3000"].

Definition site_sample : site_static :=
  mk_site_static (VNum (PyFloat (-33.8))) (VNum (PyFloat 151.2)) (VStr "Ethernet")
    (VNum (PyInt 10000)) (VNum (PyInt 10000)) (VNum (PyInt 10000))
    (VNum (PyFloat 5)) (VNum (PyFloat 5)) (VNum (PyFloat 5))
    (VStr "Panel") (VNum (PyFloat 6.6)) (VStr "Hybrid")
    (VNum (PyFloat 10)) (VNum (PyFloat 10)) (VNum (PyFloat 4.8)) (VNum (PyFloat 4.8))
    (Some (PyFloat 7.1)) (VNum (PyFloat 6.4))
    (VStr "2020-01-01") (VStr "4100000000") (VStr "S1") (VStr "Residential").

Definition static_sample : static_data := mk_static_data [node0_sample] site_sample.

Definition module_sample : battery_module :=
  mk_battery_module (Some (PyFloat (-1.5))) (VNum (PyFloat 51.2))
    (Some (PyFloat (-0.08))) (Some (PyFloat 0.75)).

Definition battery_sample : battery_data :=
  mk_battery_data (VNum (PyFloat (-3))) (VNum (PyFloat 51.2)) (VStr "Low") (VNum (PyInt 2))
    [module_sample; module_sample]
    [mk_battery_cabinet (VNum (PyFloat 24.5)) (VStr "Off")].

(** The dynamic payload of the inverter with the PV power [pv] and the
    phases [phases] *)
Definition dynamic_of (pv : float) (phases : list phase_data) : dynamic_data :=
  mk_dynamic_data "2024-01-01T10:00:00Z" (VNum (PyFloat 50)) (Some (PyFloat pv))
    (VNum (PyFloat 35)) (Some (PyFloat 1500)) None (Some (PyInt 1200)) (Some (PyFloat 730.5))
    (VStr "OK") [mk_power_mode (VStr "Auto") (VNum (PyInt 0))]
    [mk_pv_input (VNum (PyFloat 4.1)) (VNum (PyFloat 310)) (VNum (PyFloat 1.2))]
    phases
    (Some (PyFloat 0.75)) (Some (PyFloat (-0.16))) (Some (PyFloat 810)) None
    battery_sample.

Definition dynamic_sample : dynamic_data := dynamic_of 2.4 (three_phases (PyFloat 230)).

(** A phase that is not connected: all its readings are [null].  A phase
    that reports no voltage and no current, but its powers *)
Definition phase_absent (id : string) : phase_data :=
  mk_phase_data id None None None None VNone.

Definition phase_idle (id : string) : phase_data :=
  mk_phase_data id (Some (PyFloat 0)) (Some (PyFloat 0)) None None VNone.

(** A single-phase inverter: phase A at 230 V, phase B not connected; and
    the same with a phase B that reports its powers *)
Definition dynamic_one_phase : dynamic_data :=
  dynamic_of 2.4 [phase_at "A" (PyFloat 230); phase_absent "B"].

Definition dynamic_idle_phase : dynamic_data :=
  dynamic_of 2.4 [phase_at "A" (PyFloat 230); phase_idle "B"].

Definition config_sample : config_data :=
  mk_config_data (Some (PyFloat 0.1)) (Some (PyFloat 0.2)).

Definition schedule_sample : vendor_schedule :=
  mk_vendor_schedule "sch-1" serial0 (VStr "S1") "2024-01-01T10:00:00Z" "0.02:15:00"
    (VStr "ChargeBattery") (VNum (PyInt 3000)).

(** A [fromisoformat] that knows the timestamp of the samples
    (2024-01-01 is day 738885 of the calendar) *)
Definition fromisoformat0 (s : string) : outcome datetime :=
  if String.eqb s "2024-01-01T10:00:00+00:00"
  then Return (mk_datetime (738885 * us_per_day + 36000 * us_per_second) (Some 0))
  else Raise ValueError.

(** A vendor that serves the samples.  Its node listing is empty at first
    and names the inverter from the third request on. *)
Definition vendor0 (n : nat) (r : request) : reply :=
  let ok j := mk_reply 200 "" (Some j) in
  match target r with
  | API_AUTH => ok (JAuth (mk_auth_response "abc" "Bearer" 86400))
  | API_NODES =>
      if (n <? 2)%nat then ok (JNodes [[]])
      else ok (JNodes [[mk_node_ref "Inverter" serial0; mk_node_ref "Meter" "M1"]])
  | API_STATIC_BY_SERIAL => ok (JStatic static_sample)
  | API_ENERGY_DYNAMIC_BY_SERIAL => ok (JDynamic dynamic_sample)
  | API_CONFIG_BY_SERIAL => ok (JConfig config_sample)
  | API_SCHEDULE_BY_SERIALNUMBER => ok (JSchedules [schedule_sample])
  | _ => ok JOther
  end.

Definition w_api : world := mk_world clock0 0 0 vendor0 [] [].

(** A vendor that answers every request with the JSON value [null] *)
Definition w_null : world :=
  mk_world clock0 0 0 (fun _ _ => mk_reply 200 "null" (Some JNull)) [] [].



(** A client that has normalized the inverter of the samples *)
Definition after_inverter : client :=
  set_temp_voltage {[ serial0 := PyFloat 398.4 ]}
    (set_site_load {[ serial0 := PyFloat 3.9 ]} (init creds0)).

(** A vendor that turns the credentials down *)
Definition w_rejecting : world :=
  mk_world clock0 0 0 (fun _ _ => mk_reply 200 "" (Some (JError "invalid_client"))) [] [].

(** A client that knows the inverter of the samples: its device info, its
    control settings (3000 W for 90 minutes from 10:00, the start time a
    string), the selected schedule and three stored schedules, one of them
    of another inverter *)
Definition start0 : datetime :=
  mk_datetime (738885 * us_per_day + 36000 * us_per_second) (Some 0).

Definition device0 : device_info :=
  mk_device_info "9012inv" "ST10000 - inverter" "ST10000" (VStr "080819") (VStr "080819")
    serial0.

Definition settings0 : control_setting :=
  mk_control_setting (VNum (PyInt 3000)) (VNum (PyInt 90)) (VStr "ChargeBattery")
    (Some (VStr "2024-01-01T10:00:00Z")).

Definition stored_schedule (id sn : string) : schedule_info :=
  mk_schedule_info id sn (VStr "S1") start0
    (mk_datetime (738885 * us_per_day + 44100 * us_per_second) (Some 0)) 135
    (VStr "ChargeBattery") (VNum (PyInt 3000)) "9012inv" "inverter".

Definition known : client :=
  set_schedules
    [ stored_schedule "sch-1" serial0; stored_schedule "sch-x" "RB17000000000000";
      stored_schedule "sch-2" serial0 ]
    (set_schedule_selected {[ "9012inv" := VStr "sch-1" ]}
       (set_control_settings {[ "9012inv" := settings0 ]}
          (set_device_info [device0] (init creds0)))).

(** The same client with a token that expired a second before the clock
    starts *)
Definition known_expired : client :=
  set_token_expiration (Some (mk_datetime (clock0 0 - us_per_second) None))
    (set_token (Some "Bearer old") known).

End Samples.

(* ================================================================== *)
(** * The methods of [RedbackTechClient] *)
(* ================================================================== *)

Module Client.

Local Open Scope string_scope.
Local Open Scope Z_scope.
Local Open Scope list_scope.

(** [id_temp = Id[-4:] + suffix; id_temp = id_temp.lower()] *)
Definition device_id_of (Id suffix : string) : string :=
  lower (last_chars 4 Id +:+ suffix).

(** A dictionary with the four keys every entity has *)
Definition ent (v : pyval) (entity_name device_id device_type : string) : entity :=
  mk_entity v entity_name device_id device_type None None.

(** The same with a ['type_set'] key *)
Definition ent_typed (v : pyval) (entity_name device_id device_type ts : string) : entity :=
  mk_entity v entity_name device_id device_type (Some ts) None.

(** A run of appends whose values cannot raise *)
Definition append_all (l : list entity) : M unit := for_each l append_entity.

(** [x.get(k) is None] and friends *)
Definition py_not (r : option bool) : bool :=
  match r with None => true | Some b => negb b end.

(** A number out of a dynamically typed value, for arithmetic *)
Definition as_num (v : pyval) : outcome pynum :=
  match v with
  | VNum n => Return n
  | VBool b => Return (PyInt (if b then 1 else 0))
  | _ => Raise TypeError
  end.

(** [int(v)] *)
Definition py_int (v : pyval) : outcome Z :=
  match v with
  | VNum n => int_of_num n
  | VBool b => Return (if b then 1 else 0)
  | VStr s => int_of_str s
  | _ => Raise TypeError
  end.

(** Arithmetic on JSON numbers that may be [null] *)
Definition jadd (x : pynum) (y : jnum) : outcome pynum := b ← need_num y; num_add x b.
Definition jsub (x y : jnum) : outcome pynum := a ← need_num x; b ← need_num y; num_sub a b.
Definition jmul (x y : jnum) : outcome pynum := a ← need_num x; b ← need_num y; num_mul a b.

(** The conversion of an energy counter (lines 908-927 and 1043-1052):
    [v/1000] when [v != None], else [v] itself. *)
Definition kwh_to_mwh (v : jnum) : outcome pyval :=
  match v with
  | Some n => r ← num_truediv n (PyInt 1000); Return (VNum r)
  | None => Return (of_jnum v)
  end.

(** The duration of a vendor schedule in minutes (lines 826-830) *)
Definition schedule_duration (Duration : string) : outcome Z :=
  '(days, Duration) ←
    (if contains "." Duration then
       d ← index (split "." Duration) 0;
       n ← int_of_str d;
       rest ← index (split "." Duration) 1;
       Return (n * 24 * 60, rest)
     else Return (0, Duration));
  h ← index (split ":" Duration) 0;
  hours ← int_of_str h;
  m ← index (split ":" Duration) 1;
  minutes ← int_of_str m;
  Return (hours * 60 + minutes + days).

(** The duration string of [set_inverter_schedule] (lines 244-251) *)
Definition duration_str (duration : pyval) : outcome string :=
  d ← as_num duration;
  q ← num_truediv d (PyInt 1440);
  days ← int_of_num q;
  let days := if days <? 0 then 0 else days in
  q ← num_truediv d (PyInt 60);
  hours ← int_of_num q;
  r ← num_sub d (PyInt (hours * 60));
  m ← int_of_num r;
  let minutes := last_chars 2 ("00" +:+ str_of_int m) in
  let hours := last_chars 2 ("00" +:+ str_of_int hours) in
  Return (str_of_int days +:+ "." +:+ hours +:+ ":" +:+ minutes +:+ ":00").

(** The local variables of the loop over the phases *)
Record phase_sums := mk_phase_sums {
  phase_count : Z;
  phase_voltage_sum : pynum;
  phase_Current_sum : pynum;
  phase_power_exported_sum : pynum;
  phase_power_imported_sum : pynum;
  phase_power_net_sum : pynum
}.

Definition phase_sums_0 : phase_sums :=
  mk_phase_sums 0 (PyInt 0) (PyInt 0) (PyInt 0) (PyInt 0) (PyInt 0).

(** The body of [if phase['VoltageInstantaneousV'] != None:] *)
Definition add_phase (acc : phase_sums) (phase : phase_data) : outcome phase_sums :=
  match VoltageInstantaneousV phase with
  | Some v =>
      vs ← num_add (phase_voltage_sum acc) v;
      cs ← jadd (phase_Current_sum acc) (CurrentInstantaneousA phase);
      es ← jadd (phase_power_exported_sum acc) (ActiveExportedPowerInstantaneouskW phase);
      ims ← jadd (phase_power_imported_sum acc) (ActiveImportedPowerInstantaneouskW phase);
      net ← jsub (ActiveImportedPowerInstantaneouskW phase) (ActiveExportedPowerInstantaneouskW phase);
      ns ← num_add (phase_power_net_sum acc) net;
      Return (mk_phase_sums (phase_count acc + 1) vs cs es ims ns)
  | None => Return acc
  end.

(** [round(phase_voltage_sum / phase_count * sqrt(phase_count), 1)] *)
Definition total_phase_voltage (acc : phase_sums) : outcome pynum :=
  q ← num_truediv (phase_voltage_sum acc) (PyInt (phase_count acc));
  r ← math_sqrt (PyInt (phase_count acc));
  p ← num_mul q (PyFloat r);
  num_round p 1.

(** [data['Data']['Nodes'][0]['StaticData']] *)
Definition node0 (d : static_data) : outcome node_static := index (Nodes d) 0.

Section Methods.

(** What [constants.py] defines, and the library calls whose code is not
    the client's: [datetime.fromisoformat] and the extraction of the hidden
    input of a form by BeautifulSoup ([kind] 1 is the login form, any other
    the form [GlobalAntiForgeryToken]). *)
Set Default Proof Using "Type".

Variable AUTH_ERROR_CODES : list string.
Variable DEVICEINFOREFRESH : Z.
Variable INVERTER_MODES : pyval.
Variable fromisoformat : string -> outcome datetime.
Variable hidden_input_value : Z -> string -> outcome string.

(** ** Transport *)

Definition _api_response (resp : reply) : M json_body :=
  if negb (status resp =? 200) then raise RedbackTechClientError
  else
    match json resp with
    | None => raise RedbackTechClientError
    | Some response =>
        has ← lift (has_error response);
        if has : bool then
          code ← lift (error_code response);
          if existsb (String.eqb code) AUTH_ERROR_CODES then raise AuthError
          else raise RedbackTechClientError
        else mret response
    end.

Definition _api_post (url : endpoint) (p : string) (auth : option string)
    (d : payload) : M json_body :=
  resp ← send (mk_request None POST url p auth d); _api_response resp.

(** [session.post(url, json=data)]: the client's own [ClientSession]
    serializes [data] with [json.dumps] when the call is made, before
    anything is sent. *)
Definition _api_post_json (url : endpoint) (p : string) (auth : option string)
    (d : payload) : M json_body :=
  lift (json_dumps d);;
  _api_post url p auth d.

Definition _api_get (url : endpoint) (p : string) (auth : option string) : M json_body :=
  resp ← send (mk_request None GET url p auth NoData); _api_response resp.

Definition _api_delete (url : endpoint) (p : string) (auth : option string) : M json_body :=
  resp ← send (mk_request None DELETE url p auth NoData); _api_response resp.

Definition _portal_response (resp : reply) : M string :=
  if negb (status resp =? 200) then raise RedbackTechClientError
  else mret (text resp).

(** A request on a closed session is refused by the HTTP library. *)
Definition portal_send (m : http_method) (url : endpoint) (p : string)
    (d : payload) : M string :=
  h ← attr _session2;
  usable ← observe (fun w => session_open w h);
  if usable : bool
  then resp ← send (mk_request (Some h) m url p None d); _portal_response resp
  else raise RuntimeError.

Definition _portal_post := portal_send POST.
Definition _portal_get (url : endpoint) (p : string) : M string :=
  portal_send GET url p NoData.

(** ** Authentication *)

Definition _api_login : M unit :=
  c ← gets creds;
  response ← _api_post API_AUTH "" None (LoginForm (client_id c) (client_secret c));
  r ← lift (as_auth response);
  modify (set_token (Some (token_type_ r +:+ " " +:+ access_token r)));;
  modify (set_token_type (Some (VList [VStr "token_type"])));;
  t ← now;
  td ← lift (timedelta_seconds (expires_in r));
  e ← lift (datetime_add t td);
  modify (set_token_expiration (Some e)).

(** [self.token or self.token_expiration] *)
Definition token_or_expiration (s : client) : option (string + datetime) :=
  match token s with
  | Some (String c t) => Some (inl (String c t))
  | _ => inr <$> token_expiration s
  end.

Definition _check_token : M unit :=
  current_dt ← now;
  v ← gets token_or_expiration;
  match v with
  | None => _api_login
  | Some _ =>
      e ← gets token_expiration;
      e ← lift (of_option TypeError e);
      td ← lift (datetime_sub e current_dt);
      if total_seconds_lt td 3600 then _api_login else mret tt
  end.

Definition _get_portal_token (response : string) (kind : Z) : M unit :=
  v ← lift (hidden_input_value kind response);
  modify (set_GAFToken (Some v)).

Definition _portal_login : M unit :=
  h ← new_session;
  modify (set_session2 (Some h));;
  response ← _portal_get PORTAL_LOGIN "";
  _get_portal_token response 1;;
  c ← gets creds;
  tok ← gets _GAFToken;
  _portal_post PORTAL_LOGIN "" (PortalLoginForm (portal_email c) (portal_password c) tok);;
  mret tt.

Definition test_api_connection : M bool :=
  _check_token;;
  tok ← gets token;
  mret (bool_decide (is_Some tok)).

Definition test_portal_connection : M bool :=
  modify (set_GAFToken None);;
  _portal_login;;
  tok ← gets _GAFToken;
  h ← attr _session2;
  if bool_decide (is_Some tok)
  then close_session h;; mret true
  else close_session h;; mret false.

(** ** Raw fetchers *)

Definition append_serial_number (x : string) : M unit :=
  l ← attr serial_numbers;
  modify (set_serial_numbers (Some (l ++ [x]))).

Definition _get_inverter_list : M (list string) :=
  modify (set_serial_numbers (Some []));;
  _check_token;;
  tok ← gets token;
  response ← _api_get API_NODES "" tok;
  sites ← lift (as_nodes response);
  for_each sites (fun site =>
    for_each site (fun node =>
      if String.eqb (node_Type node) "Inverter"
      then append_serial_number (node_SerialNumber node)
      else mret tt));;
  attr serial_numbers.

Definition _get_dynamic_by_serial (sn : string) : M json_body :=
  modify (set_serial_number (Some sn));;
  _check_token;;
  tok ← gets token;
  sn ← attr serial_number;
  _api_get API_ENERGY_DYNAMIC_BY_SERIAL sn tok.

Definition _get_config_by_serial (sn : string) : M json_body :=
  modify (set_serial_number (Some sn));;
  tok ← gets token;
  sn ← attr serial_number;
  _api_get API_CONFIG_BY_SERIAL sn tok.

Definition _get_static_by_serial (sn : string) : M json_body :=
  modify (set_serial_number (Some sn));;
  _check_token;;
  tok ← gets token;
  sn ← attr serial_number;
  _api_get API_STATIC_BY_SERIAL sn tok.

Definition _get_schedules_by_serial (sn : string) : M json_body :=
  modify (set_serial_number (Some sn));;
  _check_token;;
  tok ← gets token;
  sn ← attr serial_number;
  _api_get API_SCHEDULE_BY_SERIALNUMBER sn tok.

(** ** Device info and control entities *)

Definition _create_device_info_for (suffix label : string) (data : json_body) : M unit :=
  d ← lift (as_static data);
  n ← lift (node0 d);
  let id_temp := device_id_of (node_Id n) suffix in
  append_device_info
    (mk_device_info id_temp (ModelName n +:+ label) (ModelName n)
       (SoftwareVersion n) (FirmwareVersion n) (node_Id n)).

Definition _create_device_info_inverter := _create_device_info_for "inv" " - inverter".
Definition _create_device_info_battery := _create_device_info_for "bat" " - battery".

(** [if self._inverter_control_settings.get(id_temp) is None: ...update(...)] *)
Definition default_control_settings (id_temp : string) (with_start_time : bool) : M unit :=
  cs ← gets _inverter_control_settings;
  match cs !! id_temp with
  | Some _ => mret tt
  | None =>
      st ← (if with_start_time then t ← now_utc; mret (Some (VDatetime t)) else mret None);
      modify (fun s =>
        set_control_settings
          (<[id_temp := mk_control_setting (VNum (PyInt 0)) (VNum (PyInt 0)) (VStr "Auto") st]>
             (_inverter_control_settings s)) s)
  end.

(** [self._inverter_control_settings[id_temp]] *)
Definition control_settings_of (id_temp : string) : M control_setting :=
  cs ← gets _inverter_control_settings;
  lift (of_option KeyError (cs !! id_temp)).

Definition _create_datetime_entities (data : json_body) : M unit :=
  d ← lift (as_static data);
  n ← lift (node0 d);
  let id_temp := device_id_of (node_Id n) "inv" in
  default_control_settings id_temp true;;
  c ← control_settings_of id_temp;
  st ← lift (of_option KeyError (start_time c));
  append_schedule_datetime
    (ent_typed st "schedule_create_start_time" id_temp "inverter" "datetime.datetime").

Definition _create_number_entities (data : json_body) : M unit :=
  d ← lift (as_static data);
  n ← lift (node0 d);
  let id_temp := device_id_of (node_Id n) "inv" in
  default_control_settings id_temp true;;
  c ← control_settings_of id_temp;
  append_number
    (ent_typed (power_setting_duration c) "power_setting_duration" id_temp "inverter" "number.string");;
  c ← control_settings_of id_temp;
  append_number
    (ent_typed (power_setting_watts c) "power_setting_watts" id_temp "inverter" "number.string").

(** [self._redback_schedules] is a list throughout, so the branch for
    [None] of the source is never taken. *)
Definition _create_select_entities (data data2 : json_body) : M unit :=
  d ← lift (as_static data);
  n ← lift (node0 d);
  let id_temp := device_id_of (node_Id n) "inv" in
  default_control_settings id_temp false;;
  c ← control_settings_of id_temp;
  append_select
    (mk_entity (power_setting_mode c) "power_setting_mode" id_temp "inverter"
       (Some "select.string") (Some INVERTER_MODES));;
  sel ← gets _redback_schedule_selected;
  (match sel !! id_temp with
   | Some _ => mret tt
   | None => modify (fun s => set_schedule_selected (<[id_temp := VNone]> (_redback_schedule_selected s)) s)
   end);;
  schedules ← gets _redback_schedules;
  let schedule_options :=
    (fun sch => VStr (schedule_id sch)) <$>
      filter (fun sch => sch_device_id sch = id_temp) schedules in
  sel ← gets _redback_schedule_selected;
  v ← lift (of_option KeyError (sel !! id_temp));
  append_select
    (mk_entity v "schedule_id_selected" id_temp "inverter"
       (Some "select.string") (Some (VList schedule_options))).

(** ** Schedules *)

(** The body of [for schedule in data['Data']['Schedules']:] *)
Definition schedule_step (id_temp : string) (schedule : vendor_schedule) : M unit :=
  minutes ← lift (schedule_duration (Duration schedule));
  start ← lift (fromisoformat (replace "Z" "+00:00" (StartTimeUtc schedule)));
  td ← lift (timedelta_minutes minutes);
  end_time ← lift (datetime_add start td);
  start ← lift (fromisoformat (replace "Z" "+00:00" (StartTimeUtc schedule)));
  append_schedule
    (mk_schedule_info (ScheduleId schedule) (SerialNumber schedule) (SiteId schedule)
       start end_time minutes
       (DesiredMode_InverterMode schedule) (DesiredMode_ArgumentInWatts schedule)
       id_temp "inverter").

Definition _convert_responses_to_schedule_entities (data : json_body) : M unit :=
  schedules ← lift (as_schedules data);
  match schedules with
  | [] => mret tt
  | first :: _ =>
      let id_temp := device_id_of (SerialNumber first) "inv" in
      for_each schedules (schedule_step id_temp)
  end.

(** ** Inverter entities *)

(** The six entities of one phase; the sums are updated first. *)
Definition phase_step (id_temp : string) (acc : phase_sums) (phase : phase_data)
    : M phase_sums :=
  acc ← lift (add_phase acc phase);
  let phaseAlpha := lower (phase_Id phase) in
  let nm suffix := "inverter_phase_" +:+ phaseAlpha +:+ suffix in
  append_all
    [ ent (of_jnum (ActiveExportedPowerInstantaneouskW phase))
        (nm "_active_exported_power_instantaneous_kw") id_temp "inverter";
      ent (of_jnum (ActiveImportedPowerInstantaneouskW phase))
        (nm "_active_imported_power_instantaneous_kw") id_temp "inverter" ];;
  net ← lift (jsub (ActiveImportedPowerInstantaneouskW phase)
                   (ActiveExportedPowerInstantaneouskW phase));
  append_all
    [ ent (VNum net) (nm "_active_net_power_instantaneous_kw") id_temp "inverter";
      ent (of_jnum (VoltageInstantaneousV phase))
        (nm "_voltage_instantaneous_v") id_temp "inverter";
      ent (of_jnum (CurrentInstantaneousA phase))
        (nm "_current_instantaneous_a") id_temp "inverter";
      ent (PowerFactorInstantaneousMinus1to1 phase)
        (nm "_power_factor_instantaneous_minus_1to1") id_temp "inverter" ];;
  mret acc.

(** The three entities of one PV input; [pvId] counts from 1. *)
Definition pv_step (id_temp : string) (pvId : Z) (pv : pv_input) : M Z :=
  append_all
    [ ent (CurrentA pv) ("mppt_" +:+ str_of_int pvId +:+ "_current_a") id_temp "inverter";
      ent (pv_VoltageV pv) ("mppt_" +:+ str_of_int pvId +:+ "_voltage_v") id_temp "inverter";
      ent (PowerkW pv) ("mppt_" +:+ str_of_int pvId +:+ "_power_kw") id_temp "inverter" ];;
  mret (pvId + 1).

Definition _convert_responses_to_inverter_entities (data data2 : json_body) : M unit :=
  d ← lift (as_static data);
  n ← lift (node0 d);
  let id_temp := device_id_of (node_Id n) "inv" in
  let site := StaticData d in
  let e v nm := ent v nm id_temp "inverter" in
  append_all
    [ ent_typed (VStr (ModelName n)) "model_name" id_temp "inverter" "sensor.string";
      ent_typed (VStr (node_Id n)) "serial_number" id_temp "inverter" "sensor.string";
      ent_typed (Latitude site) "latitude" id_temp "inverter" "sensor.string";
      ent_typed (Longitude site) "longitude" id_temp "inverter" "sensor.string";
      e (RemoteAccessConnection_Type site) "network_connection";
      e (ApprovedCapacityW site) "approved_capacity_w";
      e (GenerationHardLimitVA site) "generation_hard_limit_va";
      e (GenerationSoftLimitVA site) "generation_soft_limit_va";
      e (ExportHardLimitkW site) "export_hard_limit_kw";
      e (ExportSoftLimitkW site) "export_soft_limit_kw";
      e (SiteExportLimitkW site) "site_export_limit_kw";
      e (PanelModel site) "pv_panel_model";
      e (PanelSizekW site) "pv_panel_size_kw";
      e (SystemType site) "system_type";
      e (InverterMaxExportPowerkW site) "inverter_max_export_power_kw";
      e (InverterMaxImportPowerkW site) "inverter_max_import_power_kw";
      e (CommissioningDate site) "commissioning_date";
      e (NMI site) "nmi";
      e (site_Id site) "site_id";
      e (site_Type site) "inverter_site_type";
      e (of_jnum (BatteryCount n)) "battery_count";
      e (SoftwareVersion n) "software_version";
      e (FirmwareVersion n) "firmware_version" ];;
  d2 ← lift (as_dynamic data2);
  ts ← lift (fromisoformat (replace "Z" "+00:00" (TimestampUtc d2)));
  append_all
    [ e (VDatetime ts) "timestamp_utc";
      e (FrequencyInstantaneousHz d2) "frequency_instantaneous";
      e (of_jnum (PvPowerInstantaneouskW d2)) "pv_power_instantaneous_kw";
      e (InverterTemperatureC d2) "inverter_temperature_c" ];;
  v ← lift (kwh_to_mwh (PvAllTimeEnergykWh d2));
  append_entity (e v "pv_all_time_energy_mwh");;
  v ← lift (kwh_to_mwh (ExportAllTimeEnergykWh d2));
  append_entity (e v "export_all_time_energy_mwh");;
  v ← lift (kwh_to_mwh (ImportAllTimeEnergykWh d2));
  append_entity (e v "import_all_time_energy_mwh");;
  v ← lift (kwh_to_mwh (LoadAllTimeEnergykWh d2));
  append_entity (e v "load_all_time_energy_mwh");;
  append_entity (e (Status d2) "status");;
  inv ← lift (index (Inverters d2) 0);
  append_entity (e (InverterMode inv) "power_mode_inverter_mode");;
  inv ← lift (index (Inverters d2) 0);
  append_entity (e (PowerW inv) "power_mode_power_w");;
  for_fold (PVs d2) 1 (pv_step id_temp);;
  acc ← for_fold (Phases d2) phase_sums_0 (phase_step id_temp);
  tv ← lift (total_phase_voltage acc);
  modify (fun s => set_temp_voltage (<[node_Id n := tv]> (_redback_temp_voltage s)) s);;
  tv ← lift (total_phase_voltage acc);
  append_all
    [ e (VNum tv) "inverter_phase_total_voltage_instantaneous_v";
      e (VNum (phase_Current_sum acc)) "inverter_phase_total_current_instantaneous_a";
      e (VNum (phase_power_exported_sum acc))
        "inverter_phase_total_active_exported_power_instantaneous_kw";
      e (VNum (phase_power_imported_sum acc))
        "inverter_phase_total_active_imported_power_instantaneous_kw" ];;
  r ← lift (num_round (phase_power_net_sum acc) 3);
  append_entity (e (VNum r) "inverter_phase_total_active_net_power_instantaneous_kw");;
  load ← lift (jadd (phase_power_net_sum acc) (PvPowerInstantaneouskW d2));
  modify (fun s => set_site_load (<[node_Id n := load]> (_redback_site_load s)) s).

(** ** Battery entities *)

(** The local variables of the loop over [BatteryModels] *)
Record module_vars := mk_module_vars {
  batteryName : pyval;
  batteryId : Z;
  battery_current_a : pynum;
  battery_power_kw : pynum
}.

Definition module_step (id_temp : string) (d2 : dynamic_data)
    (acc : module_vars) (battery : pyval) : M module_vars :=
  let e v nm := ent v nm id_temp "battery" in
  let i := str_of_int (batteryId acc) in
  let batteryName :=
    match battery with VStr "Unknown" => batteryName acc | _ => battery end in
  append_entity (e batteryName ("battery_" +:+ i +:+ "_model"));;
  m ← lift (index (Modules (Battery d2)) (batteryId acc - 1));
  cur ← lift (jadd (battery_current_a acc) (module_CurrentNegativeIsChargingA m));
  append_entity
    (e (of_jnum (module_CurrentNegativeIsChargingA m))
       ("battery_" +:+ i +:+ "_current_negative_is_charging_a"));;
  m ← lift (index (Modules (Battery d2)) (batteryId acc - 1));
  append_entity (e (module_VoltageV m) ("battery_" +:+ i +:+ "_voltage_v"));;
  m ← lift (index (Modules (Battery d2)) (batteryId acc - 1));
  pw ← lift (jadd (battery_power_kw acc) (PowerNegativeIsChargingkW m));
  append_entity
    (e (of_jnum (PowerNegativeIsChargingkW m))
       ("battery_" +:+ i +:+ "_power_negative_is_charging_kw"));;
  m ← lift (index (Modules (Battery d2)) (batteryId acc - 1));
  soc ← lift (jmul (SoC0To1 m) (Some (PyInt 100)));
  append_entity (e (VNum soc) ("battery_" +:+ i +:+ "_soc_0to1"));;
  mret (mk_module_vars batteryName (batteryId acc + 1) cur pw).

Definition cabinet_step (id_temp : string) (cabinetId : Z) (cabinet : battery_cabinet) : M Z :=
  append_all
    [ ent (TemperatureC cabinet)
        ("battery_cabinet_" +:+ str_of_int cabinetId +:+ "_temperature_c") id_temp "battery";
      ent (FanState cabinet)
        ("battery_cabinet_" +:+ str_of_int cabinetId +:+ "_fan_state") id_temp "battery" ];;
  mret (cabinetId + 1).

Definition _convert_responses_to_battery_entities (data data2 soc_data : json_body) : M unit :=
  d ← lift (as_static data);
  n ← lift (node0 d);
  let id_temp := device_id_of (node_Id n) "bat" in
  let site := StaticData d in
  let e v nm := ent v nm id_temp "battery" in
  soc ← lift (as_config soc_data);
  v ← lift (jmul (MinSoC0to1 soc) (Some (PyInt 100)));
  append_entity (e (VNum v) "min_soc_0_to_1");;
  v ← lift (jmul (MinOffgridSoC0to1 soc) (Some (PyInt 100)));
  append_entity (e (VNum v) "min_Offgrid_soc_0_to_1");;
  append_all
    [ e (Latitude site) "latitude";
      e (Longitude site) "longitude";
      e (BatteryMaxChargePowerkW site) "battery_max_charge_power_kw";
      e (BatteryMaxDischargePowerkW site) "battery_max_discharge_power_kw";
      e (of_jnum (BatteryCapacitykWh site)) "battery_capacity_kwh";
      e (UsableBatteryCapacitykWh site) "battery_usable_capacity_kwh";
      e (SystemType site) "system_type";
      e (CommissioningDate site) "commissioning_date";
      e (site_Id site) "site_id";
      e (site_Type site) "inverter_site_type";
      e (VStr (ModelName n)) "model_name";
      e (of_jnum (BatteryCount n)) "battery_count";
      e (SoftwareVersion n) "software_version";
      e (FirmwareVersion n) "firmware_version";
      e (VStr (node_Id n)) "inverter_serial_number" ];;
  d2 ← lift (as_dynamic data2);
  ts ← lift (fromisoformat (replace "Z" "+00:00" (TimestampUtc d2)));
  append_entity (ent (VDatetime ts) "timestamp_utc" id_temp "inverter");;
  v ← lift (jmul (BatterySoCInstantaneous0to1 d2) (Some (PyInt 100)));
  append_entity (e (VNum v) "battery_soc_instantaneous_0to1");;
  append_entity
    (e (of_jnum (BatteryPowerNegativeIsChargingkW d2)) "battery_power_negative_is_charging_kw");;
  v ← lift (kwh_to_mwh (BatteryChargeAllTimeEnergykWh d2));
  append_entity (e v "battery_charge_all_time_energy_mwh");;
  v ← lift (kwh_to_mwh (BatteryDischargeAllTimeEnergykWh d2));
  append_entity (e v "battery_discharge_all_time_energy_mwh");;
  append_all
    [ e (Status d2) "status";
      e (CurrentNegativeIsChargingA (Battery d2)) "battery_current_negative_is_charging_a";
      e (battery_VoltageV (Battery d2)) "battery_voltage_v";
      e (VoltageType (Battery d2)) "battery_voltage_type";
      e (NumberOfModules (Battery d2)) "battery_no_of_modules" ];;
  v ← lift (jmul (BatteryCapacitykWh site) (BatterySoCInstantaneous0to1 d2));
  append_entity (e (VNum v) "battery_currently_stored_kwh");;
  v ← lift (x ← jsub (BatterySoCInstantaneous0to1 d2) (MinSoC0to1 soc);
            y ← jmul (BatteryCapacitykWh site) (Some x);
            num_round y 2);
  append_entity (e (VNum v) "battery_currently_usable_kwh");;
  for_fold (BatteryModels n) (mk_module_vars (VStr "Unknown") 1 (PyInt 0) (PyInt 0))
    (module_step id_temp d2);;
  v ← (p ← lift (jmul (BatteryPowerNegativeIsChargingkW d2) (Some (PyInt 1000)));
       tv ← gets _redback_temp_voltage;
       u ← lift (of_option KeyError (tv !! node_Id n));
       q ← lift (num_truediv p u);
       lift (num_round q 1));
  append_entity (e (VNum v) "battery_current_negative_is_charging_a");;
  for_fold (Cabinets (Battery d2)) 1 (cabinet_step id_temp);;
  sl ← gets _redback_site_load;
  cur ← lift (of_option KeyError (sl !! node_Id n));
  load ← lift (jadd cur (BatteryPowerNegativeIsChargingkW d2));
  modify (fun s => set_site_load (<[node_Id n := load]> (_redback_site_load s)) s).

(** ** The site load and the annotations of the selected schedule *)

Definition _add_additional_entities (site_load_data : pyval) (data : json_body) : M unit :=
  d ← lift (as_static data);
  n ← lift (node0 d);
  let id_temp := device_id_of (node_Id n) "inv" in
  let e v nm := ent v nm id_temp "inverter" in
  value_temp ← lift (py_round site_load_data 3);
  append_entity (e value_temp "inverter_site_load_instantaneous_kw");;
  sel ← gets _redback_schedule_selected;
  chosen ← lift (of_option KeyError (sel !! id_temp));
  match chosen with
  | VNone =>
      append_all
        [ e VNone "scheduled_start_time";
          e VNone "scheduled_finish_time";
          e (VNum (PyInt 0)) "scheduled_duration";
          e (VNum (PyInt 0)) "scheduled_power_w";
          e (VStr "Auto") "scheduled_inverter_mode" ]
  | _ =>
      schedules ← gets _redback_schedules;
      for_each schedules (fun schedule =>
        sel ← gets _redback_schedule_selected;
        chosen ← lift (of_option KeyError (sel !! id_temp));
        match chosen with
        | VStr c =>
            if String.eqb (schedule_id schedule) c then
              append_all
                [ e (VDatetime (start_time_utc schedule)) "scheduled_start_time";
                  e (VDatetime (end_time schedule)) "scheduled_finish_time";
                  e (VNum (PyInt (duration schedule))) "scheduled_duration";
                  e (power_w schedule) "scheduled_power_w";
                  e (inverter_mode schedule) "scheduled_inverter_mode" ]
            else mret tt
        | _ => mret tt
        end)
  end.

(** ** The refresh *)

Definition _check_device_info_refresh : M (option bool) :=
  current_dt ← now;
  t ← gets _device_info_refresh_time;
  match t with
  | None => mret None
  | Some t =>
      td ← lift (datetime_sub t current_dt);
      if total_seconds_lt td 10 then mret None else mret (Some false)
  end.

(** The body of [for serial_number in self._serial_numbers:] *)
Definition refresh_one (serial_number : string) : M unit :=
  response1 ← _get_static_by_serial serial_number;
  response2 ← _get_dynamic_by_serial serial_number;
  response3 ← _get_schedules_by_serial serial_number;
  modify (fun s => set_site_load (<[serial_number := PyInt 0]> (_redback_site_load s)) s);;
  _convert_responses_to_inverter_entities response1 response2;;
  _convert_responses_to_schedule_entities response3;;
  _create_number_entities response1;;
  _create_select_entities response1 response3;;
  d ← lift (as_static response1);
  n ← lift (node0 d);
  has_battery ← lift (c ← need_num (BatteryCount n); num_gt c (PyInt 0));
  (if has_battery : bool then
     d ← lift (as_static response1);
     n ← lift (node0 d);
     soc_data ← _get_config_by_serial (node_Id n);
     _convert_responses_to_battery_entities response1 response2 soc_data;;
     _create_device_info_battery response1
   else mret tt);;
  _create_datetime_entities response1;;
  site_load ← gets _redback_site_load;
  _add_additional_entities (VDict site_load) response1;;
  _create_device_info_inverter response1.

Definition _create_device_info : M unit :=
  fresh ← _check_device_info_refresh;
  (if py_not fresh then
     l ← _get_inverter_list;
     modify (set__serial_numbers (Some l))
   else mret tt);;
  modify (set_device_info []);;
  modify (set_entities []);;
  modify (set_schedules []);;
  modify (set_numbers []);;
  modify (set_selects []);;
  modify (set_schedule_datetime []);;
  serials ← attr _serial_numbers;
  for_each serials refresh_one;;
  t ← now;
  td ← lift (timedelta_seconds DEVICEINFOREFRESH);
  e ← lift (datetime_add t td);
  modify (set_device_info_refresh_time (Some e)).

(** ** Mutations *)

(** [for device in self._redback_device_info: if device['identifiers'] ==
    device_id: ...; break] *)
Definition select_device (device_id : string) (with_ross_version : bool) : M unit :=
  modify (fun s =>
    match List.find (fun d => String.eqb (identifiers d) device_id) (_redback_device_info s) with
    | Some d =>
        let s := set_serial_number (Some (di_serial_number d)) s in
        if with_ross_version then set_ross_version (Some (sw_version d)) s else s
    | None => s
    end).

(** [self._redback_schedule_selected.update([(device_id, {'schedule_id': None})])] *)
Definition reset_selected_schedule (device_id : string) : M unit :=
  modify (fun s =>
    set_schedule_selected (<[device_id := VNone]> (_redback_schedule_selected s)) s).

Definition delete_inverter_schedule (device_id schedule_id : string) : M unit :=
  reset_selected_schedule device_id;;
  select_device device_id false;;
  _check_token;;
  tok ← gets token;
  sn ← attr serial_number;
  _api_delete API_SCHEDULE_DELETE_BY_SERIALNUMBER_SCHEDULEID
    (sn +:+ "/" +:+ schedule_id) tok;;
  mret tt.

Definition delete_all_inverter_schedules (device_id : string) : M unit :=
  reset_selected_schedule device_id;;
  select_device device_id false;;
  tok ← gets token;
  schedules ← gets _redback_schedules;
  for_each schedules (fun schedule =>
    sn ← attr serial_number;
    if String.eqb (sch_serial_number schedule) sn then
      sn ← attr serial_number;
      _api_delete API_SCHEDULE_DELETE_BY_SERIALNUMBER_SCHEDULEID
        (sn +:+ "/" +:+ schedule_id schedule) tok;;
      mret tt
    else mret tt).

Definition set_inverter_schedule (device_id : string) : M unit :=
  select_device device_id false;;
  c ← control_settings_of device_id;
  start ← lift (of_option KeyError (start_time c));
  duration_str ← lift (duration_str (power_setting_duration c));
  sn ← attr serial_number;
  watts ← lift (py_int (power_setting_watts c));
  tok ← gets token;
  _check_token;;
  _api_post_json API_SCHEDULE_CREATE_BY_SERIALNUMBER "" tok
    (ScheduleJson sn (Some start) duration_str (power_setting_mode c) watts);;
  mret tt.

Definition set_inverter_mode_portal (device_id : string) (Mode_override : bool) : M unit :=
  select_device device_id true;;
  '(mode, power) ←
    (if Mode_override then mret (VStr "Auto", VNum (PyInt 0))
     else c ← control_settings_of device_id;
          mret (power_setting_mode c, power_setting_watts c));
  _portal_login;;
  sn ← attr serial_number;
  response ← _portal_get PORTAL_CONFIGURE sn;
  _get_portal_token response 2;;
  sn ← attr serial_number;
  ross ← attr ross_version;
  tok ← gets _GAFToken;
  _portal_post PORTAL_INVERTER_SET "" (PortalSetForm sn mode power ross tok);;
  h ← attr _session2;
  close_session h.

(** ** Control values *)

(** [temp.update([(data_key, data_value)])] on one value of
    [_inverter_control_settings].  The record holds the four keys the
    client reads; any other key is stored by the source and read by
    nothing, and the record does not show it. *)
Definition control_setting_update (data_key : string) (data_value : pyval)
    (temp : control_setting) : control_setting :=
  if String.eqb data_key "power_setting_watts" then
    mk_control_setting data_value (power_setting_duration temp)
      (power_setting_mode temp) (start_time temp)
  else if String.eqb data_key "power_setting_duration" then
    mk_control_setting (power_setting_watts temp) data_value
      (power_setting_mode temp) (start_time temp)
  else if String.eqb data_key "power_setting_mode" then
    mk_control_setting (power_setting_watts temp) (power_setting_duration temp)
      data_value (start_time temp)
  else if String.eqb data_key "start_time" then
    mk_control_setting (power_setting_watts temp) (power_setting_duration temp)
      (power_setting_mode temp) (Some data_value)
  else temp.

(** [temp = d.get(device_id)] followed by [temp.update]: the attribute
    lookup on [None] raises before the arguments are evaluated. *)
Definition update_inverter_control_values (device_id data_key : string)
    (data_value : pyval) : M unit :=
  cs ← gets _inverter_control_settings;
  temp ← lift (of_option AttributeError (cs !! device_id));
  modify (fun s =>
    set_control_settings
      (<[device_id := control_setting_update data_key data_value temp]>
         (_inverter_control_settings s)) s).

Definition reset_inverter_start_time_to_now (device_id : string) : M unit :=
  cs ← gets _inverter_control_settings;
  temp ← lift (of_option AttributeError (cs !! device_id));
  t ← now_utc;
  modify (fun s =>
    set_control_settings
      (<[device_id := control_setting_update "start_time" (VDatetime t) temp]>
         (_inverter_control_settings s)) s).

Definition update_selected_schedule_id (device_id : string) (schedule_id : pyval) : M unit :=
  sel ← gets _redback_schedule_selected;
  temp ← lift (of_option AttributeError (sel !! device_id));
  modify (fun s =>
    set_schedule_selected (<[device_id := schedule_id]> (_redback_schedule_selected s)) s).

(** ** The data set *)

(** [_redback_devices] and [_redback_buttons] are assigned [[]] by
    [__init__] and by nothing else. *)
Definition _redback_devices (s : client) : list Data.device := [].
Definition _redback_buttons (s : client) : list entity := [].

Definition _handle_device_info (device : device_info) : Data.DeviceInfo * string :=
  (Data.mk_DeviceInfo (identifiers device) (name device) (model device)
     (sw_version device) (hw_version device) (di_serial_number device),
   identifiers device).

Definition _handle_inverter (device : Data.device) : Data.Inverters * string :=
  let device_type := lower (Data.dev_device_type device) in
  let id := Data.dev_serial_number device +:+ device_type in
  (Data.mk_Inverters id (Data.dev_serial_number device) device device_type, id).

Definition _handle_battery (device : Data.device) : Data.Batterys * string :=
  let device_type := lower (Data.dev_device_type device) in
  let id := Data.dev_serial_number device +:+ device_type in
  (Data.mk_Batterys id (Data.dev_serial_number device) device device_type, id).

Definition _handle_button (device : entity) : Data.Buttons * string :=
  let id := device_id device +:+ entity_name device in
  (Data.mk_Buttons id (device_id device) device (device_type device), id).

Definition _handle_number (device : entity) : Data.Numbers * string :=
  let id := device_id device +:+ entity_name device in
  (Data.mk_Numbers id (device_id device) device (device_type device), id).

Definition _handle_select (device : entity) : Data.Selects * string :=
  let id := device_id device +:+ entity_name device in
  (Data.mk_Selects id (device_id device) device (device_type device), id).

Definition _handle_entity (entity : entity) : Data.RedbackEntitys * string :=
  let id := device_id entity +:+ entity_name entity in
  (Data.mk_RedbackEntitys id (device_id entity) (device_type entity) entity, id).

Definition _handle_schedule (schedule : schedule_info) : Data.ScheduleInfo * string :=
  let id := schedule_id schedule in
  (Data.mk_ScheduleInfo id schedule (sch_device_id schedule) (start_time_utc schedule), id).

Definition _handle_schedule_datetime (entity : entity) : Data.ScheduleDateTime * string :=
  let id := device_id entity +:+ entity_name entity in
  (Data.mk_ScheduleDateTime id (device_id entity) entity (device_type entity), id).

(** [d = {}; for x in l: instance, id = handle(x); d[id] = instance] *)
Definition filed {A B} (handle : A -> B * string) (l : list A) : gmap string B :=
  fold_left (fun d x => let '(instance, id) := handle x in <[id := instance]> d) l ∅.

(** The loop over [_redback_devices], which fills two dictionaries *)
Definition file_devices (l : list Data.device)
    : gmap string Data.Inverters * gmap string Data.Batterys :=
  fold_left
    (fun '(inverter_data, battery_data) device =>
       let inverter_data :=
         if String.eqb (Data.dev_device_type device) "inverter"
         then let '(in_instance, in_id) := _handle_inverter device in
              <[in_id := in_instance]> inverter_data
         else inverter_data in
       let battery_data :=
         if String.eqb (Data.dev_device_type device) "battery"
         then let '(bat_instance, bat_id) := _handle_battery device in
              <[bat_id := bat_instance]> battery_data
         else battery_data in
       (inverter_data, battery_data))
    l (∅, ∅).

Definition get_redback_data : M Data.RedbackTechData :=
  _create_device_info;;
  s ← gets (fun s => s);
  let '(inverter_data, battery_data) := file_devices (_redback_devices s) in
  mret (Data.mk_RedbackTechData (client_id (creds s)) inverter_data battery_data
          (filed _handle_entity (_redback_entities s))
          (filed _handle_device_info (_redback_device_info s))
          (filed _handle_button (_redback_buttons s))
          (filed _handle_number (_redback_numbers s))
          (filed _handle_select (_redback_selects s))
          (filed _handle_schedule (_redback_schedules s))
          (filed _handle_schedule_datetime (_redback_schedule_datetime s))).

(** ** Vocabulary of the statements *)

(** The client-credentials login: the POST of [_api_login] *)
Definition login_request (c : credentials) : request :=
  mk_request None POST API_AUTH "" None (LoginForm (client_id c) (client_secret c)).

(** The token and its expiry are set together, as [__init__] and a login
    that went through leave them; the expiry is a naive datetime. *)
Definition token_consistent (s : client) : Prop :=
  match token s, token_expiration s with
  | None, None => True
  | Some t, Some e => t <> "" /\ dt_utcoffset e = None
  | _, _ => False
  end.

(** The condition of the specification for a login at a clock reading
    [now]: no token exists, or the stored expiry minus [now] is less than
    3600 seconds. *)
Definition login_due (s : client) (now : Z) : bool :=
  match token s, token_expiration s with
  | None, _ => true
  | Some _, Some e => dt_us e - now <? 3600 * us_per_second
  | Some _, None => false
  end.

(** A string of decimal digits, and the number it denotes *)
Fixpoint all_digits (s : string) : bool :=
  match s with
  | EmptyString => true
  | String c s' => is_digit c && all_digits s'
  end.

Definition is_numeral (s : string) : Prop := s <> "" /\ all_digits s = true.

Fixpoint decimal_from (acc : Z) (s : string) : Z :=
  match s with
  | EmptyString => acc
  | String c s' => decimal_from (10 * acc + digit_value c) s'
  end.

Definition decimal (s : string) : Z := decimal_from 0 s.

(** The two forms of a vendor duration, [D.HH:MM:SS] and [HH:MM:SS], with
    the minutes the specification assigns to them *)
Inductive duration_form : string -> Z -> Prop :=
| form_days_hms (d h m sec : string) :
    is_numeral d -> is_numeral h -> is_numeral m -> is_numeral sec ->
    duration_form (d +:+ "." +:+ h +:+ ":" +:+ m +:+ ":" +:+ sec)
      (decimal d * 1440 + decimal h * 60 + decimal m)
| form_hms (h m sec : string) :
    is_numeral h -> is_numeral m -> is_numeral sec ->
    duration_form (h +:+ ":" +:+ m +:+ ":" +:+ sec)
      (decimal h * 60 + decimal m).

(** The total phase voltage as the specification words it: over the phases
    whose instantaneous voltage is not [null],
    [(sum of voltages / phase_count) * sqrt(phase_count)], rounded to one
    decimal.  The sum runs in payload order from the integer 0. *)
Definition phase_voltages (phases : list phase_data) : list pynum :=
  omap VoltageInstantaneousV phases.

Fixpoint sum_from (acc : pynum) (l : list pynum) : outcome pynum :=
  match l with
  | [] => Return acc
  | v :: l' => acc' ← num_add acc v; sum_from acc' l'
  end.

Definition spec_total_phase_voltage (phases : list phase_data) : outcome pynum :=
  let phase_count := Z.of_nat (length (phase_voltages phases)) in
  total ← sum_from (PyInt 0) (phase_voltages phases);
  q ← num_truediv total (PyInt phase_count);
  r ← math_sqrt (PyInt phase_count);
  p ← num_mul q (PyFloat r);
  num_round p 1.

(** The sums of the phase loop, without the appends *)
Fixpoint phase_totals (acc : phase_sums) (l : list phase_data) : outcome phase_sums :=
  match l with
  | [] => Return acc
  | p :: l' => acc' ← add_phase acc p; phase_totals acc' l'
  end.

(** The client [s] with the six lists of [old] in place of its own *)
Definition with_lists (old s : client) : client :=
  set_schedule_datetime (_redback_schedule_datetime old)
    (set_selects (_redback_selects old)
       (set_numbers (_redback_numbers old)
          (set_schedules (_redback_schedules old)
             (set_entities (_redback_entities old)
                (set_device_info (_redback_device_info old) s))))).

(** Every entity id of a collection is borne by one record only. *)
Definition unique_ids (l : list entity) : Prop := NoDup (entity_id <$> l).

(** A value a [datetime] can hold *)
Definition representable (us : Z) : Prop := 0 <= us <= datetime_max_us.

(** A vendor schedule the normalization is specified for: its duration
    has one of the two forms and denotes [minutes], its start parses to
    [start], and both the start and the end are values of [datetime]. *)
Definition well_formed_schedule (sch : vendor_schedule) (minutes : Z)
    (start : datetime) : Prop :=
  duration_form (Duration sch) minutes /\
  fromisoformat (replace "Z" "+00:00" (StartTimeUtc sch)) = Return start /\
  representable (dt_us start) /\
  representable (dt_us start + minutes * 60 * us_per_second).

(** What the specification expects of the record built for it *)
Definition normalized_as (sch : vendor_schedule) (info : schedule_info) : Prop :=
  exists minutes start,
    well_formed_schedule sch minutes start /\
    schedule_id info = ScheduleId sch /\
    duration info = minutes /\
    start_time_utc info = start /\
    end_time info
      = mk_datetime (dt_us start + minutes * 60 * us_per_second) (dt_utcoffset start).

(** The world once the request [r] has gone out *)
Definition sending (r : request) (w : world) : world :=
  mk_world (clock w) (utcoffset w) (ticks w) (peer w) (sent w ++ [r]) (sessions w).

(** The answer to [r] when it goes out in the world [w] *)
Definition answer (w : world) (r : request) : reply := peer w (length (sent w)) r.

(** The world once a portal session has been opened, and once the session
    [h] has been closed *)
Definition opening (w : world) : world :=
  mk_world (clock w) (utcoffset w) (ticks w) (peer w) (sent w) (sessions w ++ [true]).

Definition closing (h : nat) (w : world) : world :=
  mk_world (clock w) (utcoffset w) (ticks w) (peer w) (sent w) (<[h := false]> (sessions w)).

(** The device a mutation addresses: the first record of
    [_redback_device_info] with the identifier; when there is none, the
    attributes [serial_number] and [ross_version] stay as an earlier call
    left them. *)
Definition found_device (s : client) (device_id : string) : option device_info :=
  List.find (fun d => String.eqb (identifiers d) device_id) (_redback_device_info s).

Definition target_serial (s : client) (device_id : string) : option string :=
  match found_device s device_id with
  | Some d => Some (di_serial_number d)
  | None => serial_number s
  end.

Definition target_ross (s : client) (device_id : string) : option pyval :=
  match found_device s device_id with
  | Some d => Some (sw_version d)
  | None => ross_version s
  end.

(** The serial numbers of a node listing: the nodes of type [Inverter],
    site by site in the order of the listing *)
Definition inverter_serials (sites : list (list node_ref)) : list string :=
  node_SerialNumber <$> filter (fun node => node_Type node = "Inverter") (concat sites).

(** The request that deletes one schedule, and the requests
    [delete_all_inverter_schedules] issues for the stored schedules *)
Definition delete_request (sn schedule_id : string) (tok : option string) : request :=
  mk_request None DELETE API_SCHEDULE_DELETE_BY_SERIALNUMBER_SCHEDULEID
    (sn +:+ "/" +:+ schedule_id) tok NoData.

Definition deletions (sn : option string) (tok : option string)
    (schedules : list schedule_info) : list request :=
  match sn with
  | Some sn =>
      (fun sch => delete_request sn (schedule_id sch) tok) <$>
        filter (fun sch => sch_serial_number sch = sn) schedules
  | None => []
  end.

(** [R] relates the client before [m] to the client after it, however [m]
    ends. *)
Definition keeps {A} (R : client -> client -> Prop) (m : M A) : Prop :=
  forall s w, R s (final_state (m s w)).

(** Every control setting and every selected schedule of [s] is still
    there, with the same value, in [s']. *)
Definition settings_kept (s s' : client) : Prop :=
  (forall k c, _inverter_control_settings s !! k = Some c ->
               _inverter_control_settings s' !! k = Some c) /\
  (forall k v, _redback_schedule_selected s !! k = Some v ->
               _redback_schedule_selected s' !! k = Some v).

(** The six lists a refresh rebuilds *)
Definition rebuilt_lists (s : client) :=
  (_redback_device_info s, _redback_entities s, _redback_schedules s,
   _redback_numbers s, _redback_selects s, _redback_schedule_datetime s).

(** The net grid import of the phases: over the phases that report a
    voltage, in payload order from the integer 0, the sum of imported minus
    exported power *)
Fixpoint net_import_from (acc : pynum) (l : list phase_data) : outcome pynum :=
  match l with
  | [] => Return acc
  | p :: l' =>
      match VoltageInstantaneousV p with
      | Some _ =>
          net ← jsub (ActiveImportedPowerInstantaneouskW p)
                     (ActiveExportedPowerInstantaneouskW p);
          acc' ← num_add acc net;
          net_import_from acc' l'
      | None => net_import_from acc l'
      end
  end.

(** [s'] has the entities of [s], followed by entities that satisfy
    [phi]. *)
Definition appended (phi : entity -> Prop) (s s' : client) : Prop :=
  exists k, _redback_entities s' = _redback_entities s ++ k /\ Forall phi k.

(** What a call answers to a decoded body: an object with an error code
    is an exception, a body without [__contains__] a [TypeError] at the
    test for the key, a string or an array holding ["error"] a [TypeError]
    at the subscript, and any other body is handed back. *)
Definition answers_body (body : json_body) (o : outcome json_body) : Prop :=
  match body with
  | JError code =>
      (In code AUTH_ERROR_CODES -> o = Raise AuthError) /\
      (~ In code AUTH_ERROR_CODES -> o = Raise RedbackTechClientError)
  | JNull | JBool _ | JNumber _ => o = Raise TypeError
  | JString str =>
      o = if has_substring "error" str then Raise TypeError else Return body
  | JArray l =>
      o = if bool_decide (Some "error" ∈ l) then Raise TypeError else Return body
  | _ => o = Return body
  end.

(** [m] returns from every state, with a result that satisfies [Q]. *)
Definition always_returns {A} (m : M A) (Q : A -> Prop) : Prop :=
  forall s w, exists a s' w', m s w = (Return a, s', w') /\ Q a.

(** However [m] ends, the entities it leaves satisfy [phi]. *)
Definition leaves {A} (m : M A) (phi : list entity -> Prop) : Prop :=
  forall s w, phi (_redback_entities (final_state (m s w))).

(** The MWh value of an energy counter as the specification words it:
    [null] for [null], and [v / 1000] for a number [v]. *)
Definition spec_mwh (x : jnum) : outcome pyval :=
  match x with
  | None => Return VNone
  | Some v => r ← num_truediv v (PyInt 1000); Return (VNum r)
  end.

(** A reading that is a number and has a percentage: [x * 100] is
    defined. *)
Definition has_percentage (x : jnum) : Prop :=
  exists a r, x = Some a /\ num_mul a (PyInt 100) = Return r.

(** A reading that is a JSON number with a fraction part *)
Definition is_float (x : jnum) : Prop := exists f, x = Some (PyFloat f).

(** A phase whose powers are reported, and whose current is reported when
    its voltage is *)
Definition phase_reports (p : phase_data) : Prop :=
  is_float (ActiveImportedPowerInstantaneouskW p) /\
  is_float (ActiveExportedPowerInstantaneouskW p) /\
  (VoltageInstantaneousV p <> None -> is_float (CurrentInstantaneousA p)).

(** A sum of the phase loop before the first float is added, or after *)
Definition zero_or_float (x : pynum) : Prop := x = PyInt 0 \/ exists f, x = PyFloat f.

(** A phase without one of its two power readings *)
Definition lacks_power (p : phase_data) : Prop :=
  ActiveImportedPowerInstantaneouskW p = None \/
  ActiveExportedPowerInstantaneouskW p = None.

(** The sums of the phase loop other than the voltage *)
Definition floats_so_far (acc : phase_sums) : Prop :=
  zero_or_float (phase_Current_sum acc) /\
  zero_or_float (phase_power_exported_sum acc) /\
  zero_or_float (phase_power_imported_sum acc) /\
  zero_or_float (phase_power_net_sum acc).

(** [m] never returns, and [f] is after it what it was before. *)
Definition stops_before {A B} (f : client -> B) (m : M A) : Prop :=
  forall s w, ~ returned (m s w) /\ f (final_state (m s w)) = f s.

(** [m] opens and closes no portal session, however it ends. *)
Definition same_sessions {A} (m : M A) : Prop :=
  forall s w, sessions (final_world (m s w)) = sessions w.

(** A run of [m] that raises has opened and closed no portal session. *)
Definition raising_keeps_sessions {A} (m : M A) : Prop :=
  forall s w, ~ returned (m s w) -> sessions (final_world (m s w)) = sessions w.

(** A run of [m] that raises has opened one portal session and has not
    closed it. *)
Definition raising_leaves_open {A} (m : M A) : Prop :=
  forall s w, ~ returned (m s w) -> sessions (final_world (m s w)) = sessions w ++ [true].

(* ================================================================== *)
(** * Properties *)
(* ================================================================== *)

(** Automation that looks at the whole context would make a proof depend
    on constants its statement does not mention; they are dropped first. *)
Ltac drop_constants :=
  try clear hidden_input_value; try clear fromisoformat; try clear INVERTER_MODES;
  try clear DEVICEINFOREFRESH; try clear AUTH_ERROR_CODES.

(** ** Runs of the monad *)

Lemma bind_run {A B} (m : M A) (f : A -> M B) s w :
  (m ≫= f) s w =
  match m s w with
  | (Return a, s', w') => f a s' w'
  | (Raise e, s', w') => (Raise e, s', w')
  end.
Proof. reflexivity. Qed.

Lemma bind_Return_inv {A B} (m : M A) (f : A -> M B) s w b s' w' :
  (m ≫= f) s w = (Return b, s', w') ->
  exists a s1 w1, m s w = (Return a, s1, w1) /\ f a s1 w1 = (Return b, s', w').
Proof.
  rewrite bind_run.
  destruct (m s w) as [[[a|e] s1] w1]; intros H; [eauto 6 | discriminate].
Qed.

(** ** Attributes a method leaves alone *)

Section Unchanged.
Context {B : Type} (f : client -> B).

Lemma unchanged_ret {A} (a : A) : unchanged f (mret a).
Proof. intros s w. reflexivity. Qed.
Lemma unchanged_raise {A} e : unchanged f (@raise A e).
Proof. intros s w. reflexivity. Qed.
Lemma unchanged_lift {A} (o : outcome A) : unchanged f (lift o).
Proof. intros s w. reflexivity. Qed.
Lemma unchanged_gets {A} (g : client -> A) : unchanged f (gets g).
Proof. intros s w. reflexivity. Qed.
Lemma unchanged_attr {A} (g : client -> option A) : unchanged f (attr g).
Proof. intros s w. reflexivity. Qed.
Lemma unchanged_observe {A} (g : world -> A) : unchanged f (observe g).
Proof. intros s w. reflexivity. Qed.
Lemma unchanged_now : unchanged f now.
Proof. intros s w. reflexivity. Qed.
Lemma unchanged_now_utc : unchanged f now_utc.
Proof. intros s w. reflexivity. Qed.
Lemma unchanged_send r : unchanged f (send r).
Proof. intros s w. reflexivity. Qed.
Lemma unchanged_new_session : unchanged f new_session.
Proof. intros s w. reflexivity. Qed.
Lemma unchanged_close_session h : unchanged f (close_session h).
Proof. intros s w. reflexivity. Qed.

Lemma unchanged_modify g : (forall s, f (g s) = f s) -> unchanged f (modify g).
Proof. intros H s w. apply H. Qed.

Lemma unchanged_bind {A C} (m : M A) (k : A -> M C) :
  unchanged f m -> (forall a, unchanged f (k a)) -> unchanged f (m ≫= k).
Proof.
  intros Hm Hk s w. specialize (Hm s w). unfold final_state in *.
  rewrite bind_run. destruct (m s w) as [[[a|e] s1] w1]; simpl in *.
  - rewrite <- Hm. apply Hk.
  - exact Hm.
Qed.

Lemma unchanged_for_each {A} (l : list A) (body : A -> M unit) :
  (forall x, unchanged f (body x)) -> unchanged f (for_each l body).
Proof.
  intros H. induction l as [|x l IH]; simpl.
  - apply unchanged_ret.
  - apply unchanged_bind; auto.
Qed.

Lemma unchanged_for_fold {A C} (l : list A) (acc : C) (body : C -> A -> M C) :
  (forall c x, unchanged f (body c x)) -> unchanged f (for_fold l acc body).
Proof.
  intros H. revert acc. induction l as [|x l IH]; intros acc; simpl.
  - apply unchanged_ret.
  - apply unchanged_bind; auto.
Qed.
End Unchanged.

Create HintDb unchanged_db.

Ltac unchanged_step :=
  first
    [ lazymatch goal with
      | |- unchanged _ (mbind _ _) => apply unchanged_bind; [| intros ?]
      | |- unchanged _ (mret _) => apply unchanged_ret
      | |- unchanged _ (raise _) => apply unchanged_raise
      | |- unchanged _ (lift _) => apply unchanged_lift
      | |- unchanged _ (gets _) => apply unchanged_gets
      | |- unchanged _ (attr _) => apply unchanged_attr
      | |- unchanged _ (observe _) => apply unchanged_observe
      | |- unchanged _ now => apply unchanged_now
      | |- unchanged _ now_utc => apply unchanged_now_utc
      | |- unchanged _ (send _) => apply unchanged_send
      | |- unchanged _ new_session => apply unchanged_new_session
      | |- unchanged _ (close_session _) => apply unchanged_close_session
      | |- unchanged _ (modify _) => apply unchanged_modify; intros []; reflexivity
      | |- unchanged _ (for_each _ _) => apply unchanged_for_each; intros ?
      | |- unchanged _ (for_fold _ _ _) => apply unchanged_for_fold; intros ? ?
      | |- unchanged _ (match ?x with _ => _ end) => destruct x
      end
    | solve [auto 2 with unchanged_db nocore] ].

Ltac unchanged_auto := repeat unchanged_step.

Lemma _api_response_unchanged {B} (f : client -> B) resp : unchanged f (_api_response resp).
Proof. unfold _api_response. unchanged_auto. Qed.

Lemma _api_delete_unchanged {B} (f : client -> B) url p auth :
  unchanged f (_api_delete url p auth).
Proof. unfold _api_delete. unchanged_auto. apply _api_response_unchanged. Qed.

#[local] Hint Resolve _api_response_unchanged _api_delete_unchanged : unchanged_db.

Lemma _check_token_keeps_selection :
  unchanged _redback_schedule_selected _check_token.
Proof.
  unfold _check_token, _api_login, _api_post. unchanged_auto.
Qed.

Lemma select_device_keeps_selection device_id b :
  unchanged _redback_schedule_selected (select_device device_id b).
Proof.
  unfold select_device. apply unchanged_modify. intros s.
  destruct (find _ _); [destruct b|]; destruct s; reflexivity.
Qed.

#[local] Hint Resolve _check_token_keeps_selection select_device_keeps_selection
  : unchanged_db.

Lemma after_reset_selected {A} (m : M A) device_id s w :
  unchanged _redback_schedule_selected m ->
  _redback_schedule_selected
    (final_state ((reset_selected_schedule device_id;; m) s w)) !! device_id
  = Some VNone.
Proof.
  intros H.
  change ((reset_selected_schedule device_id;; m) s w)
    with (m (set_schedule_selected
               (<[device_id := VNone]> (_redback_schedule_selected s)) s) w).
  rewrite H. destruct s; apply lookup_insert_eq.
Qed.

(** C10.  Both [delete_inverter_schedule] and
    [delete_all_inverter_schedules] set the Selected Schedule of the device
    to none ([schedule_id = None]).  This holds for every device id, every
    client state and every behaviour of the vendor, and however the method
    ends: also when the vendor's delete call fails and the method raises,
    so the reset is made ahead of that call and is not limited to the
    vendor side of the deletion. *)
Theorem delete_resets_selected_schedule (device_id schedule_id : string)
    (s : client) (w : world) :
  _redback_schedule_selected
    (final_state (delete_inverter_schedule device_id schedule_id s w)) !! device_id
  = Some VNone
  /\
  _redback_schedule_selected
    (final_state (delete_all_inverter_schedules device_id s w)) !! device_id
  = Some VNone.
Proof.
  split.
  - unfold delete_inverter_schedule. apply after_reset_selected.
    unchanged_auto.
  - unfold delete_all_inverter_schedules. apply after_reset_selected.
    unchanged_auto.
Qed.

(** ** Portal sessions *)

Lemma returned_inv {A} (r : outcome A * client * world) :
  returned r -> exists a s' w', r = (Return a, s', w').
Proof.
  destruct r as [[[a|e] s'] w']; unfold returned; simpl; intros H;
    [eauto | destruct H].
Qed.

Lemma unchanged_run {A B} (f : client -> B) (m : M A) s w r s' w' :
  unchanged f m -> m s w = (r, s', w') -> f s' = f s.
Proof. intros H E. specialize (H s w). rewrite E in H. exact H. Qed.

Section Inversion.
Context {A : Type}.

Lemma mret_inv (a b : A) s w s' w' :
  (mret a : M A) s w = (Return b, s', w') -> b = a /\ s' = s /\ w' = w.
Proof. intros H. injection H as <- <- <-. auto. Qed.

Lemma gets_inv (f : client -> A) s w a s' w' :
  gets f s w = (Return a, s', w') -> a = f s /\ s' = s /\ w' = w.
Proof. intros H. injection H as <- <- <-. auto. Qed.

Lemma observe_inv (f : world -> A) s w a s' w' :
  observe f s w = (Return a, s', w') -> a = f w /\ s' = s /\ w' = w.
Proof. intros H. injection H as <- <- <-. auto. Qed.

Lemma attr_inv (f : client -> option A) s w a s' w' :
  attr f s w = (Return a, s', w') -> f s = Some a /\ s' = s /\ w' = w.
Proof.
  unfold attr. destruct (f s); simpl; intros H; [|discriminate].
  injection H as <- <- <-. auto.
Qed.

Lemma lift_inv (o : outcome A) s w a s' w' :
  lift o s w = (Return a, s', w') -> o = Return a /\ s' = s /\ w' = w.
Proof. intros H. injection H as <- <- <-. auto. Qed.
End Inversion.

Lemma now_inv s w t s' w' :
  now s w = (Return t, s', w') ->
  t = mk_datetime (clock w (ticks w)) None /\ s' = s /\ w' = tick w.
Proof. intros H. injection H as <- <- <-. auto. Qed.

Lemma modify_inv g s w u s' w' :
  modify g s w = (Return u, s', w') -> s' = g s /\ w' = w.
Proof. intros H. injection H as <- <-. auto. Qed.

(** One step of a run that returned: the first action of the bind in [H]
    is split off as [E], and undone if it is one of the plain ones. *)
Ltac step_as H E :=
  let a := fresh "a" in
  let s1 := fresh "s" in
  let w1 := fresh "w" in
  apply bind_Return_inv in H as (a & s1 & w1 & E & H);
  try lazymatch type of E with
      | mret _ _ _ = _ => apply mret_inv in E as (-> & -> & ->)
      | gets _ _ _ = _ => apply gets_inv in E as (-> & -> & ->)
      | observe _ _ _ = _ => apply observe_inv in E as (-> & -> & ->)
      | attr _ _ _ = _ => apply attr_inv in E as (E & -> & ->)
      | lift _ _ _ = _ => apply lift_inv in E as (E & -> & ->)
      | modify _ _ _ = _ => apply modify_inv in E as (-> & ->)
      | now _ _ = _ => apply now_inv in E as (-> & -> & ->)
      end.

Tactic Notation "step" hyp(H) "as" ident(E) := step_as H E.
Tactic Notation "step" hyp(H) := let E := fresh "E" in step_as H E.

Lemma portal_send_keeps_session m url p d : unchanged _session2 (portal_send m url p d).
Proof. unfold portal_send, _portal_response. unchanged_auto. Qed.

#[local] Hint Resolve portal_send_keeps_session : unchanged_db.

Lemma _portal_login_session s w u s' w' :
  _portal_login s w = (Return u, s', w') ->
  _session2 s' = Some (length (sessions w)).
Proof.
  unfold _portal_login. intros H.
  step H as E. injection E as <- <- <-.
  step H.
  apply unchanged_run with (f := _session2) in H.
  - rewrite H. destruct s; reflexivity.
  - unfold _portal_get, _portal_post, _get_portal_token. unchanged_auto.
Qed.

Lemma close_session_closed h s w u s' w' :
  close_session h s w = (Return u, s', w') -> session_open w' h = false.
Proof.
  intros H. injection H as _ _ <-. unfold session_open. simpl.
  destruct (decide (h < length (sessions w))%nat) as [Hlt|Hge].
  - rewrite list_lookup_insert_eq by exact Hlt. reflexivity.
  - rewrite lookup_ge_None_2; [reflexivity|]. rewrite length_insert. lia.
Qed.

(** *** The sessions of a run that raises *)

Lemma same_sessions_ret {A} (a : A) : same_sessions (mret a).
Proof. intros s w. reflexivity. Qed.
Lemma same_sessions_raise {A} e : same_sessions (@raise A e).
Proof. intros s w. reflexivity. Qed.
Lemma same_sessions_lift {A} (o : outcome A) : same_sessions (lift o).
Proof. intros s w. reflexivity. Qed.
Lemma same_sessions_gets {A} (g : client -> A) : same_sessions (gets g).
Proof. intros s w. reflexivity. Qed.
Lemma same_sessions_attr {A} (g : client -> option A) : same_sessions (attr g).
Proof. intros s w. reflexivity. Qed.
Lemma same_sessions_observe {A} (g : world -> A) : same_sessions (observe g).
Proof. intros s w. reflexivity. Qed.
Lemma same_sessions_modify g : same_sessions (modify g).
Proof. intros s w. reflexivity. Qed.
Lemma same_sessions_send r : same_sessions (send r).
Proof. intros s w. reflexivity. Qed.

Lemma same_sessions_bind {A C} (m : M A) (k : A -> M C) :
  same_sessions m -> (forall a, same_sessions (k a)) -> same_sessions (m ≫= k).
Proof.
  drop_constants.
  intros Hm Hk s w. rewrite bind_run. specialize (Hm s w).
  destruct (m s w) as [[[a|e] s1] w1]; unfold final_world in Hm; simpl in Hm.
  - rewrite Hk. exact Hm.
  - exact Hm.
Qed.

Ltac same_sessions_step :=
  lazymatch goal with
  | |- same_sessions (mbind _ _) => apply same_sessions_bind; [| intros ?]
  | |- same_sessions (mret _) => apply same_sessions_ret
  | |- same_sessions (raise _) => apply same_sessions_raise
  | |- same_sessions (lift _) => apply same_sessions_lift
  | |- same_sessions (gets _) => apply same_sessions_gets
  | |- same_sessions (attr _) => apply same_sessions_attr
  | |- same_sessions (observe _) => apply same_sessions_observe
  | |- same_sessions (modify _) => apply same_sessions_modify
  | |- same_sessions (send _) => apply same_sessions_send
  | |- same_sessions (match ?x with _ => _ end) => destruct x
  end.

Ltac same_sessions_auto := repeat same_sessions_step.

Lemma portal_send_same_sessions m url p d : same_sessions (portal_send m url p d).
Proof. unfold portal_send, _portal_response. same_sessions_auto. Qed.

Lemma _get_portal_token_same_sessions response kind :
  same_sessions (_get_portal_token response kind).
Proof. unfold _get_portal_token. same_sessions_auto. Qed.

(** The login opens one session and closes none, however it ends. *)
Lemma _portal_login_sessions s w :
  sessions (final_world (_portal_login s w)) = sessions w ++ [true].
Proof.
  unfold _portal_login. rewrite bind_run. unfold new_session at 1. cbv iota beta.
  match goal with
  | |- sessions (final_world (?rest ?s1 ?w1)) = _ =>
      assert (H : same_sessions rest); [|exact (H s1 w1)]
  end.
  unfold _portal_get, _portal_post.
  repeat first [ apply portal_send_same_sessions
               | apply _get_portal_token_same_sessions
               | same_sessions_step ].
Qed.

Lemma raising_keeps_sessions_bind {A C} (m : M A) (k : A -> M C) :
  same_sessions m -> (forall a, raising_keeps_sessions (k a)) ->
  raising_keeps_sessions (m ≫= k).
Proof.
  drop_constants.
  intros Hm Hk s w. rewrite bind_run. specialize (Hm s w).
  destruct (m s w) as [[[a|e] s1] w1]; unfold final_world in Hm; simpl in Hm.
  - intros Hr. rewrite (Hk a s1 w1 Hr). exact Hm.
  - intros _. exact Hm.
Qed.

Lemma raising_keeps_sessions_close h : raising_keeps_sessions (close_session h).
Proof. drop_constants. intros s w Hr. exfalso. apply Hr. exact I. Qed.

Lemma raising_keeps_sessions_if {A} (b : bool) (m1 m2 : M A) :
  raising_keeps_sessions m1 -> raising_keeps_sessions m2 ->
  raising_keeps_sessions (if b then m1 else m2).
Proof. drop_constants. destruct b; auto. Qed.

Lemma raising_leaves_open_login {C} (k : unit -> M C) :
  raising_keeps_sessions (k tt) -> raising_leaves_open (_portal_login ≫= k).
Proof.
  intros Hk s w. rewrite bind_run. pose proof (_portal_login_sessions s w) as Hl.
  destruct (_portal_login s w) as [[[[]|e] s1] w1]; unfold final_world in Hl; simpl in Hl.
  - intros Hr. rewrite (Hk s1 w1 Hr). exact Hl.
  - intros _. exact Hl.
Qed.

Lemma session_open_last w l : sessions w = l ++ [true] -> session_open w (length l) = true.
Proof.
  drop_constants.
  intros H. unfold session_open. rewrite H.
  rewrite (list_lookup_middle l [] true (length l) eq_refl). reflexivity.
Qed.

Lemma test_portal_connection_raises : raising_leaves_open test_portal_connection.
Proof.
  unfold test_portal_connection. intros s w. rewrite bind_run. unfold modify at 1.
  cbv iota beta.
  apply (raising_leaves_open_login _).
  apply raising_keeps_sessions_bind; [apply same_sessions_gets | intros tok].
  apply raising_keeps_sessions_bind; [apply same_sessions_attr | intros h].
  apply raising_keeps_sessions_if; intros s1 w1 Hr; exfalso; apply Hr; exact I.
Qed.

Lemma select_device_run device_id b s w :
  select_device device_id b s w
  = (Return tt,
     (if b then set_ross_version (target_ross s device_id) else fun s => s)
       (set_serial_number (target_serial s device_id) s), w).
Proof.
  unfold select_device, target_serial, target_ross, found_device, modify.
  destruct (find _ _); destruct b; destruct s; reflexivity.
Qed.

Lemma control_settings_of_run device_id s w :
  control_settings_of device_id s w
  = (of_option KeyError (_inverter_control_settings s !! device_id), s, w).
Proof. reflexivity. Qed.

Lemma ret_run {A} (a : A) s w : (mret a : M A) s w = (Return a, s, w).
Proof. reflexivity. Qed.

Lemma set_inverter_mode_portal_raises device_id Mode_override s w :
  let m := set_inverter_mode_portal device_id Mode_override s w in
  ~ returned m ->
  sessions (final_world m) = sessions w ++ [true]
  \/ (Mode_override = false /\ _inverter_control_settings s !! device_id = None /\
      sessions (final_world m) = sessions w).
Proof.
  cbv zeta. unfold set_inverter_mode_portal.
  rewrite bind_run, select_device_run. cbv iota beta.
  set (s0 := set_ross_version _ _).
  assert (Hs0 : _inverter_control_settings s0 = _inverter_control_settings s)
    by (unfold s0; destruct s; reflexivity).
  assert (Hrest : forall mode power,
    raising_leaves_open
      (_portal_login;;
       sn ← attr serial_number;
       response ← _portal_get PORTAL_CONFIGURE sn;
       _get_portal_token response 2;;
       sn ← attr serial_number;
       ross ← attr ross_version;
       tok ← gets _GAFToken;
       _portal_post PORTAL_INVERTER_SET "" (PortalSetForm sn mode power ross tok);;
       h ← attr _session2;
       close_session h)).
  { intros mode power. apply (raising_leaves_open_login _).
    unfold _portal_get, _portal_post.
    repeat (apply raising_keeps_sessions_bind;
            [first [ apply portal_send_same_sessions
                   | apply _get_portal_token_same_sessions
                   | same_sessions_step ]
            | intros ?]).
    apply raising_keeps_sessions_close. }
  rewrite bind_run. destruct Mode_override.
  - rewrite ret_run. cbv iota beta. intros Hr. left.
    exact (Hrest _ _ s0 w Hr).
  - rewrite bind_run, control_settings_of_run, Hs0.
    destruct (_inverter_control_settings s !! device_id) as [c|]; simpl.
    + intros Hr. left. exact (Hrest _ _ s0 w Hr).
    + intros _. right. auto.
Qed.

(** C9, in the form the code satisfies.  A portal operation closes the
    portal session it opened exactly on the paths on which it returns: the
    connection test with either result, and the mode-set once its last
    POST is answered.  On a path on which it raises (a portal GET or POST
    that is answered with a status other than 200, a page without the
    hidden input, for the mode-set also a device without serial number or
    software version) the exception leaves the method before [close] is
    reached, and the session stays open.  The mode-set can also raise
    before it has opened a session: when the device has no control
    settings. *)
Theorem portal_session_closed_only_on_return (device_id : string) (Mode_override : bool)
    (s : client) (w : world) :
  let t := test_portal_connection s w in
  let m := set_inverter_mode_portal device_id Mode_override s w in
  (returned t -> session_open (final_world t) (length (sessions w)) = false)
  /\ (~ returned t -> session_open (final_world t) (length (sessions w)) = true)
  /\ (returned m -> session_open (final_world m) (length (sessions w)) = false)
  /\ (~ returned m ->
      session_open (final_world m) (length (sessions w)) = true
      \/ (Mode_override = false /\ _inverter_control_settings s !! device_id = None /\
          sessions (final_world m) = sessions w)).
Proof.
  cbv zeta.
  assert (Hret :
    (returned (test_portal_connection s w) ->
     session_open (final_world (test_portal_connection s w)) (length (sessions w)) = false)
    /\
    (returned (set_inverter_mode_portal device_id Mode_override s w) ->
     session_open (final_world (set_inverter_mode_portal device_id Mode_override s w))
       (length (sessions w)) = false)).
  { split; intros H; apply returned_inv in H as (u & s' & w' & H); rewrite H;
      unfold final_world; simpl.
    - unfold test_portal_connection in H.
      step H. step H as Elogin. apply _portal_login_session in Elogin.
      step H. step H as Eh. rewrite Elogin in Eh. injection Eh as <-.
      destruct (bool_decide _); step H as Eclose;
        apply close_session_closed in Eclose; apply mret_inv in H as (_ & _ & ->);
        exact Eclose.
    - unfold set_inverter_mode_portal in H.
      step H as Esel. unfold select_device in Esel. apply modify_inv in Esel as (-> & ->).
      step H as Emode.
      match type of Emode with _ = (_, _, ?w0) => assert (w0 = w) as Hw end.
      { destruct Mode_override.
        - apply mret_inv in Emode as (_ & _ & ->). reflexivity.
        - step Emode as Ecs. unfold control_settings_of in Ecs. step Ecs.
          apply lift_inv in Ecs as (_ & -> & ->).
          apply mret_inv in Emode as (_ & _ & ->). reflexivity. }
      match type of H with
      | context [let '(_, _) := ?x in _] => destruct x as [mode power]
      end.
      step H as Elogin. apply _portal_login_session in Elogin. rewrite Hw in Elogin.
      step H. step H as Eget.
      apply unchanged_run with (f := _session2) in Eget;
        [| unfold _portal_get; unchanged_auto].
      step H as Etok.
      apply unchanged_run with (f := _session2) in Etok;
        [| unfold _get_portal_token; unchanged_auto].
      step H. step H. step H. step H as Epost.
      apply unchanged_run with (f := _session2) in Epost;
        [| unfold _portal_post; unchanged_auto].
      step H as Eh.
      match type of H with
      | close_session ?h _ _ = _ => assert (h = length (sessions w)) as -> by congruence
      end.
      apply close_session_closed in H. exact H. }
  destruct Hret as [Ht Hm].
  split; [exact Ht|]. split; [|split; [exact Hm|]].
  - intros Hr. apply session_open_last. exact (test_portal_connection_raises s w Hr).
  - intros Hr.
    destruct (set_inverter_mode_portal_raises device_id Mode_override s w Hr) as [H | H].
    + left. apply session_open_last. exact H.
    + right. exact H.
Qed.

(** ** The token check *)

Ltac run_monad :=
  cbv [mbind M_bind mret M_ret gets attr observe modify lift raise now now_utc send
       final_world final_state result_of].

Lemma _api_login_sends s w :
  sent (final_world (_api_login s w)) = sent w ++ [login_request (creds s)].
Proof.
  unfold _api_login, _api_post, _api_response, login_request. run_monad. simpl.
  repeat case_match; simplify_eq; reflexivity.
Qed.

Lemma _check_token_cases s w :
  token_consistent s ->
  _check_token s w =
  if login_due s (clock w (ticks w)) then _api_login s (tick w)
  else (Return tt, s, tick w).
Proof.
  unfold token_consistent, login_due, _check_token, token_or_expiration.
  intros H. run_monad.
  destruct (token s) as [[|c t]|], (token_expiration s) as [[us [o|]]|];
    simpl in *; try (destruct H; congruence); try contradiction; try reflexivity.
  unfold total_seconds_lt. destruct (_ <? _); reflexivity.
Qed.

Lemma _api_login_success s w r txt :
  peer w (length (sent w)) (login_request (creds s)) = mk_reply 200 txt (Some (JAuth r)) ->
  Z.abs (expires_in r * us_per_second / us_per_day) <= timedelta_max_days ->
  representable (clock w (ticks w) + expires_in r * us_per_second) ->
  result_of (_api_login s w) = Return tt /\
  token (final_state (_api_login s w)) = Some (token_type_ r +:+ " " +:+ access_token r) /\
  token_expiration (final_state (_api_login s w)) =
    Some (mk_datetime (clock w (ticks w) + expires_in r * us_per_second) None).
Proof.
  intros Hpeer Htd [Hlo Hhi].
  unfold _api_login, _api_post, _api_response. unfold login_request in Hpeer.
  run_monad. rewrite Hpeer. simpl.
  unfold timedelta_seconds, timedelta_us, datetime_add. simpl.
  destruct (Z.leb_spec (Z.abs (expires_in r * us_per_second / us_per_day)) timedelta_max_days);
    [|lia].
  simpl.
  destruct (Z.leb_spec 0 (clock w (ticks w) + expires_in r * us_per_second)); [|lia].
  destruct (Z.leb_spec (clock w (ticks w) + expires_in r * us_per_second) datetime_max_us);
    [|lia].
  simpl. destruct s; auto.
Qed.

(** C1.  The token check logs in exactly when no token exists or the stored
    expiry minus the current time is less than 3600 seconds: the
    client-credentials POST is sent in that case and nothing is sent
    otherwise.  A login that the vendor answers stores
    [token_type + " " + access_token] and the absolute expiry
    [now + expires_in] seconds, [now] being the clock reading of the login.
    In particular a token that expires in 1800 s is renewed by the next
    check and one that expires in 7200 s is not. *)
Theorem check_token_login_policy (s : client) (w : world) :
  token_consistent s ->
  let now0 := clock w (ticks w) in
  let now1 := clock w (S (ticks w)) in
  let after := _check_token s w in
  sent (final_world after)
    = (if login_due s now0 then sent w ++ [login_request (creds s)] else sent w)
  /\ (login_due s now0 = false -> after = (Return tt, s, tick w))
  /\ (login_due s now0 = true ->
      forall r txt,
        peer w (length (sent w)) (login_request (creds s))
          = mk_reply 200 txt (Some (JAuth r)) ->
        Z.abs (expires_in r * us_per_second / us_per_day) <= timedelta_max_days ->
        representable (now1 + expires_in r * us_per_second) ->
        result_of after = Return tt /\
        token (final_state after) = Some (token_type_ r +:+ " " +:+ access_token r) /\
        token_expiration (final_state after)
          = Some (mk_datetime (now1 + expires_in r * us_per_second) None))
  /\ (forall t e, token s = Some t -> token_expiration s = Some e ->
      (dt_us e = now0 + 1800 * us_per_second ->
       sent (final_world after) = sent w ++ [login_request (creds s)]) /\
      (dt_us e = now0 + 7200 * us_per_second ->
       sent (final_world after) = sent w)).
Proof.
  intros Hc now0 now1 after.
  assert (Hsent : sent (final_world after)
    = (if login_due s now0 then sent w ++ [login_request (creds s)] else sent w)).
  { subst after. rewrite (_check_token_cases s w Hc). fold now0.
    destruct (login_due s now0).
    - rewrite _api_login_sends. reflexivity.
    - reflexivity. }
  split; [exact Hsent|]. split; [|split].
  - intros Hdue. subst after. rewrite (_check_token_cases s w Hc). fold now0.
    rewrite Hdue. reflexivity.
  - intros Hdue r txt Hpeer Htd Hrep. subst after.
    rewrite (_check_token_cases s w Hc). fold now0. rewrite Hdue.
    apply (_api_login_success s (tick w) r txt); assumption.
  - intros t e Ht He. rewrite Hsent. unfold login_due. rewrite Ht, He.
    split; intros ->.
    + replace (now0 + 1800 * us_per_second - now0 <? 3600 * us_per_second) with true;
        [reflexivity|]. symmetry. apply Z.ltb_lt. unfold us_per_second. lia.
    + replace (now0 + 7200 * us_per_second - now0 <? 3600 * us_per_second) with false;
        [reflexivity|]. symmetry. apply Z.ltb_ge. unfold us_per_second. lia.
Qed.

(** The premise of C1 is an invariant: it holds of a new client, and a
    token check that returns re-establishes it. *)
Lemma init_token_consistent c : token_consistent (init c).
Proof. exact I. Qed.

Lemma _api_post_state url p auth d : unchanged (fun s => s) (_api_post url p auth d).
Proof. unfold _api_post, _api_response. unchanged_auto. Qed.

Lemma _api_login_consistent s w :
  returned (_api_login s w) -> token_consistent (final_state (_api_login s w)).
Proof.
  intros H. apply returned_inv in H as (u & s' & w' & H). rewrite H.
  unfold final_state; simpl. unfold _api_login in H.
  step H. step H as Epost. apply (unchanged_run _ _ _ _ _ _ _ (_api_post_state _ _ _ _)) in Epost.
  simpl in Epost. subst.
  step H. step H. step H. step H. step H. step H as Eadd.
  apply modify_inv in H as (-> & ->).
  unfold datetime_add in Eadd. simpl in Eadd.
  destruct (_ && _); [|discriminate]. injection Eadd as <-.
  unfold token_consistent. destruct s; simpl. split; [|reflexivity].
  destruct (token_type_ _); discriminate.
Qed.

Lemma _check_token_consistent s w :
  token_consistent s ->
  returned (_check_token s w) -> token_consistent (final_state (_check_token s w)).
Proof.
  intros Hc. rewrite (_check_token_cases s w Hc).
  destruct (login_due _ _); [apply _api_login_consistent | intros _; exact Hc].
Qed.

(** ** Durations *)

Lemma is_digit_not (c x : ascii) :
  is_digit c = true -> is_digit x = false -> Ascii.eqb c x = false.
Proof.
  intros Hc Hx. destruct (Ascii.eqb_spec c x) as [->|]; [congruence | reflexivity].
Qed.

Lemma is_digit_not_space c : is_digit c = true -> is_space c = false.
Proof.
  unfold is_digit, is_space. intros H. apply andb_true_iff in H as [H1 H2].
  apply Z.leb_le in H1, H2.
  apply orb_false_iff. split; apply andb_false_iff.
  - right. apply Z.leb_gt. lia.
  - right. apply Z.leb_gt. lia.
Qed.

Lemma all_digits_contains c s :
  is_digit c = false -> all_digits s = true -> contains c s = false.
Proof.
  intros Hc. induction s as [|a s IH]; simpl; [reflexivity|].
  intros H. apply andb_true_iff in H as [Ha Hs].
  rewrite (is_digit_not a c Ha Hc). auto.
Qed.

Lemma contains_app c p q : contains c (p +:+ q) = contains c p || contains c q.
Proof.
  induction p as [|a p IH]; simpl; [reflexivity|].
  destruct (Ascii.eqb a c); [reflexivity | exact IH].
Qed.

Lemma split_none c s : contains c s = false -> split c s = [s].
Proof.
  induction s as [|a s IH]; simpl; [reflexivity|].
  destruct (Ascii.eqb a c); [discriminate|].
  intros H. rewrite (IH H). reflexivity.
Qed.

Lemma split_at c p r :
  contains c p = false -> split c (p +:+ String c r) = p :: split c r.
Proof.
  induction p as [|a p IH]; simpl.
  - intros _. rewrite Ascii.eqb_refl. reflexivity.
  - destruct (Ascii.eqb a c); [discriminate|].
    intros H. rewrite (IH H). reflexivity.
Qed.

Lemma int_digits_all acc b s :
  all_digits s = true -> (s <> "" \/ b = true) ->
  int_digits acc b s = Some (decimal_from acc s).
Proof.
  revert acc b. induction s as [|c s IH]; simpl; intros acc b H Hne.
  - destruct Hne as [Hne| ->]; [contradiction | reflexivity].
  - apply andb_true_iff in H as [Hc Hs]. rewrite Hc. apply IH; auto.
Qed.

Lemma lstrip_numeral s : is_numeral s -> lstrip s = s.
Proof.
  intros [Hne H]. destruct s as [|c s]; [reflexivity|]. simpl in *.
  apply andb_true_iff in H as [Hc _]. rewrite (is_digit_not_space c Hc). reflexivity.
Qed.

Lemma rstrip_digits s : all_digits s = true -> rstrip s = s.
Proof.
  induction s as [|c s IH]; simpl; [reflexivity|].
  intros H. apply andb_true_iff in H as [Hc Hs]. rewrite (IH Hs).
  destruct s; [|reflexivity]. rewrite (is_digit_not_space c Hc). reflexivity.
Qed.

Lemma int_of_str_numeral s : is_numeral s -> int_of_str s = Return (decimal s).
Proof.
  intros Hn. unfold int_of_str. rewrite (lstrip_numeral s Hn).
  destruct Hn as [Hne H]. rewrite (rstrip_digits s H).
  assert (Hd : int_digits 0 false s = Some (decimal s))
    by (apply int_digits_all; auto).
  destruct s as [|c s]; [contradiction|].
  simpl in H. apply andb_true_iff in H as [Hc _].
  assert (Hm : Ascii.eqb c "-" = false) by (apply is_digit_not; auto).
  assert (Hp : Ascii.eqb c "+" = false) by (apply is_digit_not; auto).
  destruct c as [[] [] [] [] [] [] [] []]; try discriminate; rewrite Hd; reflexivity.
Qed.

Lemma decimal_from_nonneg s acc : all_digits s = true -> 0 <= acc -> 0 <= decimal_from acc s.
Proof.
  revert acc. induction s as [|c s IH]; simpl; intros acc H Hacc; [exact Hacc|].
  apply andb_true_iff in H as [Hc Hs]. apply IH; [exact Hs|].
  unfold is_digit, digit_value in *. apply andb_true_iff in Hc as [H1 _].
  apply Z.leb_le in H1. lia.
Qed.

Lemma decimal_nonneg s : is_numeral s -> 0 <= decimal s.
Proof. intros [_ H]. apply decimal_from_nonneg; [exact H | lia]. Qed.

Lemma schedule_duration_of_form str n :
  duration_form str n -> schedule_duration str = Return n.
Proof.
  assert (Hdot : is_digit "." = false) by reflexivity.
  assert (Hcol : is_digit ":" = false) by reflexivity.
  assert (Hhms : forall h m sec, is_numeral h -> is_numeral m -> is_numeral sec ->
    contains "." (h +:+ ":" +:+ m +:+ ":" +:+ sec) = false /\
    split ":" (h +:+ ":" +:+ m +:+ ":" +:+ sec) = [h; m; sec]).
  { intros h m sec [_ Hh] [_ Hm] [_ Hs]. split.
    - rewrite !contains_app. simpl.
      rewrite !(all_digits_contains "." _ Hdot) by assumption. reflexivity.
    - change (h +:+ ":" +:+ m +:+ ":" +:+ sec)
        with (h +:+ String ":" (m +:+ String ":" sec)).
      rewrite split_at by (apply all_digits_contains; auto).
      rewrite split_at by (apply all_digits_contains; auto).
      rewrite split_none by (apply all_digits_contains; auto). reflexivity. }
  assert (Hi0 : forall (x : string) l, index (x :: l) 0 = Return x) by reflexivity.
  assert (Hi1 : forall (x y : string) l, index (x :: y :: l) 1 = Return y) by reflexivity.
  assert (Hb : forall (A B : Type) (a : A) (f : A -> outcome B), Return a ≫= f = f a)
    by reflexivity.
  intros [d h m sec Hd Hh Hm Hs | h m sec Hh Hm Hs]; unfold schedule_duration.
  - destruct (Hhms h m sec Hh Hm Hs) as [Hc Hsp].
    rewrite contains_app. simpl contains.
    change (d +:+ "." +:+ h +:+ ":" +:+ m +:+ ":" +:+ sec)
      with (d +:+ String "." (h +:+ ":" +:+ m +:+ ":" +:+ sec)).
    rewrite split_at by (apply all_digits_contains; [reflexivity | apply Hd]).
    rewrite (split_none "." _ Hc).
    rewrite orb_true_r. rewrite Hi0, Hb, (int_of_str_numeral d Hd), Hb, Hi1, !Hb.
    rewrite Hsp, Hi0, Hb, (int_of_str_numeral h Hh), Hb, Hi1, Hb,
      (int_of_str_numeral m Hm), Hb.
    f_equal. lia.
  - destruct (Hhms h m sec Hh Hm Hs) as [Hc Hsp].
    rewrite Hc, Hb, Hsp, Hi0, Hb, (int_of_str_numeral h Hh), Hb, Hi1, Hb,
      (int_of_str_numeral m Hm), Hb.
    f_equal. lia.
Qed.

Lemma duration_form_nonneg str n : duration_form str n -> 0 <= n.
Proof.
  intros [d h m sec Hd Hh Hm Hs | h m sec Hh Hm Hs].
  - pose proof (decimal_nonneg d Hd). pose proof (decimal_nonneg h Hh).
    pose proof (decimal_nonneg m Hm). lia.
  - pose proof (decimal_nonneg h Hh). pose proof (decimal_nonneg m Hm). lia.
Qed.

Lemma schedule_step_well_formed id_temp sch minutes start s w :
  well_formed_schedule sch minutes start ->
  exists info,
    schedule_step id_temp sch s w
      = (Return tt, set_schedules (_redback_schedules s ++ [info]) s, w) /\
    normalized_as sch info.
Proof.
  intros Hwf. pose proof Hwf as (Hform & Hstart & [Hs0 Hs1] & [He0 He1]).
  pose proof (duration_form_nonneg _ _ Hform) as Hn.
  eexists. split.
  - unfold schedule_step, append_schedule. run_monad.
    rewrite (schedule_duration_of_form _ _ Hform), Hstart.
    unfold timedelta_minutes, timedelta_us, datetime_add.
    assert (Hdays : (Z.abs (minutes * 60 * us_per_second / us_per_day) <=? timedelta_max_days) = true).
    { apply Z.leb_le. unfold datetime_max_us, timedelta_max_days, us_per_day, us_per_second in *.
      assert (0 <= minutes * 60 * 1000000 / (86400 * 1000000) <= 3652059).
      { split; [apply Z.div_pos; lia | apply Z.div_le_upper_bound; lia]. }
      lia. }
    rewrite Hdays.
    replace (0 <=? dt_us start + minutes * 60 * us_per_second) with true
      by (symmetry; apply Z.leb_le; lia).
    replace (dt_us start + minutes * 60 * us_per_second <=? datetime_max_us) with true
      by (symmetry; apply Z.leb_le; lia).
    reflexivity.
  - exists minutes, start. simpl. auto.
Qed.

Lemma schedule_loop_well_formed id_temp l w : forall s,
  Forall (fun sch => exists minutes start, well_formed_schedule sch minutes start) l ->
  exists infos,
    for_each l (schedule_step id_temp) s w
      = (Return tt, set_schedules (_redback_schedules s ++ infos) s, w) /\
    Forall2 normalized_as l infos.
Proof.
  induction l as [|sch l IH]; intros s Hl.
  - exists []. split; [|constructor]. simpl. rewrite app_nil_r. destruct s; reflexivity.
  - apply Forall_cons in Hl as [(minutes & start & Hwf) Hl].
    destruct (schedule_step_well_formed id_temp sch minutes start s w Hwf) as (info & Hrun & Hinfo).
    destruct (IH (set_schedules (_redback_schedules s ++ [info]) s) Hl) as (infos & Hrest & Hinfos).
    exists (info :: infos). split; [|constructor; assumption].
    simpl. rewrite bind_run, Hrun, Hrest. destruct s; simpl.
    rewrite <- app_assoc. reflexivity.
Qed.

(** C2.  For vendor schedules whose [Duration] has the form [D.HH:MM:SS] or
    [HH:MM:SS] (and whose start and end are datetimes), the normalization
    returns and appends one record per schedule, in order, whose duration
    is [days*1440 + hours*60 + minutes] and whose end time is the parsed
    [StartTimeUtc] plus that many minutes; ["0.02:15:00"] gives 135 and
    ["01:05:00"] gives 65. *)
Theorem schedule_normalization (l : list vendor_schedule) (s : client) (w : world) :
  Forall (fun sch => exists minutes start, well_formed_schedule sch minutes start) l ->
  (exists infos,
     _convert_responses_to_schedule_entities (JSchedules l) s w
       = (Return tt, set_schedules (_redback_schedules s ++ infos) s, w) /\
     Forall2 normalized_as l infos)
  /\ schedule_duration "0.02:15:00" = Return 135
  /\ schedule_duration "01:05:00" = Return 65.
Proof.
  intros Hl. split; [|split; reflexivity].
  unfold _convert_responses_to_schedule_entities.
  destruct l as [|first l].
  - exists []. split; [|constructor]. run_monad. simpl.
    rewrite app_nil_r. destruct s; reflexivity.
  - destruct (schedule_loop_well_formed (device_id_of (SerialNumber first) "inv")
                (first :: l) w s Hl) as (infos & Hrun & Hinfos).
    exists infos. split; [|exact Hinfos].
    rewrite bind_run. exact Hrun.
Qed.

(** ** The duration string of a new schedule *)

(** C5 fails on the code.  [set_inverter_schedule] writes the total
    number of hours, not the hours left over after the days, into the [HH]
    field; for a Control Setting of 1440 minutes it builds ["1.24:00:00"],
    which the schedule-duration parser reads as 2880 minutes. *)
Theorem duration_round_trip_fails_at_one_day :
  duration_str (VNum (PyInt 1440)) = Return "1.24:00:00" /\
  schedule_duration "1.24:00:00" = Return 2880.
Proof. split; vm_compute; reflexivity. Qed.

(** The same stored duration read back *)
Definition duration_read_back (d : pyval) : outcome Z :=
  str ← duration_str d; schedule_duration str.

(** X20.  Below one day the duration string does round-trip: for a stored
    duration of [d] minutes, [0 <= d < 1440], an [int] or a whole [float],
    the string [set_inverter_schedule] builds is read back as [d] by the
    schedule-duration parser. *)
Lemma duration_round_trip_below_one_day (d : Z) :
  0 <= d < 1440 ->
  duration_read_back (VNum (PyInt d)) = Return d /\
  (forall f, float_of_int d = Return f -> duration_read_back (VNum (PyFloat f)) = Return d).
Proof.
  intros Hd.
  assert (Hall : forallb (fun n =>
      let d := Z.of_nat n in
      match duration_read_back (VNum (PyInt d)), float_of_int d with
      | Return a, Return f =>
          match duration_read_back (VNum (PyFloat f)) with
          | Return b => (a =? d) && (b =? d)
          | Raise _ => false
          end
      | _, _ => false
      end) (seq 0 1440) = true) by (vm_compute; reflexivity).
  rewrite forallb_forall in Hall.
  specialize (Hall (Z.to_nat d)). rewrite Z2Nat.id in Hall by lia.
  assert (Hin : In (Z.to_nat d) (seq 0 1440)) by (apply in_seq; lia).
  specialize (Hall Hin). simpl in Hall.
  destruct (duration_read_back (VNum (PyInt d))) as [a|]; [|discriminate].
  destruct (float_of_int d) as [f|]; [|discriminate].
  destruct (duration_read_back (VNum (PyFloat f))) as [b|] eqn:Eb; [|discriminate].
  apply andb_true_iff in Hall as [Ha Hb]. apply Z.eqb_eq in Ha, Hb. subst a b.
  split; [reflexivity|]. intros f' Hf. injection Hf as <-. exact Eb.
Qed.

(** ** Methods that only append entities *)

Lemma grows_ret {A} (a : A) : grows (mret a).
Proof. intros s w. reflexivity. Qed.
Lemma grows_raise {A} e : grows (@raise A e).
Proof. intros s w. reflexivity. Qed.
Lemma grows_lift {A} (o : outcome A) : grows (lift o).
Proof. intros s w. reflexivity. Qed.
Lemma grows_gets {A} (g : client -> A) : grows (gets g).
Proof. intros s w. reflexivity. Qed.
Lemma grows_attr {A} (g : client -> option A) : grows (attr g).
Proof. intros s w. reflexivity. Qed.
Lemma grows_now : grows now.
Proof. intros s w. reflexivity. Qed.
Lemma grows_now_utc : grows now_utc.
Proof. intros s w. reflexivity. Qed.
Lemma grows_send r : grows (send r).
Proof. intros s w. reflexivity. Qed.

Lemma grows_modify g :
  (forall s, _redback_entities s `prefix_of` _redback_entities (g s)) -> grows (modify g).
Proof. intros H s w. apply H. Qed.

Lemma grows_bind {A C} (m : M A) (k : A -> M C) :
  grows m -> (forall a, grows (k a)) -> grows (m ≫= k).
Proof.
  intros Hm Hk s w. specialize (Hm s w). unfold final_state in *.
  rewrite bind_run. destruct (m s w) as [[[a|e] s1] w1]; simpl in *.
  - etrans; [exact Hm | apply Hk].
  - exact Hm.
Qed.

Lemma grows_for_each {A} (l : list A) (body : A -> M unit) :
  (forall x, grows (body x)) -> grows (for_each l body).
Proof.
  intros H. induction l as [|x l IH]; simpl.
  - apply grows_ret.
  - apply grows_bind; auto.
Qed.

Lemma grows_for_fold {A C} (l : list A) (acc : C) (body : C -> A -> M C) :
  (forall c x, grows (body c x)) -> grows (for_fold l acc body).
Proof.
  intros H. revert acc. induction l as [|x l IH]; intros acc; simpl.
  - apply grows_ret.
  - apply grows_bind; auto.
Qed.

Lemma grows_append_entity e : grows (append_entity e).
Proof. intros [] w. simpl. apply prefix_app_r. reflexivity. Qed.

Lemma grows_append_all l : grows (append_all l).
Proof. apply grows_for_each. intros x. apply grows_append_entity. Qed.

Create HintDb grows_db.

Ltac grows_step :=
  first
    [ lazymatch goal with
      | |- grows (mbind _ _) => apply grows_bind; [| intros ?]
      | |- grows (mret _) => apply grows_ret
      | |- grows (raise _) => apply grows_raise
      | |- grows (lift _) => apply grows_lift
      | |- grows (gets _) => apply grows_gets
      | |- grows (attr _) => apply grows_attr
      | |- grows now => apply grows_now
      | |- grows now_utc => apply grows_now_utc
      | |- grows (send _) => apply grows_send
      | |- grows (append_entity _) => apply grows_append_entity
      | |- grows (append_all _) => apply grows_append_all
      | |- grows (modify _) => apply grows_modify; intros []; simpl; reflexivity
      | |- grows (for_each _ _) => apply grows_for_each; intros ?
      | |- grows (for_fold _ _ _) => apply grows_for_fold; intros ? ?
      | |- grows (match ?x with _ => _ end) => destruct x
      end
    | solve [auto 2 with grows_db nocore] ].

Ltac grows_auto := repeat grows_step.

Lemma grows_pv_step id_temp pvId pv : grows (pv_step id_temp pvId pv).
Proof. unfold pv_step. grows_auto. Qed.

Lemma grows_phase_step id_temp acc phase : grows (phase_step id_temp acc phase).
Proof. unfold phase_step. cbv zeta. grows_auto. Qed.

Lemma grows_module_step id_temp d2 acc battery : grows (module_step id_temp d2 acc battery).
Proof. unfold module_step. cbv zeta. grows_auto. Qed.

Lemma grows_cabinet_step id_temp cabinetId cabinet :
  grows (cabinet_step id_temp cabinetId cabinet).
Proof. unfold cabinet_step. grows_auto. Qed.

#[local] Hint Resolve grows_pv_step grows_phase_step grows_module_step grows_cabinet_step
  : grows_db.

(** ** Triples *)

Lemma hoare_conseq {A} (P P' : client -> world -> Prop) (m : M A)
    (Q Q' : A -> client -> world -> Prop) :
  (forall s w, P s w -> P' s w) -> hoare P' m Q' ->
  (forall a s w, Q' a s w -> Q a s w) -> hoare P m Q.
Proof. intros HP H HQ s w Hs a s' w' E. eapply HQ, H; eauto. Qed.

Lemma hoare_bind {A C} P (m : M A) R (k : A -> M C) Q :
  hoare P m R -> (forall a, hoare (R a) (k a) Q) -> hoare P (m ≫= k) Q.
Proof.
  intros Hm Hk s w Hs c s' w' E.
  apply bind_Return_inv in E as (a & s1 & w1 & E1 & E2).
  eapply Hk; [|exact E2]. eapply Hm; eauto.
Qed.

(** The first action is run without looking at what it does. *)
Lemma hoare_skip {A C} (m : M A) (k : A -> M C) Q :
  (forall a, hoare (fun _ _ => True) (k a) Q) -> hoare (fun _ _ => True) (m ≫= k) Q.
Proof. intros Hk. eapply hoare_bind; [|exact Hk]. intros s w _ a s' w' _. exact I. Qed.

(** The first action is pure, and what it returned is remembered. *)
Lemma hoare_lift {A C} P (o : outcome A) (k : A -> M C) Q :
  (forall a, o = Return a -> hoare P (k a) Q) -> hoare P (lift o ≫= k) Q.
Proof.
  intros Hk s w Hs c s' w' E.
  apply bind_Return_inv in E as (a & s1 & w1 & E1 & E2).
  apply lift_inv in E1 as (E1 & -> & ->). eapply Hk; eauto.
Qed.

(** An assertion that appending keeps, across a method that appends *)
Lemma hoare_grows {A} phi (m : M A) :
  monotone phi -> grows m -> hoare (on_entities phi) m (fun _ => on_entities phi).
Proof.
  intros Hphi Hm s w Hs a s' w' E. specialize (Hm s w). rewrite E in Hm.
  exact (Hphi _ _ Hm Hs).
Qed.

Lemma hoare_keep {A C} phi (m : M A) (k : A -> M C) Q :
  monotone phi -> grows m ->
  (forall a, hoare (on_entities phi) (k a) Q) -> hoare (on_entities phi) (m ≫= k) Q.
Proof.
  intros Hphi Hm Hk. eapply hoare_bind; [apply hoare_grows; assumption|].
  exact Hk.
Qed.

Lemma hoare_append_entity e :
  hoare (fun _ _ => True) (append_entity e) (fun _ => on_entities (fun l => e ∈ l)).
Proof.
  drop_constants.
  intros s w _ a s' w' E. apply modify_inv in E as (-> & ->).
  unfold on_entities. destruct s; simpl. set_solver.
Qed.

Lemma hoare_append_all e l :
  e ∈ l -> hoare (fun _ _ => True) (append_all l) (fun _ => on_entities (fun l' => e ∈ l')).
Proof.
  drop_constants.
  unfold append_all. induction l as [|x l IH]; intros He; [set_solver|].
  apply elem_of_cons in He as [-> | He]; simpl.
  - eapply hoare_bind; [apply hoare_append_entity|]. intros ?.
    apply hoare_grows; [|apply grows_for_each; intros; apply grows_append_entity].
    intros l1 l2 [k ->] H. set_solver.
  - apply hoare_skip. intros ?. auto.
Qed.

Lemma monotone_elem (e : entity) : monotone (fun l => e ∈ l).
Proof.
  drop_constants. intros l1 l2 [k ->] H. set_solver. Qed.

Lemma hoare_returned {A} (m : M A) Q s w :
  hoare (fun _ _ => True) m Q -> returned (m s w) ->
  exists a, result_of (m s w) = Return a /\ Q a (final_state (m s w)) (final_world (m s w)).
Proof.
  intros H Hr. apply returned_inv in Hr as (a & s' & w' & E).
  exists a. rewrite E. split; [reflexivity|]. eapply H; eauto.
Qed.

Lemma monotone_duplicate : monotone (fun l => ~ unique_ids l).
Proof.
  intros l1 l2 [k ->] H Hu. apply H. unfold unique_ids in *.
  rewrite fmap_app in Hu. apply NoDup_app in Hu as (Hu & _ & _). exact Hu.
Qed.

Lemma hoare_append_duplicate e1 e2 :
  entity_id e1 = entity_id e2 ->
  hoare (on_entities (fun l => e1 ∈ l)) (append_entity e2)
    (fun _ => on_entities (fun l => ~ unique_ids l)).
Proof.
  drop_constants.
  intros Hid s w Hin a s' w' E. apply modify_inv in E as (-> & ->).
  unfold on_entities, unique_ids in *. destruct s; simpl in *.
  rewrite fmap_app. intros Hu. apply NoDup_app in Hu as (_ & Hu & _).
  apply (Hu (entity_id e2)).
  - rewrite <- Hid. apply list_elem_of_fmap. eauto.
  - simpl. set_solver.
Qed.

(** Walking a method up to the append of the entity called [nm], and from
    there to its end. *)
Ltac mono := first [apply monotone_elem | apply monotone_duplicate].

Ltac keep_to_end :=
  repeat (apply hoare_keep; [mono | solve [grows_auto] | intros ?]);
  eapply hoare_conseq;
    [ intros ? ? H; exact H
    | apply hoare_grows; [mono | solve [grows_auto]]
    | ].

Ltac walk_front nm :=
  repeat
    lazymatch goal with
    | |- hoare _ (mbind _ (lift _)) _ =>
        apply hoare_lift;
        let a := fresh "a" in
        let Ha := fresh "Ha" in
        intros a Ha;
        try (injection Ha as <-)
    | |- hoare _ (mbind _ (append_entity (ent _ nm _ _))) _ => fail
    | |- hoare _ (mbind _ (append_all ?l)) _ =>
        lazymatch l with
        | context [ent _ nm _ _] => fail
        | _ => apply hoare_skip; intros ?
        end
    | |- hoare _ (mbind _ (for_fold _ phase_sums_0 _)) _ => fail
    | |- hoare _ (mbind _ _) _ => apply hoare_skip; intros ?
    end.

Ltac establish nm :=
  lazymatch goal with
  | |- hoare _ (mbind _ (append_entity ?e)) _ =>
      eapply hoare_bind; [apply (hoare_append_entity e)|]; intros ?
  | |- hoare _ (mbind _ (append_all ?l)) _ =>
      lazymatch l with
      | context [ent ?v nm ?i ?t] =>
          eapply hoare_bind; [apply (hoare_append_all (ent v nm i t)); set_solver|];
          intros ?
      end
  end.

Ltac keep_until nm :=
  repeat
    lazymatch goal with
    | |- hoare _ (mbind _ (append_entity (ent _ nm _ _))) _ => fail
    | |- hoare _ (mbind _ _) _ =>
        apply hoare_keep; [mono | solve [grows_auto] | intros ?]
    end.

Ltac walk_to nm := walk_front nm; establish nm; keep_to_end.

(** ** Runs that get as far as an entity *)

Lemma always_returns_ret {A} (a : A) (Q : A -> Prop) : Q a -> always_returns (mret a) Q.
Proof. drop_constants. intros HQ s w. exists a, s, w. auto. Qed.

Lemma always_returns_lift {A} (o : outcome A) a (Q : A -> Prop) :
  o = Return a -> Q a -> always_returns (lift o) Q.
Proof. drop_constants. intros -> HQ s w. exists a, s, w. auto. Qed.

Lemma always_returns_modify g : always_returns (modify g) (fun _ => True).
Proof. drop_constants. intros s w. exists tt, (g s), w. auto. Qed.

Lemma always_returns_bind {A C} (m : M A) (k : A -> M C) (Q : A -> Prop) (R : C -> Prop) :
  always_returns m Q -> (forall a, Q a -> always_returns (k a) R) ->
  always_returns (m ≫= k) R.
Proof.
  drop_constants.
  intros Hm Hk s w. destruct (Hm s w) as (a & s1 & w1 & E & Ha).
  rewrite bind_run, E. apply Hk. exact Ha.
Qed.

Lemma always_returns_conseq {A} (m : M A) (Q R : A -> Prop) :
  always_returns m Q -> (forall a, Q a -> R a) -> always_returns m R.
Proof.
  drop_constants.
  intros Hm HQ s w. destruct (Hm s w) as (a & s1 & w1 & E & Ha). eauto 6.
Qed.

Lemma always_returns_append_entity e : always_returns (append_entity e) (fun _ => True).
Proof. apply always_returns_modify. Qed.

Lemma always_returns_append_all l : always_returns (append_all l) (fun _ => True).
Proof.
  drop_constants.
  unfold append_all. induction l as [|x l IH]; simpl.
  - apply always_returns_ret. exact I.
  - apply (always_returns_bind _ _ (fun _ => True));
      [apply always_returns_append_entity|]. intros _ _. exact IH.
Qed.

Lemma always_returns_pv_loop id_temp l : forall pvId,
  always_returns (for_fold l pvId (pv_step id_temp)) (fun _ => True).
Proof.
  drop_constants.
  induction l as [|pv l IH]; intros pvId; simpl.
  - apply always_returns_ret. exact I.
  - apply (always_returns_bind _ _ (fun _ => True)); [|intros a _; apply IH].
    unfold pv_step.
    apply (always_returns_bind _ _ (fun _ => True)); [apply always_returns_append_all|].
    intros _ _. apply always_returns_ret. exact I.
Qed.

Lemma leaves_bind {A C} (m : M A) (k : A -> M C) (Q : A -> Prop) phi :
  always_returns m Q -> (forall a, Q a -> leaves (k a) phi) -> leaves (m ≫= k) phi.
Proof.
  drop_constants.
  intros Hm Hk s w. destruct (Hm s w) as (a & s1 & w1 & E & Ha).
  rewrite bind_run, E. apply Hk. exact Ha.
Qed.

Lemma leaves_lift {A C} (o : outcome A) a (k : A -> M C) phi :
  o = Return a -> leaves (k a) phi -> leaves (lift o ≫= k) phi.
Proof.
  drop_constants.
  intros Ho Hk. eapply leaves_bind; [exact (always_returns_lift o a (fun x => x = a) Ho eq_refl)|].
  intros ? ->. exact Hk.
Qed.

Lemma leaves_skip {C} (m : M unit) (k : unit -> M C) phi :
  always_returns m (fun _ => True) -> leaves (k tt) phi -> leaves (m ≫= k) phi.
Proof.
  drop_constants.
  intros Hm Hk. eapply leaves_bind; [exact Hm|]. intros [] _. exact Hk.
Qed.

Lemma leaves_append_all {C} e l (k : unit -> M C) :
  e ∈ l -> grows (k tt) -> leaves (append_all l ≫= k) (fun l' => e ∈ l').
Proof.
  drop_constants.
  intros He Hk s w. destruct (always_returns_append_all l s w) as ([] & s1 & w1 & E & _).
  rewrite bind_run, E.
  pose proof (hoare_append_all e l He s w I tt s1 w1 E) as Hin.
  exact (monotone_elem e _ _ (Hk s1 w1) Hin).
Qed.

Lemma leaves_append_entity {C} e (k : unit -> M C) :
  grows (k tt) -> leaves (append_entity e ≫= k) (fun l' => e ∈ l').
Proof.
  drop_constants.
  intros Hk s w. rewrite bind_run.
  pose proof (hoare_append_entity e s w I tt _ _ eq_refl) as Hin.
  exact (monotone_elem e _ _ (Hk _ w) Hin).
Qed.

(** Walking a method whose every action returns, up to the append of the
    entity called [nm] *)
Ltac reach nm :=
  repeat
    (lazymatch goal with
     | |- leaves (mbind _ (lift _)) _ =>
         eapply leaves_lift; [solve [eassumption | reflexivity] |]
     | |- leaves (mbind _ (append_entity (ent _ nm _ _))) _ => fail
     | |- leaves (mbind _ (append_entity _)) _ =>
         apply leaves_skip; [apply always_returns_append_entity|]
     | |- leaves (mbind _ (append_all ?l)) _ =>
         lazymatch l with
         | context [ent _ nm _ _] => fail
         | _ => apply leaves_skip; [apply always_returns_append_all|]
         end
     | |- leaves (mbind _ (modify _)) _ =>
         apply leaves_skip; [apply always_returns_modify|]
     | |- leaves (mbind _ (for_fold _ _ (pv_step _))) _ =>
         eapply leaves_bind; [apply always_returns_pv_loop | intros ? _]
     end; cbv beta).

Ltac arrive nm :=
  lazymatch goal with
  | |- leaves (mbind _ (append_entity _)) _ =>
      apply leaves_append_entity; cbv beta; solve [grows_auto]
  | |- leaves (mbind _ (append_all ?l)) _ =>
      lazymatch l with
      | context [ent ?v nm ?i ?t] =>
          apply (leaves_append_all (ent v nm i t)); [set_solver | cbv beta; solve [grows_auto]]
      end
  end.

(** ** Energy counters *)

Lemma kwh_to_mwh_spec x : kwh_to_mwh x = spec_mwh x.
Proof. drop_constants. destruct x; reflexivity. Qed.

Lemma has_percentage_jmul x :
  has_percentage x -> exists r, jmul x (Some (PyInt 100)) = Return r.
Proof. drop_constants. intros (a & r & -> & H). exists r. exact H. Qed.

Lemma inverter_counter_reached d n d2 ts v1 v2 v3 v4 nm v :
  node0 d = Return n ->
  fromisoformat (replace "Z" "+00:00" (TimestampUtc d2)) = Return ts ->
  spec_mwh (PvAllTimeEnergykWh d2) = Return v1 ->
  spec_mwh (ExportAllTimeEnergykWh d2) = Return v2 ->
  spec_mwh (ImportAllTimeEnergykWh d2) = Return v3 ->
  spec_mwh (LoadAllTimeEnergykWh d2) = Return v4 ->
  (nm, v) ∈ [ ("pv_all_time_energy_mwh", v1); ("export_all_time_energy_mwh", v2);
              ("import_all_time_energy_mwh", v3); ("load_all_time_energy_mwh", v4) ] ->
  leaves (_convert_responses_to_inverter_entities (JStatic d) (JDynamic d2))
    (fun l => ent v nm (device_id_of (node_Id n) "inv") "inverter" ∈ l).
Proof.
  intros Hn Hts H1 H2 H3 H4 Hin.
  rewrite <- kwh_to_mwh_spec in H1, H2, H3, H4.
  unfold _convert_responses_to_inverter_entities. cbv zeta.
  change (as_static (JStatic d)) with (Return d).
  change (as_dynamic (JDynamic d2)) with (Return d2).
  repeat (apply elem_of_cons in Hin as [[= -> ->] | Hin]);
    [ reach "pv_all_time_energy_mwh"; arrive "pv_all_time_energy_mwh"
    | reach "export_all_time_energy_mwh"; arrive "export_all_time_energy_mwh"
    | reach "import_all_time_energy_mwh"; arrive "import_all_time_energy_mwh"
    | reach "load_all_time_energy_mwh"; arrive "load_all_time_energy_mwh"
    | set_solver ].
Qed.

Lemma battery_counter_reached d n d2 c ts v1 v2 nm v :
  node0 d = Return n ->
  has_percentage (MinSoC0to1 c) ->
  has_percentage (MinOffgridSoC0to1 c) ->
  fromisoformat (replace "Z" "+00:00" (TimestampUtc d2)) = Return ts ->
  has_percentage (BatterySoCInstantaneous0to1 d2) ->
  spec_mwh (BatteryChargeAllTimeEnergykWh d2) = Return v1 ->
  spec_mwh (BatteryDischargeAllTimeEnergykWh d2) = Return v2 ->
  (nm, v) ∈ [ ("battery_charge_all_time_energy_mwh", v1);
              ("battery_discharge_all_time_energy_mwh", v2) ] ->
  leaves (_convert_responses_to_battery_entities (JStatic d) (JDynamic d2) (JConfig c))
    (fun l => ent v nm (device_id_of (node_Id n) "bat") "battery" ∈ l).
Proof.
  intros Hn Hmin Hoff Hts Hsoc H1 H2 Hin.
  apply has_percentage_jmul in Hmin as (r1 & Hmin).
  apply has_percentage_jmul in Hoff as (r2 & Hoff).
  apply has_percentage_jmul in Hsoc as (r3 & Hsoc).
  rewrite <- kwh_to_mwh_spec in H1, H2.
  unfold _convert_responses_to_battery_entities. cbv zeta.
  change (as_static (JStatic d)) with (Return d).
  change (as_dynamic (JDynamic d2)) with (Return d2).
  change (as_config (JConfig c)) with (Return c).
  repeat (apply elem_of_cons in Hin as [[= -> ->] | Hin]);
    [ reach "battery_charge_all_time_energy_mwh";
      arrive "battery_charge_all_time_energy_mwh"
    | reach "battery_discharge_all_time_energy_mwh";
      arrive "battery_discharge_all_time_energy_mwh"
    | set_solver ].
Qed.

(** C7.  An energy counter is converted from kWh to MWh by a division by
    1000 ([1500.0] gives [1.5]), and a counter that is [null] is passed on
    as [null] without an exception: the conversion of the code is the one
    of the specification.  Both normalizations get as far as their
    counters whenever the payloads have what is read before them (a node,
    a timestamp that parses, for the battery the three state-of-charge
    readings), and the entities of the inverter's four all-time counters
    and of the battery's two are then in the entity list, with the
    converted values, however the normalization ends afterwards. *)
Theorem energy_counters_in_mwh :
  kwh_to_mwh None = Return VNone
  /\ (forall f, kwh_to_mwh (Some (PyFloat f)) = Return (VNum (PyFloat (f / 1000))))
  /\ (forall k, kwh_to_mwh (Some (PyInt k))
               = (q ← int_truediv k 1000; Return (VNum (PyFloat q))))
  /\ kwh_to_mwh (Some (PyFloat 1500)) = Return (VNum (PyFloat 1.5))
  /\ (forall d n d2 ts v1 v2 v3 v4 s w,
        node0 d = Return n ->
        fromisoformat (replace "Z" "+00:00" (TimestampUtc d2)) = Return ts ->
        spec_mwh (PvAllTimeEnergykWh d2) = Return v1 ->
        spec_mwh (ExportAllTimeEnergykWh d2) = Return v2 ->
        spec_mwh (ImportAllTimeEnergykWh d2) = Return v3 ->
        spec_mwh (LoadAllTimeEnergykWh d2) = Return v4 ->
        Forall
          (fun '(nm, v) =>
             ent v nm (device_id_of (node_Id n) "inv") "inverter"
             ∈ _redback_entities
                 (final_state
                    (_convert_responses_to_inverter_entities
                       (JStatic d) (JDynamic d2) s w)))
          [ ("pv_all_time_energy_mwh", v1); ("export_all_time_energy_mwh", v2);
            ("import_all_time_energy_mwh", v3); ("load_all_time_energy_mwh", v4) ])
  /\ (forall d n d2 c ts v1 v2 s w,
        node0 d = Return n ->
        has_percentage (MinSoC0to1 c) ->
        has_percentage (MinOffgridSoC0to1 c) ->
        fromisoformat (replace "Z" "+00:00" (TimestampUtc d2)) = Return ts ->
        has_percentage (BatterySoCInstantaneous0to1 d2) ->
        spec_mwh (BatteryChargeAllTimeEnergykWh d2) = Return v1 ->
        spec_mwh (BatteryDischargeAllTimeEnergykWh d2) = Return v2 ->
        Forall
          (fun '(nm, v) =>
             ent v nm (device_id_of (node_Id n) "bat") "battery"
             ∈ _redback_entities
                 (final_state
                    (_convert_responses_to_battery_entities
                       (JStatic d) (JDynamic d2) (JConfig c) s w)))
          [ ("battery_charge_all_time_energy_mwh", v1);
            ("battery_discharge_all_time_energy_mwh", v2) ]).
Proof.
  split; [reflexivity|]. split; [intros; reflexivity|].
  split.
  { intros k. unfold kwh_to_mwh, num_truediv.
    destruct (int_truediv k 1000); reflexivity. }
  split; [vm_compute; reflexivity|]. split.
  - intros d n d2 ts v1 v2 v3 v4 s w Hn Hts H1 H2 H3 H4.
    apply Forall_forall. intros [nm v] Hin.
    exact (inverter_counter_reached d n d2 ts v1 v2 v3 v4 nm v Hn Hts H1 H2 H3 H4 Hin s w).
  - intros d n d2 c ts v1 v2 s w Hn Hmin Hoff Hts Hsoc H1 H2.
    apply Forall_forall. intros [nm v] Hin.
    exact (battery_counter_reached d n d2 c ts v1 v2 nm v Hn Hmin Hoff Hts Hsoc H1 H2 Hin s w).
Qed.

(** ** Entity ids *)

(** C4 fails on the code.  [_convert_responses_to_battery_entities]
    appends two records named [battery_current_negative_is_charging_a] for
    the battery device (the vendor's reading, then the derived current), so
    whenever it returns the entity list holds one entity id twice. *)
Theorem battery_entity_id_twice (data data2 soc_data : json_body) (s : client) (w : world) :
  returned (_convert_responses_to_battery_entities data data2 soc_data s w) ->
  ~ unique_ids
      (_redback_entities
         (final_state (_convert_responses_to_battery_entities data data2 soc_data s w))).
Proof.
  drop_constants.
  intros Hr.
  cut (hoare (fun _ _ => True)
         (_convert_responses_to_battery_entities data data2 soc_data)
         (fun _ s' _ => ~ unique_ids (_redback_entities s'))).
  { intros H. destruct (hoare_returned _ _ s w H Hr) as (_ & _ & H'). exact H'. }
  unfold _convert_responses_to_battery_entities. cbv zeta.
  walk_front "battery_current_negative_is_charging_a".
  establish "battery_current_negative_is_charging_a".
  keep_until "battery_current_negative_is_charging_a".
  eapply hoare_bind; [apply hoare_append_duplicate; reflexivity|]. intros ?.
  keep_to_end.
  intros ? ? ? H. exact H.
Qed.

(** ** The total phase voltage *)

Lemma hoare_ret {A} (a : A) (Q : A -> client -> world -> Prop) P :
  (forall s w, P s w -> Q a s w) -> hoare P (mret a) Q.
Proof. intros H s w Hs b s' w' E. apply mret_inv in E as (-> & -> & ->). auto. Qed.

Lemma hoare_fact {A} (F : Prop) (m : M A) Q :
  (F -> hoare (fun _ _ => True) m Q) -> hoare (fun _ _ => F) m Q.
Proof. intros H s w HF. apply (H HF). exact I. Qed.

Lemma phase_step_sums id_temp acc phase :
  hoare (fun _ _ => True) (phase_step id_temp acc phase)
    (fun acc' _ _ => add_phase acc phase = Return acc').
Proof.
  unfold phase_step. cbv zeta. apply hoare_lift. intros a Ha.
  repeat (apply hoare_skip; intros ?).
  apply hoare_ret. intros; exact Ha.
Qed.

Lemma phase_loop_sums id_temp l : forall acc,
  hoare (fun _ _ => True) (for_fold l acc (phase_step id_temp))
    (fun acc' _ _ => phase_totals acc l = Return acc').
Proof.
  induction l as [|p l IH]; intros acc; simpl.
  - apply hoare_ret. reflexivity.
  - eapply hoare_bind; [apply phase_step_sums|]. intros acc1. cbv beta.
    apply hoare_fact. intros Hf. rewrite Hf. apply IH.
Qed.

Lemma outcome_bind_inv {A B} (m : outcome A) (f : A -> outcome B) b :
  m ≫= f = Return b -> exists a, m = Return a /\ f a = Return b.
Proof. destruct m as [a|e]; simpl; [eauto | discriminate]. Qed.

(** *** The phase loop on phases that report their powers *)

Lemma float_of_int_0 : float_of_int 0 = Return 0%float.
Proof. drop_constants. vm_compute. reflexivity. Qed.

Lemma zero_or_float_add x f :
  zero_or_float x -> exists g, num_add x (PyFloat f) = Return (PyFloat g).
Proof.
  drop_constants.
  intros [-> | [g ->]].
  - unfold num_add, arith, to_float. rewrite float_of_int_0. simpl. eauto.
  - simpl. eauto.
Qed.

Lemma add_phase_returns acc p vs :
  phase_reports p ->
  floats_so_far acc ->
  sum_from (phase_voltage_sum acc) (phase_voltages [p]) = Return vs ->
  exists acc',
    add_phase acc p = Return acc' /\
    floats_so_far acc' /\
    phase_voltage_sum acc' = vs /\
    phase_count acc' = phase_count acc + Z.of_nat (length (phase_voltages [p])).
Proof.
  drop_constants.
  destruct p as [id ex im v cur pf]. unfold phase_reports, is_float, phase_voltages.
  simpl. intros ((fi & ->) & (fe & ->) & Hcur) (Hc & He & Hi & Hn).
  unfold add_phase. simpl.
  destruct v as [v|]; simpl.
  - destruct Hcur as (fc & ->); [discriminate|].
    destruct (num_add (phase_voltage_sum acc) v) as [vs1|] eqn:Ev; simpl; [|discriminate].
    intros [= <-].
    destruct (zero_or_float_add _ fc Hc) as (g1 & E1).
    destruct (zero_or_float_add _ fe He) as (g2 & E2).
    destruct (zero_or_float_add _ fi Hi) as (g3 & E3).
    destruct (zero_or_float_add _ (fi - fe) Hn) as (g4 & E4).
    unfold jadd. simpl. rewrite E1, E2, E3. simpl. rewrite E4. simpl.
    eexists. split; [reflexivity|]. simpl.
    unfold floats_so_far, zero_or_float. simpl. repeat split; eauto.
  - intros [= <-]. exists acc. unfold floats_so_far.
    repeat split; auto. lia.
Qed.

Lemma phase_step_returns id_temp acc p vs :
  phase_reports p ->
  floats_so_far acc ->
  sum_from (phase_voltage_sum acc) (phase_voltages [p]) = Return vs ->
  always_returns (phase_step id_temp acc p)
    (fun acc' =>
       floats_so_far acc' /\
       phase_voltage_sum acc' = vs /\
       phase_count acc' = phase_count acc + Z.of_nat (length (phase_voltages [p]))).
Proof.
  drop_constants.
  intros Hp Hacc Hs.
  destruct (add_phase_returns acc p vs Hp Hacc Hs) as (acc' & Eadd & Hacc').
  destruct Hp as ((fi & Hi) & (fe & He) & _).
  unfold phase_step. cbv zeta.
  apply (always_returns_bind _ _ (fun a => a = acc'));
    [apply always_returns_lift with (a := acc'); [exact Eadd | reflexivity]|].
  intros ? ->.
  apply (always_returns_bind _ _ (fun _ => True)); [apply always_returns_append_all|].
  intros _ _. rewrite Hi, He.
  apply (always_returns_bind _ _ (fun _ => True)).
  { eapply always_returns_lift; [reflexivity | exact I]. }
  intros net _.
  apply (always_returns_bind _ _ (fun _ => True)); [apply always_returns_append_all|].
  intros _ _. apply always_returns_ret. exact Hacc'.
Qed.

Lemma phase_voltages_cons p l :
  phase_voltages (p :: l) = phase_voltages [p] ++ phase_voltages l.
Proof.
  drop_constants.
  unfold phase_voltages. simpl. destruct (VoltageInstantaneousV p); reflexivity.
Qed.

Lemma sum_from_app l1 : forall l2 acc vs,
  sum_from acc (l1 ++ l2) = Return vs ->
  exists mid, sum_from acc l1 = Return mid /\ sum_from mid l2 = Return vs.
Proof.
  drop_constants.
  induction l1 as [|v l1 IH]; intros l2 acc vs; simpl.
  - eauto.
  - intros H. apply outcome_bind_inv in H as (acc1 & E & H). rewrite E. simpl.
    exact (IH _ _ _ H).
Qed.

Lemma phase_loop_returns id_temp l : forall acc vs,
  Forall phase_reports l ->
  floats_so_far acc ->
  sum_from (phase_voltage_sum acc) (phase_voltages l) = Return vs ->
  always_returns (for_fold l acc (phase_step id_temp))
    (fun acc' =>
       phase_voltage_sum acc' = vs /\
       phase_count acc' = phase_count acc + Z.of_nat (length (phase_voltages l))).
Proof.
  drop_constants.
  induction l as [|p l IH]; intros acc vs Hl Hacc Hs.
  - simpl in *. injection Hs as <-. apply always_returns_ret. split; [reflexivity | lia].
  - apply Forall_cons in Hl as [Hp Hl].
    rewrite phase_voltages_cons in Hs.
    apply sum_from_app in Hs as (mid & Hs1 & Hs2).
    simpl for_fold.
    eapply always_returns_bind; [exact (phase_step_returns id_temp acc p mid Hp Hacc Hs1)|].
    cbv beta. intros acc1 (Hacc1 & Hv1 & Hc1).
    eapply always_returns_conseq.
    + apply (IH acc1 vs Hl Hacc1). rewrite Hv1. exact Hs2.
    + cbv beta. intros acc' (Hv & Hc). split; [exact Hv|].
      rewrite Hc, Hc1, (phase_voltages_cons p l), length_app. lia.
Qed.

Lemma total_phase_voltage_of_spec l acc tv :
  spec_total_phase_voltage l = Return tv ->
  (exists vs, sum_from (PyInt 0) (phase_voltages l) = Return vs /\
     (phase_voltage_sum acc = vs ->
      phase_count acc = Z.of_nat (length (phase_voltages l)) ->
      total_phase_voltage acc = Return tv)).
Proof.
  drop_constants.
  unfold spec_total_phase_voltage. cbv zeta. intros H.
  apply outcome_bind_inv in H as (vs & Hs & H).
  exists vs. split; [exact Hs|]. intros Hv Hc.
  unfold total_phase_voltage. rewrite Hv, Hc. exact H.
Qed.

Lemma total_phase_voltage_reached d n d2 ts v1 v2 v3 v4 tv :
  node0 d = Return n ->
  fromisoformat (replace "Z" "+00:00" (TimestampUtc d2)) = Return ts ->
  spec_mwh (PvAllTimeEnergykWh d2) = Return v1 ->
  spec_mwh (ExportAllTimeEnergykWh d2) = Return v2 ->
  spec_mwh (ImportAllTimeEnergykWh d2) = Return v3 ->
  spec_mwh (LoadAllTimeEnergykWh d2) = Return v4 ->
  Inverters d2 <> [] ->
  Forall phase_reports (Phases d2) ->
  spec_total_phase_voltage (Phases d2) = Return tv ->
  leaves (_convert_responses_to_inverter_entities (JStatic d) (JDynamic d2))
    (fun l => ent (VNum tv) "inverter_phase_total_voltage_instantaneous_v"
                (device_id_of (node_Id n) "inv") "inverter" ∈ l).
Proof.
  clear hidden_input_value INVERTER_MODES DEVICEINFOREFRESH AUTH_ERROR_CODES.
  intros Hn Hts H1 H2 H3 H4 Hinv Hph Hspec.
  rewrite <- kwh_to_mwh_spec in H1, H2, H3, H4.
  assert (Hi : exists inv, index (Inverters d2) 0 = Return inv).
  { destruct (Inverters d2) as [|inv ?]; [contradiction | exists inv; reflexivity]. }
  destruct Hi as (inv & Hi).
  unfold _convert_responses_to_inverter_entities. cbv zeta.
  change (as_static (JStatic d)) with (Return d).
  change (as_dynamic (JDynamic d2)) with (Return d2).
  reach "inverter_phase_total_voltage_instantaneous_v".
  destruct (total_phase_voltage_of_spec (Phases d2) phase_sums_0 tv Hspec)
    as (vs & Hs & _).
  eapply leaves_bind.
  { apply (phase_loop_returns _ (Phases d2) phase_sums_0 vs Hph); [|exact Hs].
    unfold floats_so_far, zero_or_float. simpl. auto. }
  cbv beta. intros acc (Hv & Hc). simpl in Hc.
  destruct (total_phase_voltage_of_spec (Phases d2) acc tv Hspec) as (vs' & Hs' & Htv).
  rewrite Hs in Hs'. injection Hs' as <-.
  specialize (Htv Hv Hc).
  reach "inverter_phase_total_voltage_instantaneous_v".
  arrive "inverter_phase_total_voltage_instantaneous_v".
Qed.

(** *** A phase without a power reading *)

Lemma hoare_pure {A} (F : Prop) (m : M A) :
  hoare (fun _ _ => F) m (fun _ _ _ => F).
Proof. drop_constants. intros s w HF a s' w' _. exact HF. Qed.

Lemma phase_step_needs_powers id_temp acc p :
  hoare (fun _ _ => True) (phase_step id_temp acc p) (fun _ _ _ => ~ lacks_power p).
Proof.
  drop_constants.
  unfold phase_step. cbv zeta.
  apply hoare_skip. intros ?. apply hoare_skip. intros ?.
  apply hoare_lift. intros net Hnet.
  eapply hoare_conseq; [intros ? ? _; exact I | apply (hoare_pure True) |].
  intros _ _ _ _ [H | H]; rewrite H in Hnet;
    [|destruct (ActiveImportedPowerInstantaneouskW p)]; discriminate.
Qed.

Lemma phase_loop_needs_powers id_temp l : forall acc,
  hoare (fun _ _ => True) (for_fold l acc (phase_step id_temp))
    (fun _ _ _ => Forall (fun p => ~ lacks_power p) l).
Proof.
  drop_constants.
  induction l as [|p l IH]; intros acc; simpl.
  - apply hoare_ret. intros; constructor.
  - eapply hoare_bind; [apply phase_step_needs_powers|]. intros acc1. cbv beta.
    apply hoare_fact. intros Hp.
    eapply hoare_conseq; [intros ? ? H; exact H | apply IH |].
    intros ? ? ? Hl. constructor; assumption.
Qed.

Lemma phase_loop_never_returns id_temp l acc s w :
  Exists lacks_power l -> ~ returned (for_fold l acc (phase_step id_temp) s w).
Proof.
  drop_constants.
  intros Hex Hr. apply returned_inv in Hr as (a & s' & w' & E).
  pose proof (phase_loop_needs_powers id_temp l acc s w I a s' w' E) as Hall.
  apply Exists_exists in Hex as (p & Hin & Hp).
  cbv beta in Hall. rewrite Forall_forall in Hall. exact (Hall p Hin Hp).
Qed.

Lemma stops_before_bind {A B C} (f : client -> B) (m : M A) (k : A -> M C) :
  unchanged f m -> (forall a, stops_before f (k a)) -> stops_before f (m ≫= k).
Proof.
  drop_constants.
  intros Hm Hk s w. rewrite bind_run. specialize (Hm s w).
  destruct (m s w) as [[[a|e] s1] w1]; unfold final_state in Hm; simpl in Hm.
  - destruct (Hk a s1 w1) as [Hr Hf]. split; [exact Hr | rewrite Hf; exact Hm].
  - split; [exact id | exact Hm].
Qed.

Lemma stops_before_here {A B C} (f : client -> B) (m : M A) (k : A -> M C) :
  (forall s w, ~ returned (m s w)) -> unchanged f m -> stops_before f (m ≫= k).
Proof.
  drop_constants.
  intros Hn Hm s w. rewrite bind_run. specialize (Hm s w). specialize (Hn s w).
  destruct (m s w) as [[[a|e] s1] w1]; unfold final_state in Hm; simpl in Hm.
  - exfalso. apply Hn. exact I.
  - split; [exact id | exact Hm].
Qed.

Lemma stops_before_lift {A B C} (f : client -> B) (o : outcome A) (k : A -> M C) :
  (forall a, o = Return a -> stops_before f (k a)) -> stops_before f (lift o ≫= k).
Proof.
  drop_constants.
  intros Hk s w. rewrite bind_run. unfold lift at 1.
  destruct o as [a|e]; [exact (Hk a eq_refl s w) | split; [exact id | reflexivity]].
Qed.

Lemma pv_step_keeps_voltage id_temp pvId pv :
  unchanged _redback_temp_voltage (pv_step id_temp pvId pv).
Proof. unfold pv_step, append_all, append_entity. unchanged_auto. Qed.

Lemma phase_step_keeps_voltage id_temp acc p :
  unchanged _redback_temp_voltage (phase_step id_temp acc p).
Proof. unfold phase_step, append_all, append_entity. cbv zeta. unchanged_auto. Qed.

Lemma inverter_entities_stop d d2 :
  Exists lacks_power (Phases d2) ->
  stops_before _redback_temp_voltage
    (_convert_responses_to_inverter_entities (JStatic d) (JDynamic d2)).
Proof.
  intros Hex. unfold _convert_responses_to_inverter_entities. cbv zeta.
  repeat
    lazymatch goal with
    | |- stops_before _ (mbind _ (for_fold _ phase_sums_0 _)) => fail
    | |- stops_before _ (mbind _ (lift (as_dynamic _))) =>
        apply stops_before_lift; intros ? [= <-]
    | |- stops_before _ (mbind _ (for_fold _ _ (pv_step _))) =>
        apply stops_before_bind;
          [apply unchanged_for_fold; intros; apply pv_step_keeps_voltage | intros ?]
    | |- stops_before _ (mbind _ _) =>
        apply stops_before_bind;
          [unfold append_all, append_entity; solve [unchanged_auto] | intros ?]
    end.
  apply stops_before_here.
  - intros s w. apply phase_loop_never_returns. exact Hex.
  - apply unchanged_for_fold. intros. apply phase_step_keeps_voltage.
Qed.

(** C6 fails on the code.  The total phase voltage is
    [(sum of per-phase voltages / phase_count) * sqrt(phase_count)] over
    the phases with a voltage, rounded to one decimal (398.4 for three
    phases at 230 V), and the entity
    [inverter_phase_total_voltage_instantaneous_v] carries it whenever every
    phase of the payload reports its two powers, a phase without a voltage
    included: the test [!= None] keeps such a phase out of the sums.  The
    net power of a phase is computed outside that test, however: a phase
    without a power reading ends the normalization with an exception
    before the total is computed, whatever the voltages of the other
    phases. *)
Theorem total_phase_voltage_entity (d : static_data) (d2 : dynamic_data)
    (s : client) (w : world) :
  let r := _convert_responses_to_inverter_entities (JStatic d) (JDynamic d2) s w in
  (forall n ts v1 v2 v3 v4 tv,
     node0 d = Return n ->
     fromisoformat (replace "Z" "+00:00" (TimestampUtc d2)) = Return ts ->
     spec_mwh (PvAllTimeEnergykWh d2) = Return v1 ->
     spec_mwh (ExportAllTimeEnergykWh d2) = Return v2 ->
     spec_mwh (ImportAllTimeEnergykWh d2) = Return v3 ->
     spec_mwh (LoadAllTimeEnergykWh d2) = Return v4 ->
     Inverters d2 <> [] ->
     Forall phase_reports (Phases d2) ->
     phase_voltages (Phases d2) <> [] ->
     spec_total_phase_voltage (Phases d2) = Return tv ->
     ent (VNum tv) "inverter_phase_total_voltage_instantaneous_v"
       (device_id_of (node_Id n) "inv") "inverter"
     ∈ _redback_entities (final_state r))
  /\ (Exists lacks_power (Phases d2) ->
      ~ returned r /\
      _redback_temp_voltage (final_state r) = _redback_temp_voltage s)
  /\ spec_total_phase_voltage (Samples.three_phases (PyFloat 230)) = Return (PyFloat 398.4)
  /\ spec_total_phase_voltage (Samples.three_phases (PyInt 230)) = Return (PyFloat 398.4).
Proof.
  cbv zeta. split; [|split; [|split; vm_compute; reflexivity]].
  - intros n ts v1 v2 v3 v4 tv Hn Hts H1 H2 H3 H4 Hinv Hph _ Hspec.
    exact (total_phase_voltage_reached d n d2 ts v1 v2 v3 v4 tv
             Hn Hts H1 H2 H3 H4 Hinv Hph Hspec s w).
  - intros Hex. exact (inverter_entities_stop d d2 Hex s w).
Qed.

(** ** The site load *)

Lemma _add_additional_entities_raises (m : gmap string pynum) data s w :
  exists e, _add_additional_entities (VDict m) data s w = (Raise e, s, w).
Proof.
  unfold _add_additional_entities. run_monad.
  destruct (as_static data) as [d|e]; [|eauto].
  destruct (node0 d) as [n|e]; [|eauto].
  simpl. eauto.
Qed.

(** C3 fails on the code.  [_create_device_info] hands the whole mapping
    [_redback_site_load] to [_add_additional_entities], which rounds it:
    [round] of a dict is a [TypeError].  So the entity
    [inverter_site_load_instantaneous_kw] is never appended, and the
    processing of an inverter never returns. *)
Theorem site_load_entity_never_built :
  (forall (m : gmap string pynum) data s w,
      exists e, _add_additional_entities (VDict m) data s w = (Raise e, s, w))
  /\ (forall serial_number s w, ~ returned (refresh_one serial_number s w)).
Proof.
  split; [apply _add_additional_entities_raises|].
  intros sn s w Hr. apply returned_inv in Hr as (u & s' & w' & H).
  unfold refresh_one in H.
  do 14 (step H). step H as Eadd.
  match type of Eadd with
  | _add_additional_entities (VDict ?m) ?d ?s0 ?w0 = _ =>
      destruct (_add_additional_entities_raises m d s0 w0) as (e & He)
  end.
  congruence.
Qed.

(** ** The refresh and the freshness window *)

Section Commutes.
Variable T : client -> client.

Lemma commutes_ret {A} (a : A) : commutes T (mret a).
Proof. intros s w. reflexivity. Qed.
Lemma commutes_raise {A} e : commutes T (@raise A e).
Proof. intros s w. reflexivity. Qed.
Lemma commutes_lift {A} (o : outcome A) : commutes T (lift o).
Proof. intros s w. reflexivity. Qed.
Lemma commutes_observe {A} (g : world -> A) : commutes T (observe g).
Proof. intros s w. reflexivity. Qed.
Lemma commutes_now : commutes T now.
Proof. intros s w. reflexivity. Qed.
Lemma commutes_now_utc : commutes T now_utc.
Proof. intros s w. reflexivity. Qed.
Lemma commutes_send r : commutes T (send r).
Proof. intros s w. reflexivity. Qed.

Lemma commutes_gets {A} (f : client -> A) :
  (forall s, f (T s) = f s) -> commutes T (gets f).
Proof. intros H s w. unfold gets. rewrite H. reflexivity. Qed.

Lemma commutes_attr {A} (f : client -> option A) :
  (forall s, f (T s) = f s) -> commutes T (attr f).
Proof. intros H s w. unfold attr. rewrite H. reflexivity. Qed.

Lemma commutes_modify g : (forall s, g (T s) = T (g s)) -> commutes T (modify g).
Proof. intros H s w. unfold modify. rewrite H. reflexivity. Qed.

Lemma commutes_bind {A C} (m : M A) (k : A -> M C) :
  commutes T m -> (forall a, commutes T (k a)) -> commutes T (m ≫= k).
Proof.
  intros Hm Hk s w. rewrite !bind_run, Hm.
  destruct (m s w) as [[[a|e] s1] w1]; [apply Hk | reflexivity].
Qed.

Lemma commutes_for_each {A} (l : list A) (body : A -> M unit) :
  (forall x, commutes T (body x)) -> commutes T (for_each l body).
Proof.
  intros H. induction l as [|x l IH]; simpl.
  - apply commutes_ret.
  - apply commutes_bind; auto.
Qed.

Lemma commutes_for_fold {A C} (l : list A) (acc : C) (body : C -> A -> M C) :
  (forall c x, commutes T (body c x)) -> commutes T (for_fold l acc body).
Proof.
  intros H. revert acc. induction l as [|x l IH]; intros acc; simpl.
  - apply commutes_ret.
  - apply commutes_bind; auto.
Qed.

End Commutes.

Create HintDb commutes_db.

Ltac commutes_step :=
  first
    [ lazymatch goal with
      | |- commutes _ (mbind _ _) => apply commutes_bind; [| intros ?]
      | |- commutes _ (mret _) => apply commutes_ret
      | |- commutes _ (raise _) => apply commutes_raise
      | |- commutes _ (lift _) => apply commutes_lift
      | |- commutes _ (observe _) => apply commutes_observe
      | |- commutes _ now => apply commutes_now
      | |- commutes _ now_utc => apply commutes_now_utc
      | |- commutes _ (send _) => apply commutes_send
      | |- commutes _ (gets _) => apply commutes_gets; intros []; reflexivity
      | |- commutes _ (attr _) => apply commutes_attr; intros []; reflexivity
      | |- commutes _ (modify _) => apply commutes_modify; intros []; reflexivity
      | |- commutes _ (for_each _ _) => apply commutes_for_each; intros ?
      | |- commutes _ (for_fold _ _ _) => apply commutes_for_fold; intros ? ?
      | |- commutes _ (match ?x with _ => _ end) => destruct x
      end
    | solve [auto 2 with commutes_db nocore] ].

Ltac commutes_auto := cbv zeta; repeat commutes_step.

Section Relisted.
Variable old : client.
Let T := with_lists old.

Lemma relisted_api_response resp : commutes T (_api_response resp).
Proof. unfold _api_response. commutes_auto. Qed.
Hint Resolve relisted_api_response : commutes_db.

Lemma relisted_api_get url p auth : commutes T (_api_get url p auth).
Proof. unfold _api_get. commutes_auto. Qed.
Hint Resolve relisted_api_get : commutes_db.

Lemma relisted_check_token : commutes T _check_token.
Proof. unfold _check_token, _api_login, _api_post, T, with_lists. commutes_auto. Qed.
Hint Resolve relisted_check_token : commutes_db.



End Relisted.




(** ** Exchanges that went through *)

Lemma run_of_result {A} (m : M A) s w a :
  result_of (m s w) = Return a ->
  m s w = (Return a, final_state (m s w), final_world (m s w)).
Proof.
  drop_constants.
  unfold result_of, final_state, final_world.
  destruct (m s w) as [[o s'] w']; simpl. intros ->. reflexivity.
Qed.

Lemma _api_response_inv resp j s w s' w' :
  _api_response resp s w = (Return j, s', w') ->
  status resp = 200 /\ json resp = Some j /\ s' = s /\ w' = w.
Proof.
  unfold _api_response. destruct (Z.eqb_spec (status resp) 200) as [E|]; simpl;
    [|discriminate].
  destruct (json resp) as [response|]; [|discriminate].
  run_monad. destruct (has_error response) as [[|]|]; [| |discriminate].
  - destruct (error_code response); [destruct (existsb _ _)|]; discriminate.
  - intros H. injection H as -> -> ->. auto.
Qed.

Lemma api_call_inv r j s w s' w' :
  (resp ← send r; _api_response resp) s w = (Return j, s', w') ->
  status (answer w r) = 200 /\ json (answer w r) = Some j /\ s' = s /\ w' = sending r w.
Proof.
  intros H. apply bind_Return_inv in H as (resp & s1 & w1 & E & H).
  injection E as <- <- <-. apply _api_response_inv in H as (? & ? & -> & ->). auto.
Qed.

Lemma portal_send_inv m url p d txt s w s' w' :
  portal_send m url p d s w = (Return txt, s', w') ->
  exists h, _session2 s = Some h /\ session_open w h = true /\
    status (answer w (mk_request (Some h) m url p None d)) = 200 /\
    txt = text (answer w (mk_request (Some h) m url p None d)) /\
    s' = s /\ w' = sending (mk_request (Some h) m url p None d) w.
Proof.
  unfold portal_send. intros H. step H as Eh. step H.
  exists a. destruct (session_open w a); [|discriminate].
  step H as Esend. injection Esend as <- <- <-.
  unfold _portal_response in H.
  destruct (Z.eqb_spec (status (peer w (length (sent w))
              (mk_request (Some a) m url p None d))) 200) as [E|]; simpl in H;
    [|discriminate].
  apply mret_inv in H as (-> & -> & ->). unfold answer. auto 10.
Qed.

Lemma _get_portal_token_returns response kind s w u s' w' :
  _get_portal_token response kind s w = (Return u, s', w') ->
  exists v, hidden_input_value kind response = Return v /\
            s' = set_GAFToken (Some v) s /\ w' = w.
Proof.
  unfold _get_portal_token. intros H. step H as Ev.
  apply modify_inv in H as (-> & ->). eauto.
Qed.

(** The login of the portal, when it goes through: a new session, the
    login page fetched through it, and the form posted with the token of
    that page. *)
Lemma _portal_login_returns s w u s' w' :
  _portal_login s w = (Return u, s', w') ->
  exists tok,
    hidden_input_value 1
      (text (answer (opening w)
               (mk_request (Some (length (sessions w))) GET PORTAL_LOGIN "" None NoData)))
      = Return tok /\
    s' = set_GAFToken (Some tok) (set_session2 (Some (length (sessions w))) s) /\
    w' = sending
           (mk_request (Some (length (sessions w))) POST PORTAL_LOGIN "" None
              (PortalLoginForm (portal_email (creds s)) (portal_password (creds s))
                 (Some tok)))
           (sending
              (mk_request (Some (length (sessions w))) GET PORTAL_LOGIN "" None NoData)
              (opening w)).
Proof.
  unfold _portal_login. intros H.
  step H as E. injection E as <- <- <-.
  step H.
  step H as Eget. unfold _portal_get in Eget.
  apply portal_send_inv in Eget as (h & Hh & _ & _ & -> & -> & ->).
  step H as Etok. apply _get_portal_token_returns in Etok as (tok & Htok & -> & ->).
  step H. step H.
  step H as Epost. unfold _portal_post in Epost.
  apply portal_send_inv in Epost as (h' & Hh' & _ & _ & _ & -> & ->).
  apply mret_inv in H as (_ & -> & ->).
  destruct s; simpl in *. injection Hh as <-. injection Hh' as <-.
  exists tok. auto.
Qed.

Lemma _api_login_returns s w u s' w' :
  _api_login s w = (Return u, s', w') ->
  exists r e,
    json (answer w (login_request (creds s))) = Some (JAuth r) /\
    s' = set_token_expiration (Some e)
           (set_token_type (Some (VList [VStr "token_type"]))
              (set_token (Some (token_type_ r +:+ " " +:+ access_token r)) s)) /\
    w' = tick (sending (login_request (creds s)) w).
Proof.
  unfold _api_login. intros H. step H.
  step H as Epost. unfold _api_post in Epost.
  apply api_call_inv in Epost as (_ & Hj & -> & ->).
  step H as Eauth. destruct a; try discriminate Eauth. injection Eauth as <-.
  step H. step H. step H. step H. step H.
  apply modify_inv in H as (-> & ->).
  eexists _, _. split; [exact Hj|]. split; reflexivity.
Qed.

(** ** What a call answers *)

Lemma existsb_eqb_In (code : string) (l : list string) :
  existsb (String.eqb code) l = true <-> In code l.
Proof.
  drop_constants.
  rewrite existsb_exists. split.
  - intros (x & Hx & E). apply String.eqb_eq in E. subst x. exact Hx.
  - intros H. exists code. split; [exact H | apply String.eqb_refl].
Qed.

(** X21.  A call of the REST API sends exactly one request and leaves the
    client as it is, whatever the answer.  With a status other than 200 it
    raises [RedbackTechClientError] and the body is not looked at; so it
    does when the body does not decode.  A decoded object is handed back
    unless it has an ['error'] key: then the call raises [AuthError] for a
    code of [AUTH_ERROR_CODES] and [RedbackTechClientError] for any other.
    A decoded body that is no object is not turned down as such: [null],
    a boolean and a number raise [TypeError] at ['error' in response], a
    string that contains ["error"] and an array with the element
    ["error"] raise [TypeError] at [response['error']], and any other
    string or array is handed back as the answer.  A POST with [json=]
    encodes its data before anything is sent: when the encoder refuses
    them the call raises its [TypeError] and no request goes out, and
    otherwise it is the plain POST. *)
Theorem api_call_outcome (m : http_method) (url : endpoint) (p : string)
    (auth : option string) (d : payload) (s : client) (w : world) :
  let call :=
    match m with
    | GET => _api_get url p auth
    | POST => _api_post url p auth d
    | DELETE => _api_delete url p auth
    end in
  let req := mk_request None m url p auth (match m with POST => d | _ => NoData end) in
  final_state (call s w) = s
  /\ final_world (call s w) = sending req w
  /\ (status (answer w req) <> 200 -> result_of (call s w) = Raise RedbackTechClientError)
  /\ (status (answer w req) = 200 ->
      match json (answer w req) with
      | None => result_of (call s w) = Raise RedbackTechClientError
      | Some body => answers_body body (result_of (call s w))
      end)
  /\ _api_post_json url p auth d s w
     = match json_dumps d with
       | Return _ => _api_post url p auth d s w
       | Raise e => (Raise e, s, w)
       end.
Proof.
  cbv zeta.
  assert (Hj : _api_post_json url p auth d s w
               = match json_dumps d with
                 | Return _ => _api_post url p auth d s w
                 | Raise e => (Raise e, s, w)
                 end).
  { unfold _api_post_json. rewrite bind_run. unfold lift at 1.
    destruct (json_dumps d); reflexivity. }
  assert (H : forall r : request,
    let run := (resp ← send r; _api_response resp) s w in
    final_state run = s /\ final_world run = sending r w /\
    (status (answer w r) <> 200 -> result_of run = Raise RedbackTechClientError) /\
    (status (answer w r) = 200 ->
     match json (answer w r) with
     | None => result_of run = Raise RedbackTechClientError
     | Some body => answers_body body (result_of run)
     end)).
  { intros r. cbv zeta. unfold _api_response, answer, sending. run_monad.
    destruct (Z.eqb_spec (status (peer w (length (sent w)) r)) 200) as [E|E]; simpl.
    - destruct (json (peer w (length (sent w)) r)) as [[code| | | | | | | | | | |str|l]|];
        simpl; try (repeat split; (reflexivity || congruence)).
      + destruct (existsb (String.eqb code) AUTH_ERROR_CODES) eqn:Ex; simpl.
        * apply existsb_eqb_In in Ex.
          repeat split; intros; try reflexivity; try congruence; try contradiction.
        * assert (~ In code AUTH_ERROR_CODES)
            by (intros Hin; apply existsb_eqb_In in Hin; congruence).
          repeat split; intros; try reflexivity; try congruence; try contradiction.
      + destruct (has_substring "error" str);
          repeat split; intros; try reflexivity; try congruence.
      + destruct (bool_decide (Some "error" ∈ l));
          repeat split; intros; try reflexivity; try congruence.
    - repeat split; intros; try reflexivity; try contradiction. }
  destruct m;
    [ destruct (H (mk_request None GET url p auth NoData)) as (H1 & H2 & H3 & H4)
    | destruct (H (mk_request None POST url p auth d)) as (H1 & H2 & H3 & H4)
    | destruct (H (mk_request None DELETE url p auth NoData)) as (H1 & H2 & H3 & H4) ];
    repeat split; assumption.
Qed.

(** ** The connection tests *)

(** X1.  [test_api_connection] answers [True] whenever it returns: after
    a token check that returned there is a token.  A login that the vendor
    turns down shows as an exception ([AuthError] for an error code of
    [AUTH_ERROR_CODES], [RedbackTechClientError] for any other code and for
    a status other than 200), and the client is left as it was. *)
Theorem test_api_connection_true_or_raises (s : client) (w : world) :
  token_consistent s ->
  (returned (test_api_connection s w) ->
   result_of (test_api_connection s w) = Return true)
  /\ (login_due s (clock w (ticks w)) = true ->
      status (answer (tick w) (login_request (creds s))) <> 200 ->
      test_api_connection s w
        = (Raise RedbackTechClientError, s, sending (login_request (creds s)) (tick w)))
  /\ (login_due s (clock w (ticks w)) = true ->
      forall txt code,
        answer (tick w) (login_request (creds s)) = mk_reply 200 txt (Some (JError code)) ->
        test_api_connection s w
          = (Raise (if existsb (String.eqb code) AUTH_ERROR_CODES
                    then AuthError else RedbackTechClientError),
             s, sending (login_request (creds s)) (tick w))).
Proof.
  intros Hc. split; [|split].
  - intros Hr. apply returned_inv in Hr as (b & s' & w' & H). rewrite H.
    unfold result_of; simpl. f_equal.
    unfold test_api_connection in H. step H as Ect. step H.
    apply mret_inv in H as (-> & _ & _).
    apply bool_decide_eq_true_2.
    rewrite (_check_token_cases s w Hc) in Ect.
    destruct (login_due s (clock w (ticks w))) eqn:Hdue.
    + apply _api_login_returns in Ect as (r & e & _ & -> & _).
      destruct s; simpl; eauto.
    + injection Ect as <- <-. unfold login_due in Hdue.
      destruct (token s); [eauto | discriminate].
  - intros Hdue Hst. unfold test_api_connection. rewrite bind_run.
    rewrite (_check_token_cases s w Hc), Hdue.
    unfold _api_login, _api_post, _api_response, answer, login_request in *.
    run_monad. simpl in *.
    destruct (Z.eqb_spec (status (peer w (length (sent w))
      (mk_request None POST API_AUTH "" None
         (LoginForm (client_id (creds s)) (client_secret (creds s)))))) 200);
      [contradiction | reflexivity].
  - intros Hdue txt code Hpeer. unfold test_api_connection. rewrite bind_run.
    rewrite (_check_token_cases s w Hc), Hdue.
    unfold _api_login, _api_post, _api_response, answer, login_request in *.
    run_monad. simpl in *. rewrite Hpeer. simpl.
    destruct (existsb _ _); reflexivity.
Qed.

(** X2.  [test_portal_connection] answers [True] whenever it returns: a
    portal login that returned has stored the token of the login page, so
    the branch that answers [False] is never taken. *)
Theorem test_portal_connection_true (s : client) (w : world) :
  returned (test_portal_connection s w) ->
  result_of (test_portal_connection s w) = Return true.
Proof.
  intros Hr. apply returned_inv in Hr as (b & s' & w' & H). rewrite H.
  unfold result_of; simpl. f_equal.
  unfold test_portal_connection in H.
  step H. step H as Elogin.
  apply _portal_login_returns in Elogin as (tok & _ & -> & _).
  step H. step H as Eh.
  replace (bool_decide (is_Some _)) with true in H
    by (destruct s; symmetry; apply bool_decide_eq_true_2; simpl; eauto).
  step H. apply mret_inv in H as (-> & _ & _). reflexivity.
Qed.

(** ** What the token check leaves alone *)

(** The token check touches the three token attributes only, however it
    ends. *)
Lemma _check_token_state s w :
  exists tok ty e,
    final_state (_check_token s w)
    = set_token_expiration e (set_token_type ty (set_token tok s)).
Proof.
  assert (H : unchanged
    (fun s => (creds s, _GAFToken s, _session2 s, _device_info_refresh_time s,
               serial_numbers s, _serial_numbers s, serial_number s, ross_version s,
               _redback_entities s, _redback_device_info s, _redback_numbers s,
               _redback_selects s, _redback_schedule_datetime s, _redback_schedules s,
               _redback_site_load s, _inverter_control_settings s,
               _redback_schedule_selected s, _redback_temp_voltage s)) _check_token).
  { unfold _check_token, _api_login, _api_post. unchanged_auto. }
  specialize (H s w). destruct (final_state (_check_token s w)), s. simpl in H.
  simplify_eq. eexists _, _, _. reflexivity.
Qed.

Lemma _check_token_run s w r s' w' :
  _check_token s w = (r, s', w') ->
  exists tok ty e, s' = set_token_expiration e (set_token_type ty (set_token tok s)).
Proof.
  intros H. destruct (_check_token_state s w) as (tok & ty & e & E).
  rewrite H in E. eauto.
Qed.

(** ** The list of inverters *)

Lemma inverter_loop_site site : forall acc s w,
  serial_numbers s = Some acc ->
  for_each site (fun node =>
    if String.eqb (node_Type node) "Inverter"
    then append_serial_number (node_SerialNumber node)
    else mret tt) s w
  = (Return tt,
     set_serial_numbers
       (Some (acc ++ (node_SerialNumber <$>
                        filter (fun node => node_Type node = "Inverter") site))) s, w).
Proof.
  induction site as [|node site IH]; intros acc s w Hacc; simpl.
  - rewrite app_nil_r, <- Hacc. destruct s; reflexivity.
  - rewrite bind_run, filter_cons.
    destruct (String.eqb_spec (node_Type node) "Inverter") as [E|E].
    + rewrite decide_True by exact E.
      unfold append_serial_number. run_monad. rewrite Hacc. simpl.
      rewrite (IH (acc ++ [node_SerialNumber node])) by (destruct s; reflexivity).
      rewrite <- app_assoc. destruct s; reflexivity.
    + rewrite decide_False by exact E. apply IH. exact Hacc.
Qed.

Lemma inverter_loop sites : forall acc s w,
  serial_numbers s = Some acc ->
  for_each sites (fun site =>
    for_each site (fun node =>
      if String.eqb (node_Type node) "Inverter"
      then append_serial_number (node_SerialNumber node)
      else mret tt)) s w
  = (Return tt, set_serial_numbers (Some (acc ++ inverter_serials sites)) s, w).
Proof.
  unfold inverter_serials.
  induction sites as [|site sites IH]; intros acc s w Hacc; simpl.
  - rewrite app_nil_r, <- Hacc. destruct s; reflexivity.
  - rewrite bind_run, (inverter_loop_site site acc s w Hacc).
    rewrite (IH (acc ++ (node_SerialNumber <$>
                    filter (fun node => node_Type node = "Inverter") site)))
      by (destruct s; reflexivity).
    rewrite filter_app, fmap_app, app_assoc. destruct s; reflexivity.
Qed.

(** X3.  When [_get_inverter_list] returns, the last request sent is the
    GET of the node listing, made with the token the check left; the
    vendor answered it with a listing, and the result is the serial
    numbers of the nodes of type [Inverter] of that listing (compared
    exactly, capitals included), site by site in the vendor's order.  The
    same list is stored as [serial_numbers]; what an earlier call stored
    there is gone. *)
Theorem _get_inverter_list_result (s : client) (w : world) (l : list string)
    (s' : client) (w' : world) :
  _get_inverter_list s w = (Return l, s', w') ->
  exists w1 sites,
    w' = sending (mk_request None GET API_NODES "" (token s') NoData) w1 /\
    json (answer w1 (mk_request None GET API_NODES "" (token s') NoData))
      = Some (JNodes sites) /\
    l = inverter_serials sites /\
    serial_numbers s' = Some l.
Proof.
  unfold _get_inverter_list. intros H.
  step H. step H as Ect. apply _check_token_run in Ect as (tok & ty & e & ->).
  step H. step H as Eget. unfold _api_get in Eget.
  apply api_call_inv in Eget as (_ & Hj & -> & ->).
  step H as Enodes. destruct a1; try discriminate Enodes. injection Enodes as <-.
  step H as Eloop.
  rewrite (inverter_loop sites [] _ _) in Eloop by (destruct s; reflexivity).
  injection Eloop as <- <-.
  apply attr_inv in H as (H & -> & ->).
  exists w0, sites. destruct s; simpl in *. injection H as <-. auto.
Qed.

(** ** The requests of the mutations *)

Lemma last_sending r w : last (sent (sending r w)) = Some r.
Proof. unfold sending. simpl. apply last_snoc. Qed.

(** What a run of [set_inverter_schedule] that returned has sent, and
    when: after the token check, whose world is [w1] *)
Lemma set_inverter_schedule_inv device_id s w u s' w' :
  set_inverter_schedule device_id s w = (Return u, s', w') ->
  exists c start dstr sn watts w1,
    _inverter_control_settings s !! device_id = Some c /\
    start_time c = Some start /\
    duration_str (power_setting_duration c) = Return dstr /\
    target_serial s device_id = Some sn /\
    py_int (power_setting_watts c) = Return watts /\
    w' = sending
           (mk_request None POST API_SCHEDULE_CREATE_BY_SERIALNUMBER "" (token s)
              (ScheduleJson sn (Some start) dstr (power_setting_mode c) watts)) w1.
Proof.
  unfold set_inverter_schedule. intros H.
  rewrite bind_run, select_device_run in H.
  step H as Ecs. unfold control_settings_of in Ecs. step Ecs.
  apply lift_inv in Ecs as (Ecs & -> & ->).
  step H as Estart. step H as Edur. step H as Esn. step H as Ewatts. step H.
  step H as Ect. apply _check_token_run in Ect as (tok & ty & e & ->).
  step H as Epost. unfold _api_post_json in Epost. step Epost.
  unfold _api_post in Epost.
  apply api_call_inv in Epost as (_ & _ & -> & ->).
  apply mret_inv in H as (_ & -> & ->).
  destruct (_inverter_control_settings s !! device_id) as [c|] eqn:Hc;
    [|destruct s; simpl in *; rewrite Hc in Ecs; discriminate].
  exists c. destruct s; simpl in *. rewrite Hc in Ecs. injection Ecs as <-.
  destruct (start_time c) as [start|]; [|discriminate]. injection Estart as <-.
  eexists _, _, _, _, _. repeat split; eauto.
Qed.

(** A run of [set_inverter_schedule] that returned has got its data
    through the JSON encoder. *)
Lemma set_inverter_schedule_encodes device_id s w u s' w' :
  set_inverter_schedule device_id s w = (Return u, s', w') ->
  exists c start,
    _inverter_control_settings s !! device_id = Some c /\
    start_time c = Some start /\
    json_serializable start = true /\
    json_serializable (power_setting_mode c) = true.
Proof.
  unfold set_inverter_schedule. intros H.
  rewrite bind_run, select_device_run in H.
  step H as Ecs. unfold control_settings_of in Ecs. step Ecs.
  apply lift_inv in Ecs as (Ecs & -> & ->).
  step H as Estart. step H as Edur. step H as Esn. step H as Ewatts. step H.
  step H as Ect.
  step H as Epost. unfold _api_post_json in Epost. step Epost as Edump.
  unfold json_dumps in Edump. simpl in Edump.
  destruct (json_serializable a0) eqn:E0; [|discriminate].
  destruct (json_serializable (power_setting_mode a)) eqn:E1; [|discriminate].
  assert (Hc : _inverter_control_settings s !! device_id = Some a).
  { destruct s; simpl in Ecs.
    destruct (_ !! device_id); [|discriminate]. injection Ecs as <-. reflexivity. }
  exists a, a0. destruct (start_time a); [|discriminate]. injection Estart as ->. auto.
Qed.

(** X4.  When [set_inverter_schedule] returns, the last request sent is
    the POST that creates the schedule.  It carries the serial number of
    the addressed device, the start time, mode and watts ([int] of the
    stored value) of the device's control settings and the duration string
    built from the stored duration, and as [Authorization] the token the
    client held when the method was called: the headers are built before
    the token check, so a token the check has just renewed is not the one
    that is sent. *)
Theorem set_inverter_schedule_request (device_id : string) (s : client) (w : world)
    (u : unit) (s' : client) (w' : world) :
  set_inverter_schedule device_id s w = (Return u, s', w') ->
  exists c start dstr sn watts,
    _inverter_control_settings s !! device_id = Some c /\
    start_time c = Some start /\
    duration_str (power_setting_duration c) = Return dstr /\
    target_serial s device_id = Some sn /\
    py_int (power_setting_watts c) = Return watts /\
    last (sent w')
    = Some (mk_request None POST API_SCHEDULE_CREATE_BY_SERIALNUMBER "" (token s)
              (ScheduleJson sn (Some start) dstr (power_setting_mode c) watts)).
Proof.
  intros H.
  apply set_inverter_schedule_inv in H
    as (c & start & dstr & sn & watts & w1 & Hc & Hstart & Hd & Hsn & Hw & ->).
  exists c, start, dstr, sn, watts. rewrite last_sending. auto 10.
Qed.

(** X5.  For a device id that has no control settings, setting a schedule
    and setting the mode through the portal (without override) raise
    [KeyError] before anything has gone out: no request is sent, no portal
    session is opened and the clock is not read. *)
Theorem no_control_settings_no_request (device_id : string) (s : client) (w : world) :
  _inverter_control_settings s !! device_id = None ->
  set_inverter_schedule device_id s w
    = (Raise KeyError, set_serial_number (target_serial s device_id) s, w)
  /\
  set_inverter_mode_portal device_id false s w
    = (Raise KeyError,
       set_ross_version (target_ross s device_id)
         (set_serial_number (target_serial s device_id) s), w).
Proof.
  intros Hc. unfold set_inverter_schedule, set_inverter_mode_portal.
  rewrite !bind_run, !select_device_run. unfold control_settings_of. run_monad.
  destruct s; simpl in *. rewrite Hc. split; reflexivity.
Qed.

(** X6.  When [delete_inverter_schedule] returns, the last request sent
    is the DELETE of that schedule for the serial number of the first
    device-info record with the given identifier, made with the token the
    check left.  When no record has the identifier the serial number is
    the one an earlier call left in [serial_number], so the request goes
    to that inverter.  The schedule stays in the client's own list. *)
Theorem delete_inverter_schedule_request (device_id schedule_id : string)
    (s : client) (w : world) (u : unit) (s' : client) (w' : world) :
  delete_inverter_schedule device_id schedule_id s w = (Return u, s', w') ->
  exists sn,
    target_serial s device_id = Some sn /\
    last (sent w') = Some (delete_request sn schedule_id (token s')) /\
    _redback_schedules s' = _redback_schedules s.
Proof.
  unfold delete_inverter_schedule. intros H.
  step H as Ereset. unfold reset_selected_schedule in Ereset.
  apply modify_inv in Ereset as (-> & ->).
  rewrite bind_run, select_device_run in H.
  step H as Ect. apply _check_token_run in Ect as (tok & ty & e & ->).
  step H. step H as Esn. step H as Edel. unfold _api_delete in Edel.
  apply api_call_inv in Edel as (_ & _ & -> & ->).
  apply mret_inv in H as (_ & -> & ->).
  rewrite last_sending.
  match type of Esn with _ = Some ?x => exists x end.
  unfold target_serial, found_device in *. destruct s; simpl in *.
  split; [exact Esn | split; reflexivity].
Qed.

Lemma delete_loop sn tok l : forall s w u s' w',
  serial_number s = Some sn ->
  for_each l (fun schedule =>
    sn ← attr serial_number;
    if String.eqb (sch_serial_number schedule) sn then
      sn ← attr serial_number;
      _api_delete API_SCHEDULE_DELETE_BY_SERIALNUMBER_SCHEDULEID
        (sn +:+ "/" +:+ schedule_id schedule) tok;;
      mret tt
    else mret tt) s w = (Return u, s', w') ->
  s' = s /\
  sent w' = sent w ++ deletions (Some sn) tok l /\
  ticks w' = ticks w /\ sessions w' = sessions w.
Proof.
  unfold deletions.
  induction l as [|sch l IH]; intros s w u s' w' Hsn H; simpl in H.
  - apply mret_inv in H as (_ & -> & ->). rewrite app_nil_r. auto.
  - step H as Ebody. step Ebody as Esn. rewrite Hsn in Esn. injection Esn as <-.
    rewrite filter_cons.
    destruct (String.eqb_spec (sch_serial_number sch) sn) as [E|E].
    + rewrite decide_True by exact E.
      step Ebody as Esn'. rewrite Hsn in Esn'. injection Esn' as <-.
      step Ebody as Edel. unfold _api_delete in Edel.
      apply api_call_inv in Edel as (_ & _ & -> & ->).
      apply mret_inv in Ebody as (_ & -> & ->).
      apply IH in H as (-> & Hsent & Ht & Hs); [|exact Hsn].
      rewrite Hsent, Ht, Hs. simpl. rewrite <- app_assoc. auto.
    + rewrite decide_False by exact E.
      apply mret_inv in Ebody as (_ & -> & ->).
      apply IH in H; assumption.
Qed.

(** X7.  When [delete_all_inverter_schedules] returns, it has sent one
    DELETE for each stored schedule of the addressed inverter, in the order
    of the list, and nothing else: there is no token check, so the requests
    carry the token as it is, no login is sent and the clock is not read.
    The schedules stay in the client's own list. *)
Theorem delete_all_inverter_schedules_requests (device_id : string)
    (s : client) (w : world) (u : unit) (s' : client) (w' : world) :
  delete_all_inverter_schedules device_id s w = (Return u, s', w') ->
  sent w' = sent w ++ deletions (target_serial s device_id) (token s) (_redback_schedules s)
  /\ ticks w' = ticks w
  /\ token s' = token s
  /\ _redback_schedules s' = _redback_schedules s.
Proof.
  unfold delete_all_inverter_schedules. intros H.
  step H as Ereset. unfold reset_selected_schedule in Ereset.
  apply modify_inv in Ereset as (-> & ->).
  rewrite bind_run, select_device_run in H.
  step H. step H.
  match type of H with
  | for_each _ _ ?s1 _ = _ =>
      assert (Hsn : serial_number s1 = target_serial s device_id)
        by (unfold target_serial, found_device; destruct s; reflexivity);
      assert (Htok : token s1 = token s)
        by (unfold target_serial, found_device; destruct s; reflexivity);
      assert (Hsch : _redback_schedules s1 = _redback_schedules s)
        by (unfold target_serial, found_device; destruct s; reflexivity);
      generalize dependent s1
  end.
  intros s1 H Hsn Htok Hsch. rewrite <- Hsn, <- Htok, <- Hsch.
  destruct (serial_number s1) as [sn|] eqn:Esn.
  - pose proof (delete_loop sn _ _ _ _ _ _ _ Esn H) as (-> & Hsent & Ht & _). auto.
  - destruct (_redback_schedules s1) as [|sch l] eqn:El; simpl in H.
    + apply mret_inv in H as (_ & -> & ->). simpl. rewrite app_nil_r. auto.
    + step H as Ebody. step Ebody as E. congruence.
Qed.

(** X8.  When [set_inverter_mode_portal] returns, it has opened one portal
    session, sent four requests through it and closed it: the GET of the
    login page, the POST of the login form with the token of that page,
    the GET of the configuration page of the addressed inverter, and the
    POST of the mode form with the token of the configuration page.  The
    mode form carries the stored mode and watts of the device's control
    settings, or [Auto] and [0] with [Mode_override], whatever the
    settings are then. *)
Theorem set_inverter_mode_portal_exchange (device_id : string) (Mode_override : bool)
    (s : client) (w : world) (u : unit) (s' : client) (w' : world) :
  set_inverter_mode_portal device_id Mode_override s w = (Return u, s', w') ->
  let via := mk_request (Some (length (sessions w))) in
  let n := length (sent w) in
  exists sn ross tok1 tok2 mode power,
    target_serial s device_id = Some sn /\
    target_ross s device_id = Some ross /\
    (if Mode_override then mode = VStr "Auto" /\ power = VNum (PyInt 0)
     else exists c, _inverter_control_settings s !! device_id = Some c /\
                    mode = power_setting_mode c /\ power = power_setting_watts c) /\
    hidden_input_value 1 (text (peer w n (via GET PORTAL_LOGIN "" None NoData)))
      = Return tok1 /\
    hidden_input_value 2 (text (peer w (n + 2)%nat (via GET PORTAL_CONFIGURE sn None NoData)))
      = Return tok2 /\
    sent w'
    = sent w ++
      [ via GET PORTAL_LOGIN "" None NoData;
        via POST PORTAL_LOGIN "" None
          (PortalLoginForm (portal_email (creds s)) (portal_password (creds s)) (Some tok1));
        via GET PORTAL_CONFIGURE sn None NoData;
        via POST PORTAL_INVERTER_SET "" None (PortalSetForm sn mode power ross (Some tok2)) ] /\
    sessions w' = sessions w ++ [false].
Proof.
  unfold set_inverter_mode_portal. intros H. cbv zeta.
  rewrite bind_run, select_device_run in H.
  step H as Emode.
  match type of Emode with
  | _ = (Return ?x, _, _) =>
      assert (Hmode :
        if Mode_override then fst x = VStr "Auto" /\ snd x = VNum (PyInt 0)
        else exists c, _inverter_control_settings s !! device_id = Some c /\
                       fst x = power_setting_mode c /\ snd x = power_setting_watts c)
  end.
  { destruct Mode_override.
    - apply mret_inv in Emode as (-> & _ & _). auto.
    - step Emode as Ecs. unfold control_settings_of in Ecs. step Ecs.
      apply lift_inv in Ecs as (Ecs & _ & _).
      apply mret_inv in Emode as (-> & _ & _).
      destruct s; simpl in *.
      destruct (_inverter_control_settings0 !! device_id) as [c|]; [|discriminate].
      injection Ecs as <-. eauto. }
  match type of Emode with
  | _ ?s0 _ = (_, ?s1, ?w1) => assert (s1 = s0 /\ w1 = w) as [-> ->]
  end.
  { destruct Mode_override.
    - apply mret_inv in Emode as (_ & -> & ->). auto.
    - step Emode as Ecs. unfold control_settings_of in Ecs. step Ecs.
      apply lift_inv in Ecs as (_ & -> & ->).
      apply mret_inv in Emode as (_ & -> & ->). auto. }
  clear Emode.
  match type of H with
  | context [let '(_, _) := ?x in _] => destruct x as [mode power]
  end.
  simpl in Hmode.
  step H as Elogin. apply _portal_login_returns in Elogin as (tok1 & Htok1 & -> & ->).
  step H as Esn.
  step H as Eget. unfold _portal_get in Eget.
  apply portal_send_inv in Eget as (h & Hh & _ & _ & -> & -> & ->).
  step H as Etok. apply _get_portal_token_returns in Etok as (tok2 & Htok2 & -> & ->).
  step H as Esn'. step H as Eross. step H.
  step H as Epost. unfold _portal_post in Epost.
  apply portal_send_inv in Epost as (h' & Hh' & _ & _ & _ & -> & ->).
  step H as Eh. injection H as _ <- <-.
  match type of Esn with _ = Some ?x => exists x end.
  match type of Eross with _ = Some ?x => exists x end.
  exists tok1, tok2, mode, power.
  unfold target_serial, target_ross, found_device, answer, opening, sending in *.
  destruct s; simpl in *.
  injection Hh as <-. injection Hh' as <-. injection Eh as <-.
  rewrite Esn in Esn'. injection Esn' as <-.
  rewrite !length_app in Htok2. simpl in Htok2.
  replace (length (sent w) + 1 + 1)%nat with (length (sent w) + 2)%nat in Htok2 by lia.
  repeat split; try assumption.
  - rewrite <- !app_assoc. reflexivity.
  - rewrite insert_app_r_alt by lia. rewrite Nat.sub_diag. reflexivity.
Qed.

(** ** What a refresh keeps *)

Section Keeps.
Context (R : client -> client -> Prop) `{HR : !PreOrder R}.

Lemma keeps_still {A} (m : M A) : (forall s w, final_state (m s w) = s) -> keeps R m.
Proof using HR. intros H s w. rewrite H. reflexivity. Qed.

Lemma keeps_modify g : (forall s, R s (g s)) -> keeps R (modify g).
Proof using HR. intros H s w. apply H. Qed.

Lemma keeps_bind {A C} (m : M A) (k : A -> M C) :
  keeps R m -> (forall a, keeps R (k a)) -> keeps R (m ≫= k).
Proof using HR.
  intros Hm Hk s w. specialize (Hm s w). unfold final_state in *.
  rewrite bind_run. destruct (m s w) as [[[a|e] s1] w1]; simpl in *.
  - etransitivity; [exact Hm | apply Hk].
  - exact Hm.
Qed.

Lemma keeps_gets_bind {A B C} (g : client -> A) (m : A -> M B) (k : A -> B -> M C) :
  keeps R (a ← gets g; m a) -> (forall a b, keeps R (k a b)) ->
  keeps R (a ← gets g; b ← m a; k a b).
Proof using HR.
  intros Hm Hk s w. specialize (Hm s w). unfold final_state in *.
  change ((a ← gets g; b ← m a; k a b) s w) with ((m (g s) ≫= k (g s)) s w).
  change ((a ← gets g; m a) s w) with (m (g s) s w) in Hm.
  rewrite bind_run. destruct (m (g s) s w) as [[[b|e] s1] w1]; simpl in *.
  - etransitivity; [exact Hm | apply Hk].
  - exact Hm.
Qed.

Lemma keeps_for_each {A} (l : list A) (body : A -> M unit) :
  (forall x, keeps R (body x)) -> keeps R (for_each l body).
Proof using HR.
  intros H. induction l as [|x l IH]; simpl.
  - apply keeps_still. reflexivity.
  - apply keeps_bind; auto.
Qed.

Lemma keeps_for_fold {A C} (l : list A) (acc : C) (body : C -> A -> M C) :
  (forall c x, keeps R (body c x)) -> keeps R (for_fold l acc body).
Proof using HR.
  intros H. revert acc. induction l as [|x l IH]; intros acc; simpl.
  - apply keeps_still. reflexivity.
  - apply keeps_bind; auto.
Qed.

Lemma keeps_unchanged {A B} (f : client -> B) (m : M A) :
  (forall s s', f s' = f s -> R s s') -> unchanged f m -> keeps R m.
Proof using HR. intros Hf Hm s w. apply Hf, Hm. Qed.
End Keeps.

#[local] Instance settings_kept_preorder : PreOrder settings_kept.
Proof.
  split.
  - intros s. split; auto.
  - intros s1 s2 s3 [H1 H1'] [H2 H2']. split; auto.
Qed.

(** A method that assigns neither dictionary *)
Lemma settings_untouched {A} (m : M A) :
  unchanged (fun s => (_inverter_control_settings s, _redback_schedule_selected s)) m ->
  keeps settings_kept m.
Proof.
  intros H.
  refine (keeps_unchanged settings_kept
            (fun s => (_inverter_control_settings s, _redback_schedule_selected s)) m _ H).
  intros s s' [= E1 E2]. split; intros k x; congruence.
Qed.

Create HintDb keeps_db.

Ltac untouched := apply settings_untouched; solve [unchanged_auto].
Ltac kept_bind := apply (@keeps_bind settings_kept settings_kept_preorder).

Lemma keeps_default_control_settings id_temp b :
  keeps settings_kept (default_control_settings id_temp b).
Proof.
  intros s w. unfold default_control_settings. run_monad.
  destruct (_inverter_control_settings s !! id_temp) as [c|] eqn:E; simpl;
    [reflexivity|].
  destruct b; simpl; destruct s; split; intros k x Hk; simpl in *; try exact Hk;
    (rewrite lookup_insert_ne; [exact Hk | congruence]).
Qed.

Lemma keeps_number_entities data : keeps settings_kept (_create_number_entities data).
Proof.
  unfold _create_number_entities, control_settings_of, append_number. cbv zeta.
  repeat (kept_bind; [first [apply keeps_default_control_settings | untouched]
                            | intros ?]).
  untouched.
Qed.

Lemma keeps_datetime_entities data : keeps settings_kept (_create_datetime_entities data).
Proof.
  unfold _create_datetime_entities, control_settings_of, append_schedule_datetime.
  cbv zeta.
  repeat (kept_bind; [first [apply keeps_default_control_settings | untouched]
                            | intros ?]).
  untouched.
Qed.

Lemma keeps_default_selected id_temp :
  keeps settings_kept
    (sel ← gets _redback_schedule_selected;
     match sel !! id_temp with
     | Some _ => mret tt
     | None =>
         modify (fun s =>
           set_schedule_selected (<[id_temp := VNone]> (_redback_schedule_selected s)) s)
     end).
Proof.
  intros s w. run_monad.
  destruct (_redback_schedule_selected s !! id_temp) as [c|] eqn:E; simpl;
    [reflexivity|].
  destruct s; split; intros k x Hk; simpl in *; try exact Hk.
  rewrite lookup_insert_ne; [exact Hk | congruence].
Qed.

Lemma keeps_select_entities data data2 :
  keeps settings_kept (_create_select_entities data data2).
Proof.
  unfold _create_select_entities, control_settings_of, append_select. cbv zeta.
  do 5 (kept_bind; [first [apply keeps_default_control_settings | untouched]
                          | intros ?]).
  eapply (@keeps_gets_bind settings_kept settings_kept_preorder); [apply keeps_default_selected | intros ? ?].
  untouched.
Qed.
Ltac untouched_deep :=
  apply settings_untouched;
  unfold _check_device_info_refresh, _get_inverter_list, append_serial_number,
    _get_static_by_serial, _get_dynamic_by_serial, _get_schedules_by_serial,
    _get_config_by_serial, _check_token, _api_login, _api_post, _api_get,
    _convert_responses_to_inverter_entities, pv_step, phase_step,
    _convert_responses_to_schedule_entities, schedule_step, append_schedule,
    _convert_responses_to_battery_entities, module_step, cabinet_step,
    _create_device_info_battery, _create_device_info_inverter, _create_device_info_for,
    append_device_info, _add_additional_entities, append_all, append_entity;
  solve [unchanged_auto].

Lemma keeps_refresh_one sn : keeps settings_kept (refresh_one sn).
Proof.
  unfold refresh_one.
  repeat (kept_bind;
          [ first [ apply keeps_number_entities | apply keeps_select_entities
                  | apply keeps_datetime_entities | untouched_deep ]
          | intros ? ]).
  untouched_deep.
Qed.

Lemma keeps_create_device_info : keeps settings_kept _create_device_info.
Proof.
  unfold _create_device_info.
  repeat (kept_bind;
          [ first [ apply (@keeps_for_each settings_kept settings_kept_preorder);
                    intros ?; apply keeps_refresh_one
                  | untouched_deep ]
          | intros ? ]).
  untouched_deep.
Qed.

(** X9.  A refresh, and so [get_redback_data], never overwrites a control
    setting or a selected schedule: whatever one of the two dictionaries
    holds for a device before is what it holds after, however the refresh
    ends.  Defaults are written only for a device that has no entry. *)
Theorem refresh_keeps_settings (s : client) (w : world) :
  settings_kept s (final_state (_create_device_info s w)) /\
  settings_kept s (final_state (get_redback_data s w)).
Proof.
  split; [apply keeps_create_device_info|].
  unfold get_redback_data.
  apply (@keeps_bind settings_kept settings_kept_preorder);
    [apply keeps_create_device_info | intros ?].
  apply settings_untouched. unchanged_auto.
Qed.

(** ** A refresh that cannot list the inverters *)

Lemma _check_device_info_refresh_run s w :
  (exists fresh, _check_device_info_refresh s w = (Return fresh, s, tick w) /\
                 py_not fresh = true)
  \/ (exists e, _check_device_info_refresh s w = (Raise e, s, tick w)).
Proof.
  unfold _check_device_info_refresh. run_monad.
  destruct (_device_info_refresh_time s) as [t|]; simpl; [|eauto].
  destruct (datetime_sub t _) as [td|e]; simpl; [|eauto].
  destruct (total_seconds_lt td 10); eauto.
Qed.

Lemma _get_inverter_list_keeps_lists : unchanged rebuilt_lists _get_inverter_list.
Proof.
  unfold rebuilt_lists, _get_inverter_list, append_serial_number, _check_token,
    _api_login, _api_post, _api_get.
  unchanged_auto.
Qed.

(** X10.  When the list of inverters cannot be fetched, the refresh
    raises and the six lists it would rebuild (device info, entities,
    schedules, numbers, selects, schedule datetimes) are as they were: the
    lists are emptied only once the list of inverters is there. *)
Theorem refresh_without_inverter_list (s : client) (w : world) :
  ~ returned (_get_inverter_list s (tick w)) ->
  ~ returned (_create_device_info s w) /\
  rebuilt_lists (final_state (_create_device_info s w)) = rebuilt_lists s.
Proof.
  intros Hl. unfold _create_device_info. rewrite bind_run.
  destruct (_check_device_info_refresh_run s w) as [(fresh & E & Hf) | (e & E)];
    rewrite E; [|split; [intros []|reflexivity]].
  rewrite Hf, bind_run, bind_run.
  pose proof (_get_inverter_list_keeps_lists s (tick w)) as Hk.
  unfold returned, result_of, final_state in *.
  destruct (_get_inverter_list s (tick w)) as [[[l|e] s1] w1]; simpl in *.
  - destruct Hl. exact I.
  - split; [intros [] | exact Hk].
Qed.

(** ** The data set *)

Lemma refresh_one_raises sn s w : ~ returned (refresh_one sn s w).
Proof.
  intros Hr. apply returned_inv in Hr as (u & s' & w' & H).
  unfold refresh_one in H.
  do 14 (step H). step H as Eadd.
  match type of Eadd with
  | _add_additional_entities (VDict ?m) ?d ?s0 ?w0 = _ =>
      destruct (_add_additional_entities_raises m d s0 w0) as (e & He)
  end.
  congruence.
Qed.

Lemma _get_inverter_list_keeps_creds : unchanged creds _get_inverter_list.
Proof.
  unfold _get_inverter_list, append_serial_number, _check_token,
    _api_login, _api_post, _api_get.
  unchanged_auto.
Qed.

(** A refresh returns only when there is no inverter to process, and then
    with the six lists empty. *)
Lemma _create_device_info_returns s w u s' w' :
  _create_device_info s w = (Return u, s', w') ->
  _serial_numbers s' = Some [] /\
  rebuilt_lists s' = ([], [], [], [], [], []) /\
  creds s' = creds s.
Proof.
  unfold _create_device_info. intros H.
  step H as Echeck.
  destruct (_check_device_info_refresh_run s w) as [(fresh & E & Hf) | (e & E)];
    rewrite E in Echeck; [|discriminate].
  injection Echeck as <- <- <-. rewrite Hf in H.
  step H as Efetch. step Efetch as El.
  apply (unchanged_run _ _ _ _ _ _ _ _get_inverter_list_keeps_creds) in El.
  apply modify_inv in Efetch as (-> & ->).
  do 6 (step H). step H as Eser. step H as Eloop.
  match type of Eloop with
  | for_each ?l _ _ _ = _ => destruct l as [|sn l]
  end.
  - apply mret_inv in Eloop as (_ & -> & ->).
    step H. step H. step H. apply modify_inv in H as (-> & ->).
    rewrite <- El. clear El.
    match goal with
    | |- context [set__serial_numbers _ ?s1] => destruct s1
    end.
    simpl in *. split; [exact Eser | split; reflexivity].
  - simpl in Eloop. step Eloop as Eone. exfalso.
    eapply refresh_one_raises. rewrite Eone. exact I.
Qed.

(** X11.  [get_redback_data] returns only when the refresh found no
    inverter to process, and the data set it returns then holds the client
    id and nothing else: all nine dictionaries are empty.  (With an
    inverter in the list the refresh raises, see C3.) *)
Theorem get_redback_data_returns_empty (s : client) (w : world)
    (d : Data.RedbackTechData) (s' : client) (w' : world) :
  get_redback_data s w = (Return d, s', w') ->
  _serial_numbers s' = Some [] /\
  d = Data.mk_RedbackTechData (client_id (creds s)) ∅ ∅ ∅ ∅ ∅ ∅ ∅ ∅ ∅.
Proof.
  unfold get_redback_data. intros H.
  step H as Eref. apply _create_device_info_returns in Eref as (Hser & Hl & Hc).
  step H. apply mret_inv in H as (-> & -> & ->).
  unfold rebuilt_lists in Hl. injection Hl as -> -> -> -> -> ->.
  rewrite Hc. split; [exact Hser | reflexivity].
Qed.

Lemma filed_snoc {A B} (handle : A -> B * string) (l : list A) (x : A) :
  filed handle (l ++ [x]) = <[(handle x).2 := (handle x).1]> (filed handle l).
Proof.
  drop_constants.
  unfold filed. rewrite fold_left_app. simpl. destruct (handle x). reflexivity.
Qed.

Lemma filed_lookup {A B} (handle : A -> B * string) (l : list A) (k : string) :
  filed handle l !! k
  = (fun x => (handle x).1) <$> last (filter (fun x => (handle x).2 = k) l).
Proof.
  drop_constants.
  induction l as [|x l IH] using rev_ind; [reflexivity|].
  rewrite filed_snoc, filter_app, filter_cons, filter_nil.
  destruct (decide ((handle x).2 = k)) as [E|E].
  - rewrite last_snoc, E. apply lookup_insert_eq.
  - rewrite app_nil_r, lookup_insert_ne by exact E. exact IH.
Qed.

Lemma filed_size {A B} (handle : A -> B * string) (l : list A) :
  (size (filed handle l) <= length l)%nat /\
  (NoDup ((fun x => (handle x).2) <$> l) -> size (filed handle l) = length l) /\
  (~ NoDup ((fun x => (handle x).2) <$> l) -> (size (filed handle l) < length l)%nat).
Proof.
  drop_constants.
  induction l as [|x l (IHle & IHeq & IHlt)] using rev_ind.
  - split; [|split].
    + unfold filed. simpl. rewrite map_size_empty. lia.
    + intros _. unfold filed. simpl. apply map_size_empty.
    + intros H. destruct H. constructor.
  - rewrite filed_snoc, fmap_app, length_app. simpl.
    destruct (filed handle l !! (handle x).2) as [b|] eqn:Hk.
    + rewrite map_size_insert_Some by (rewrite Hk; eauto).
      split; [lia|]. split; [|lia].
      intros Hnd. exfalso. apply NoDup_app in Hnd as (_ & Hnd & _).
      rewrite filed_lookup in Hk.
      destruct (last _) as [y|] eqn:Hy; [|discriminate].
      apply last_Some_elem_of, list_elem_of_filter in Hy as [Hy1 Hy2].
      apply (Hnd (handle x).2); [|apply list_elem_of_singleton; reflexivity].
      rewrite <- Hy1. apply (list_elem_of_fmap_2 (fun x => (handle x).2)). exact Hy2.
    + rewrite map_size_insert_None by exact Hk.
      assert (Hnew : (handle x).2 ∉ (fun x => (handle x).2) <$> l).
      { intros Hin. apply list_elem_of_fmap in Hin as (y & Hy & Hin).
        rewrite filed_lookup in Hk.
        assert (Hf : y ∈ filter (fun z => (handle z).2 = (handle x).2) l)
          by (apply list_elem_of_filter; auto).
        destruct (filter _ l) as [|z f] using rev_ind; [inversion Hf|].
        rewrite last_snoc in Hk. discriminate. }
      split; [lia|]. split.
      * intros Hnd. apply NoDup_app in Hnd as (Hnd & _ & _). rewrite IHeq by exact Hnd. lia.
      * intros Hnd. assert ((size (filed handle l) < length l)%nat); [|lia].
        apply IHlt. intros Hl. apply Hnd. apply NoDup_app. split; [exact Hl|].
        split; [|apply NoDup_singleton].
        intros z Hz Hz'. apply list_elem_of_singleton in Hz'. subst z. exact (Hnew Hz).
Qed.

(** X12.  The dictionaries of the data set are filled in list order under
    the id the handler gives a record, so of the records that share an id
    the last one is kept and the earlier ones are dropped.  A dictionary
    has as many records as its list exactly when the ids are pairwise
    distinct; in particular the entity dictionary is shorter than the
    entity list whenever two entities share [device_id + entity_name]. *)
Theorem filed_keeps_last {A B : Type} (handle : A -> B * string) (l : list A) :
  (forall k, filed handle l !! k
             = (fun x => (handle x).1) <$> last (filter (fun x => (handle x).2 = k) l))
  /\ (NoDup ((fun x => (handle x).2) <$> l) -> size (filed handle l) = length l)
  /\ (~ NoDup ((fun x => (handle x).2) <$> l) -> (size (filed handle l) < length l)%nat)
  /\ (forall entities : list entity,
        ~ unique_ids entities ->
        (size (filed _handle_entity entities) < length entities)%nat).
Proof.
  drop_constants.
  split; [intros k; apply filed_lookup|].
  destruct (filed_size handle l) as (_ & Heq & Hlt).
  split; [exact Heq|]. split; [exact Hlt|].
  intros entities Hu. apply (filed_size _handle_entity entities). exact Hu.
Qed.

(** ** Control values *)

Lemma update_inverter_control_values_returns device_id data_key data_value s w u s' w' :
  update_inverter_control_values device_id data_key data_value s w = (Return u, s', w') ->
  exists c,
    _inverter_control_settings s !! device_id = Some c /\
    s' = set_control_settings
           (<[device_id := control_setting_update data_key data_value c]>
              (_inverter_control_settings s)) s /\
    w' = w.
Proof.
  unfold update_inverter_control_values. intros H. step H. step H as Ec.
  apply modify_inv in H as (-> & ->).
  destruct (_inverter_control_settings s !! device_id) as [c|]; [|discriminate].
  injection Ec as <-. eauto.
Qed.

Lemma reset_inverter_start_time_to_now_returns device_id s w u s' w' :
  reset_inverter_start_time_to_now device_id s w = (Return u, s', w') ->
  exists c,
    _inverter_control_settings s !! device_id = Some c /\
    s' = set_control_settings
           (<[device_id :=
                control_setting_update "start_time"
                  (VDatetime (mk_datetime (clock w (ticks w) - utcoffset w) (Some 0))) c]>
              (_inverter_control_settings s)) s /\
    w' = tick w.
Proof.
  unfold reset_inverter_start_time_to_now. intros H. step H. step H as Ec.
  step H as Enow. injection Enow as <- <- <-.
  apply modify_inv in H as (-> & ->).
  destruct (_inverter_control_settings s !! device_id) as [c|]; [|discriminate].
  injection Ec as <-. eauto.
Qed.

(** X13.  For a device id that has no entry in the dictionary concerned,
    the three updates of the control values raise [AttributeError] (the
    [update] of [None]) and change nothing; the start-time reset does not
    even read the clock. *)
Theorem control_values_unknown_device (device_id data_key : string)
    (data_value schedule_id : pyval) (s : client) (w : world) :
  _inverter_control_settings s !! device_id = None ->
  _redback_schedule_selected s !! device_id = None ->
  update_inverter_control_values device_id data_key data_value s w
    = (Raise AttributeError, s, w)
  /\ reset_inverter_start_time_to_now device_id s w = (Raise AttributeError, s, w)
  /\ update_selected_schedule_id device_id schedule_id s w = (Raise AttributeError, s, w).
Proof.
  intros Hc Hs.
  unfold update_inverter_control_values, reset_inverter_start_time_to_now,
    update_selected_schedule_id.
  run_monad. rewrite Hc, Hs. auto.
Qed.

(** Up to the POST, [set_inverter_schedule] sends nothing but the login
    of the token check. *)
Lemma _check_token_sent s w :
  sent (final_world (_check_token s w)) = sent w
  \/ sent (final_world (_check_token s w)) = sent w ++ [login_request (creds s)].
Proof.
  pose proof (_api_login_sends s (tick w)) as Hl. unfold final_world in Hl.
  unfold _check_token. run_monad.
  destruct (token_or_expiration s); [|right; exact Hl].
  destruct (token_expiration s) as [e|]; simpl; [|left; reflexivity].
  destruct (datetime_sub e _); simpl; [|left; reflexivity].
  destruct (total_seconds_lt _ _); [right; exact Hl | left; reflexivity].
Qed.

(** A start time that is a [datetime] stops [set_inverter_schedule] at
    the encoder. *)
Lemma set_inverter_schedule_datetime device_id s w c d :
  _inverter_control_settings s !! device_id = Some c ->
  start_time c = Some (VDatetime d) ->
  let r := set_inverter_schedule device_id s w in
  ~ returned r
  /\ (sent (final_world r) = sent w
      \/ sent (final_world r) = sent w ++ [login_request (creds s)]).
Proof.
  intros Hc Hstart. cbv zeta. unfold set_inverter_schedule.
  rewrite bind_run, select_device_run. cbv iota beta.
  set (s1 := set_serial_number (target_serial s device_id) s).
  assert (Hs1 : _inverter_control_settings s1 = _inverter_control_settings s
                /\ creds s1 = creds s).
  { unfold s1. destruct s; auto. }
  destruct Hs1 as (Hs1 & Hcr).
  unfold control_settings_of. run_monad. rewrite Hs1, Hc. simpl. rewrite Hstart. simpl.
  destruct (duration_str (power_setting_duration c)) as [dstr|];
    [|split; [exact id | left; reflexivity]].
  destruct (of_option AttributeError (serial_number s1)) as [sn|];
    [|split; [exact id | left; reflexivity]].
  destruct (py_int (power_setting_watts c)) as [n|];
    [|split; [exact id | left; reflexivity]].
  pose proof (_check_token_sent s1 w) as Hsent. rewrite Hcr in Hsent.
  unfold final_world in Hsent.
  destruct (_check_token s1 w) as [[[u|e] s2] w2]; simpl in *.
  - split; [exact id | exact Hsent].
  - split; [exact id | exact Hsent].
Qed.

(** X14.  Values stored with [update_inverter_control_values] are what
    the next [set_inverter_schedule] sends: the duration string is built
    from the stored duration, the watts are [int] of the stored watts, the
    start time is the stored value, which the JSON encoder has accepted;
    the mode is the one the settings held before.  A start time set with
    [reset_inverter_start_time_to_now] is a [datetime], which the encoder
    of the client's session refuses: after the reset
    [set_inverter_schedule] does not return, and the request for the
    schedule is not sent (of the requests of the call only the login of
    the token check can have gone out). *)
Theorem control_values_reach_the_schedule (device_id : string)
    (minutes watts start : pyval) (s : client) (w : world) :
  (forall u s' w',
     (update_inverter_control_values device_id "power_setting_duration" minutes;;
      update_inverter_control_values device_id "power_setting_watts" watts;;
      update_inverter_control_values device_id "start_time" start;;
      set_inverter_schedule device_id) s w = (Return u, s', w') ->
     exists c sn dstr n,
       _inverter_control_settings s !! device_id = Some c /\
       target_serial s device_id = Some sn /\
       duration_str minutes = Return dstr /\
       py_int watts = Return n /\
       json_serializable start = true /\
       last (sent w')
       = Some (mk_request None POST API_SCHEDULE_CREATE_BY_SERIALNUMBER "" (token s)
                 (ScheduleJson sn (Some start) dstr (power_setting_mode c) n)))
  /\ (let r := (reset_inverter_start_time_to_now device_id;;
               set_inverter_schedule device_id) s w in
      ~ returned r
      /\ (sent (final_world r) = sent w
          \/ sent (final_world r) = sent w ++ [login_request (creds s)])).
Proof.
  split.
  - intros u s' w' H.
    step H as E1. apply update_inverter_control_values_returns in E1 as (c & Hc & -> & ->).
    step H as E2. apply update_inverter_control_values_returns in E2 as (c2 & Hc2 & -> & ->).
    step H as E3. apply update_inverter_control_values_returns in E3 as (c3 & Hc3 & -> & ->).
    pose proof (set_inverter_schedule_encodes _ _ _ _ _ _ H) as (c5 & st5 & Hc5 & Hst5 & Hser).
    apply set_inverter_schedule_inv in H
      as (c4 & start' & dstr & sn & n & w1 & Hc4 & Hstart & Hd & Hsn & Hn & ->).
    rewrite last_sending.
    unfold target_serial, found_device in *. destruct s; simpl in *.
    rewrite lookup_insert_eq in Hc2. injection Hc2 as <-.
    rewrite lookup_insert_eq in Hc3. injection Hc3 as <-.
    rewrite lookup_insert_eq in Hc4. injection Hc4 as <-.
    rewrite lookup_insert_eq in Hc5. injection Hc5 as <-.
    simpl in *. injection Hstart as <-. injection Hst5 as <-.
    destruct Hser as (Hser & _). exists c, sn, dstr, n. repeat split; auto.
  - cbv zeta. rewrite bind_run.
    destruct (reset_inverter_start_time_to_now device_id s w) as [[[u|e] s1] w1] eqn:E.
    + apply reset_inverter_start_time_to_now_returns in E as (c & Hc & -> & ->).
      cbv iota beta.
      match goal with
      | |- context [set_inverter_schedule device_id ?s1 ?w1] =>
          pose proof (set_inverter_schedule_datetime device_id s1 w1
                        (control_setting_update "start_time"
                           (VDatetime (mk_datetime (clock w (ticks w) - utcoffset w) (Some 0)))
                           c)
                        (mk_datetime (clock w (ticks w) - utcoffset w) (Some 0))) as Hd
      end.
      cbv zeta in Hd. destruct s; simpl in *.
      apply Hd; [apply lookup_insert_eq | reflexivity].
    + split; [exact id|]. left. revert E.
      unfold reset_inverter_start_time_to_now. run_monad.
      destruct (_inverter_control_settings s !! device_id); simpl;
        [discriminate | intros E; injection E as _ _ <-; reflexivity].
Qed.

(** ** Device ids *)

Lemma lower_app (p q : string) : lower (p +:+ q) = lower p +:+ lower q.
Proof.
  drop_constants.
  induction p as [|c p IH]; simpl; [reflexivity | rewrite IH; reflexivity].
Qed.

Lemma string_app_length (p q : string) :
  String.length (p +:+ q) = (String.length p + String.length q)%nat.
Proof.
  drop_constants.
  induction p as [|c p IH]; simpl; [reflexivity | rewrite IH; reflexivity].
Qed.

Lemma string_app_inv_tail (p q r : string) : p +:+ r = q +:+ r -> p = q.
Proof.
  drop_constants.
  revert q. induction p as [|c p IH]; intros [|d q] H; simpl in *.
  - reflexivity.
  - apply (f_equal String.length) in H. simpl in H.
    rewrite !string_app_length in H. simpl in H. lia.
  - apply (f_equal String.length) in H. simpl in H.
    rewrite !string_app_length in H. simpl in H. lia.
  - injection H as -> H. f_equal. apply IH. exact H.
Qed.

Lemma string_app_inv_head (p q r : string) : p +:+ q = p +:+ r -> q = r.
Proof.
  drop_constants.
  induction p as [|c p IH]; simpl; intros H; [exact H | injection H as H; auto].
Qed.

(** X15.  The device id of a node depends on the last four characters of
    its serial number only, capitals ignored: two serial numbers get the
    same device id exactly when they agree there, so the inverters of two
    such nodes share one device id (and with it their entity ids).  The
    inverter and the battery of one node never share a device id. *)
Theorem device_id_of_collision (a b suffix : string) :
  (device_id_of a suffix = device_id_of b suffix
   <-> lower (last_chars 4 a) = lower (last_chars 4 b))
  /\ device_id_of a "inv" <> device_id_of a "bat".
Proof.
  unfold device_id_of. rewrite !lower_app. split; [split|].
  - apply string_app_inv_tail.
  - intros ->. reflexivity.
  - intros H. apply string_app_inv_head in H. discriminate H.
Qed.

(** ** The site load *)

Lemma phase_totals_net l : forall acc acc',
  phase_totals acc l = Return acc' ->
  net_import_from (phase_power_net_sum acc) l = Return (phase_power_net_sum acc').
Proof.
  drop_constants.
  induction l as [|p l IH]; intros acc acc'; simpl.
  - intros [= <-]. reflexivity.
  - intros H. apply outcome_bind_inv in H as (acc1 & Hadd & H).
    apply IH in H. unfold add_phase in Hadd.
    destruct (VoltageInstantaneousV p) as [v|].
    + apply outcome_bind_inv in Hadd as (vs & _ & Hadd).
      apply outcome_bind_inv in Hadd as (cs & _ & Hadd).
      apply outcome_bind_inv in Hadd as (es & _ & Hadd).
      apply outcome_bind_inv in Hadd as (ims & _ & Hadd).
      apply outcome_bind_inv in Hadd as (net & Hnet & Hadd).
      apply outcome_bind_inv in Hadd as (ns & Hns & Hadd).
      injection Hadd as <-. simpl in H. rewrite Hnet. simpl. rewrite Hns. simpl. exact H.
    + injection Hadd as <-. exact H.
Qed.

Lemma hoare_frame {A B} (f : client -> B) (phi : B -> Prop) (m : M A) :
  unchanged f m -> hoare (fun s _ => phi (f s)) m (fun _ s _ => phi (f s)).
Proof.
  intros Hm s w Hs a s' w' E. rewrite (unchanged_run f m _ _ _ _ _ Hm E). exact Hs.
Qed.

Lemma hoare_gets {A C} P (g : client -> A) (k : A -> M C) Q :
  (forall a, hoare (fun s w => P s w /\ a = g s) (k a) Q) -> hoare P (gets g ≫= k) Q.
Proof.
  intros Hk s w Hs c s' w' E.
  apply bind_Return_inv in E as (a & s1 & w1 & E1 & E2).
  apply gets_inv in E1 as (-> & -> & ->). eapply Hk; eauto.
Qed.

Lemma inverter_site_load d n d2 :
  node0 d = Return n ->
  hoare (fun _ _ => True)
    (_convert_responses_to_inverter_entities (JStatic d) (JDynamic d2))
    (fun _ s _ =>
       exists net load,
         net_import_from (PyInt 0) (Phases d2) = Return net /\
         jadd net (PvPowerInstantaneouskW d2) = Return load /\
         _redback_site_load s !! node_Id n = Some load).
Proof.
  drop_constants.
  intros Hn. unfold _convert_responses_to_inverter_entities. cbv zeta.
  apply hoare_lift. intros ? [= <-].
  apply hoare_lift. intros ? Hn'. rewrite Hn in Hn'. injection Hn' as <-.
  walk_front "".
  eapply hoare_bind; [apply phase_loop_sums|]. intros acc. cbv beta.
  apply hoare_fact. intros Hacc. apply phase_totals_net in Hacc. simpl in Hacc.
  walk_front "".
  intros s w _ u s' w' E. apply modify_inv in E as (-> & ->).
  eexists _, _. split; [exact Hacc|]. split; [eassumption|].
  destruct s; simpl. apply lookup_insert_eq.
Qed.

Lemma battery_site_load d n d2 c k cur :
  node0 d = Return n -> k = node_Id n ->
  hoare (fun s _ => _redback_site_load s !! k = Some cur)
    (_convert_responses_to_battery_entities (JStatic d) (JDynamic d2) (JConfig c))
    (fun _ s _ =>
       exists load,
         jadd cur (BatteryPowerNegativeIsChargingkW d2) = Return load /\
         _redback_site_load s !! k = Some load).
Proof.
  intros Hn ->. unfold _convert_responses_to_battery_entities. cbv zeta.
  apply hoare_lift. intros ? [= <-].
  apply hoare_lift. intros ? Hn'. rewrite Hn in Hn'. injection Hn' as <-.
  repeat
    lazymatch goal with
    | |- hoare _ (mbind _ (lift _)) _ =>
        apply hoare_lift;
        let Ha := fresh "Ha" in
        intros ? Ha; try (injection Ha as <-)
    | |- hoare _ (mbind _ (gets _redback_site_load)) _ => fail
    | |- hoare _ (mbind _ _) _ =>
        eapply hoare_bind;
        [ apply (hoare_frame _redback_site_load
                   (fun m => m !! node_Id n = Some cur));
          unfold module_step, cabinet_step, append_all, append_entity;
          solve [unchanged_auto]
        | intros ? ]
    end.
  apply hoare_gets. intros sl.
  apply hoare_lift. intros cur' Hcur.
  apply hoare_lift. intros load Hload.
  intros s w [Hs ->] u s' w' E. apply modify_inv in E as (-> & ->).
  rewrite Hs in Hcur. injection Hcur as <-.
  exists load. split; [exact Hload|]. destruct s; simpl. apply lookup_insert_eq.
Qed.

(** X16.  The site load the client keeps for a node is what the
    specification describes, though no entity shows it: when the inverter
    normalization returns it has stored, under the node's serial number,
    the net grid import of the phases plus the PV power; when the battery
    normalization returns it has added the battery power to the value
    stored there. *)
Theorem site_load_stored (d : static_data) (n : node_static) (d2 : dynamic_data)
    (c : config_data) (s : client) (w : world) :
  node0 d = Return n ->
  (forall u s' w',
     _convert_responses_to_inverter_entities (JStatic d) (JDynamic d2) s w
       = (Return u, s', w') ->
     exists net load,
       net_import_from (PyInt 0) (Phases d2) = Return net /\
       jadd net (PvPowerInstantaneouskW d2) = Return load /\
       _redback_site_load s' !! node_Id n = Some load)
  /\
  (forall cur u s' w',
     _redback_site_load s !! node_Id n = Some cur ->
     _convert_responses_to_battery_entities (JStatic d) (JDynamic d2) (JConfig c) s w
       = (Return u, s', w') ->
     exists load,
       jadd cur (BatteryPowerNegativeIsChargingkW d2) = Return load /\
       _redback_site_load s' !! node_Id n = Some load).
Proof.
  intros Hn. split.
  - intros u s' w' E. exact (inverter_site_load d n d2 Hn s w I u s' w' E).
  - intros cur u s' w' Hcur E.
    exact (battery_site_load d n d2 c (node_Id n) cur Hn eq_refl s w Hcur u s' w' E).
Qed.

(** ** Whose entities a normalization appends *)

#[local] Instance appended_preorder phi : PreOrder (appended phi).
Proof.
  drop_constants.
  split.
  - intros s. exists []. split; [rewrite app_nil_r; reflexivity | constructor].
  - intros s1 s2 s3 (k1 & E1 & H1) (k2 & E2 & H2). exists (k1 ++ k2).
    split; [rewrite E2, E1, app_assoc; reflexivity | apply Forall_app; auto].
Qed.

Lemma keeps_lift_bind {A C} R `{HR : !PreOrder R} (o : outcome A) (k : A -> M C) :
  (forall a, o = Return a -> keeps R (k a)) -> keeps R (lift o ≫= k).
Proof.
  drop_constants.
  intros Hk s w. destruct o as [a|e].
  - exact (Hk a eq_refl s w).
  - reflexivity.
Qed.

Ltac appended_step :=
  lazymatch goal with
  | |- keeps (appended ?phi) (mbind _ (lift _)) =>
      apply (@keeps_lift_bind _ _ (appended phi) (appended_preorder phi));
      let Ha := fresh "Ha" in
      intros ? Ha; try (injection Ha as <-)
  | |- keeps (appended ?phi) (mbind _ _) =>
      apply (@keeps_bind (appended phi) (appended_preorder phi)); [|intros ?]
  | |- keeps (appended ?phi) (for_fold _ _ _) =>
      apply (@keeps_for_fold (appended phi) (appended_preorder phi)); intros ? ?
  | |- keeps (appended ?phi) (for_each _ _) =>
      apply (@keeps_for_each (appended phi) (appended_preorder phi)); intros ?
  | |- keeps (appended ?phi) (modify (fun s => set_entities (_ ++ [?e]) s)) =>
      apply (@keeps_modify (appended phi) (appended_preorder phi)); intros s; exists [e];
      split; [destruct s; reflexivity | repeat constructor]
  | |- keeps (appended ?phi) (modify _) =>
      apply (@keeps_modify (appended phi) (appended_preorder phi)); intros s; exists [];
      split; [destruct s; simpl; rewrite app_nil_r; reflexivity | constructor]
  | |- keeps (appended ?phi) (match ?x with _ => _ end) => destruct x
  | |- keeps (appended ?phi) _ =>
      apply (@keeps_still (appended phi) (appended_preorder phi)); reflexivity
  end.

Ltac appended_auto :=
  unfold append_all, append_entity; cbn [for_each]; repeat appended_step.

(** X17.  The normalizations only append to the entity list, and what
    they append belongs to the node: each entity appended by the inverter
    normalization has the inverter's device id (the lowercased last four
    characters of the serial number and [inv]) and the device type
    [inverter], and each entity appended by the battery normalization has
    the battery's device id (the same with [bat]).  This holds however the
    normalization ends; the entities that were there before stay in
    place. *)
Theorem normalized_entities_belong_to_the_node (d : static_data) (n : node_static)
    (data2 soc_data : json_body) (s : client) (w : world) :
  node0 d = Return n ->
  appended
    (fun e => device_id e = device_id_of (node_Id n) "inv" /\ device_type e = "inverter")
    s (final_state (_convert_responses_to_inverter_entities (JStatic d) data2 s w))
  /\
  appended (fun e => device_id e = device_id_of (node_Id n) "bat")
    s (final_state (_convert_responses_to_battery_entities (JStatic d) data2 soc_data s w)).
Proof.
  intros Hn. split.
  - revert s w.
    change (keeps (appended (fun e => device_id e = device_id_of (node_Id n) "inv" /\
                                      device_type e = "inverter"))
              (_convert_responses_to_inverter_entities (JStatic d) data2)).
    unfold _convert_responses_to_inverter_entities. cbv zeta.
    appended_step. appended_step.
    match goal with H : node0 d = Return _ |- _ => rewrite Hn in H; injection H as <- end.
    unfold pv_step, phase_step. appended_auto.
  - revert s w.
    change (keeps (appended (fun e => device_id e = device_id_of (node_Id n) "bat"))
              (_convert_responses_to_battery_entities (JStatic d) data2 soc_data)).
    unfold _convert_responses_to_battery_entities. cbv zeta.
    appended_step. appended_step.
    match goal with H : node0 d = Return _ |- _ => rewrite Hn in H; injection H as <- end.
    unfold module_step, cabinet_step. appended_auto.
Qed.

(** ** The token and its expiry *)

Lemma hoare_token_check :
  hoare (fun s _ => token_consistent s) _check_token (fun _ s _ => token_consistent s).
Proof.
  intros s w Hc a s' w' E. pose proof (_check_token_consistent s w Hc) as H.
  rewrite E in H. apply H. exact I.
Qed.

(** A method that assigns neither the token nor its expiry *)
Lemma hoare_token_frame {A} (m : M A) :
  unchanged (fun s => (token s, token_expiration s)) m ->
  hoare (fun s _ => token_consistent s) m (fun _ s _ => token_consistent s).
Proof.
  intros Hm s w Hc a s' w' E.
  pose proof (unchanged_run _ m _ _ _ _ _ Hm E) as H. simpl in H.
  injection H as H1 H2. unfold token_consistent in *. rewrite H1, H2. exact Hc.
Qed.

Lemma hoare_for_each {A} P (l : list A) (body : A -> M unit) :
  (forall x, hoare P (body x) (fun _ => P)) -> hoare P (for_each l body) (fun _ => P).
Proof.
  intros H. induction l as [|x l IH]; simpl.
  - intros s w Hs a s' w' E. apply mret_inv in E as (_ & -> & ->). exact Hs.
  - eapply hoare_bind; [apply H | intros ?; exact IH].
Qed.

Create HintDb token_db.

Ltac token_frame :=
  apply hoare_token_frame;
  unfold _check_device_info_refresh, _get_config_by_serial, _api_get, _api_delete,
    _api_post_json, _api_post,
    _convert_responses_to_inverter_entities, pv_step, phase_step,
    _convert_responses_to_schedule_entities, schedule_step, append_schedule,
    _convert_responses_to_battery_entities, module_step, cabinet_step,
    _create_number_entities, _create_select_entities, _create_datetime_entities,
    default_control_settings, control_settings_of, append_number, append_select,
    append_schedule_datetime,
    _create_device_info_battery, _create_device_info_inverter, _create_device_info_for,
    append_device_info, _add_additional_entities, append_all, append_entity,
    append_serial_number, reset_selected_schedule,
    _portal_login, _portal_get, _portal_post, portal_send, _portal_response,
    _get_portal_token;
  solve [unchanged_auto].

Ltac token_step :=
  cbv beta;
  lazymatch goal with
  | |- hoare _ (mbind _ _check_token) _ =>
      apply (hoare_bind _ _ (fun _ s _ => token_consistent s));
      [apply hoare_token_check | intros ?]
  | |- hoare _ (mbind _ (if ?b then _ else _)) _ =>
      apply (hoare_bind _ _ (fun _ s _ => token_consistent s)); [destruct b | intros ?]
  | |- hoare _ (mbind _ _) _ =>
      apply (hoare_bind _ _ (fun _ s _ => token_consistent s));
      [ first [ solve [auto 2 with token_db nocore] | token_frame ] | intros ? ]
  | |- hoare _ (if ?b then _ else _) _ => destruct b
  | |- hoare _ (let (_, _) := ?x in _) _ => destruct x
  | |- hoare _ _ _ => first [ solve [auto 2 with token_db nocore] | token_frame ]
  end.

Ltac token_auto := repeat token_step.

Lemma token_get_inverter_list :
  hoare (fun s _ => token_consistent s) _get_inverter_list (fun _ s _ => token_consistent s).
Proof. unfold _get_inverter_list. token_auto. Qed.

Lemma token_get_static sn :
  hoare (fun s _ => token_consistent s) (_get_static_by_serial sn)
    (fun _ s _ => token_consistent s).
Proof. unfold _get_static_by_serial. token_auto. Qed.

Lemma token_get_dynamic sn :
  hoare (fun s _ => token_consistent s) (_get_dynamic_by_serial sn)
    (fun _ s _ => token_consistent s).
Proof. unfold _get_dynamic_by_serial. token_auto. Qed.

Lemma token_get_schedules sn :
  hoare (fun s _ => token_consistent s) (_get_schedules_by_serial sn)
    (fun _ s _ => token_consistent s).
Proof. unfold _get_schedules_by_serial. token_auto. Qed.

Lemma token_select_device device_id b :
  hoare (fun s _ => token_consistent s) (select_device device_id b)
    (fun _ s _ => token_consistent s).
Proof.
  apply hoare_token_frame. unfold select_device. apply unchanged_modify. intros s.
  destruct (find _ _); [destruct b|]; destruct s; reflexivity.
Qed.

#[local] Hint Resolve hoare_token_check token_get_inverter_list token_get_static
  token_get_dynamic token_get_schedules token_select_device : token_db.

Lemma token_refresh_one sn :
  hoare (fun s _ => token_consistent s) (refresh_one sn) (fun _ s _ => token_consistent s).
Proof. unfold refresh_one. token_auto. Qed.

Lemma token_create_device_info :
  hoare (fun s _ => token_consistent s) _create_device_info
    (fun _ s _ => token_consistent s).
Proof.
  unfold _create_device_info.
  repeat first
    [ lazymatch goal with
      | |- hoare _ (mbind _ (for_each _ refresh_one)) _ =>
          apply (hoare_bind _ _ (fun _ s _ => token_consistent s));
          [apply hoare_for_each; intros ?; apply token_refresh_one | intros ?]
      end
    | token_step ].
Qed.

#[local] Hint Resolve token_create_device_info : token_db.

(** X18.  The token and its expiry are set together, and the expiry is a
    naive datetime: this holds of a new client, and every operation of the
    client that returns keeps it (the token check, the connection tests,
    the refresh and [get_redback_data], the mutations of schedules, modes
    and control values).  So a token check never meets a token without an
    expiry, or an expiry it cannot compare with [datetime.now()], in a
    client that has only seen operations return. *)
Theorem token_and_expiry_set_together (c : credentials) (device_id schedule_id data_key : string)
    (data_value selected : pyval) (Mode_override : bool) :
  let inv := fun (s : client) (_ : world) => token_consistent s in
  let kept {A} (m : M A) := hoare inv m (fun _ => inv) in
  token_consistent (init c)
  /\ kept _check_token
  /\ kept test_api_connection
  /\ kept test_portal_connection
  /\ kept _create_device_info
  /\ kept get_redback_data
  /\ kept (delete_inverter_schedule device_id schedule_id)
  /\ kept (delete_all_inverter_schedules device_id)
  /\ kept (set_inverter_schedule device_id)
  /\ kept (set_inverter_mode_portal device_id Mode_override)
  /\ kept (update_inverter_control_values device_id data_key data_value)
  /\ kept (reset_inverter_start_time_to_now device_id)
  /\ kept (update_selected_schedule_id device_id selected).
Proof.
  cbv zeta.
  split; [apply init_token_consistent|].
  split; [apply hoare_token_check|].
  split; [unfold test_api_connection; token_auto|].
  split; [unfold test_portal_connection; token_auto|].
  split; [apply token_create_device_info|].
  split; [unfold get_redback_data; token_auto|].
  split; [unfold delete_inverter_schedule; token_auto|].
  split; [unfold delete_all_inverter_schedules; token_auto|].
  split; [unfold set_inverter_schedule; token_auto|].
  split; [unfold set_inverter_mode_portal; token_auto|].
  split; [unfold update_inverter_control_values; token_auto|].
  split; [unfold reset_inverter_start_time_to_now; token_auto|].
  unfold update_selected_schedule_id; token_auto.
Qed.

(** ** Device info *)

Lemma find_snoc {A} (f : A -> bool) (l : list A) (x : A) :
  find f (l ++ [x])
  = match find f l with
    | Some y => Some y
    | None => if f x then Some x else None
    end.
Proof.
  drop_constants.
  induction l as [|y l IH]; simpl; [reflexivity|].
  destruct (f y); [reflexivity | exact IH].
Qed.

(** X19.  The device-info record of a node makes the node's device id an
    address of its serial number: once [_create_device_info_inverter] (or
    [_create_device_info_battery]) has run, a mutation called with the
    device id of the node's entities acts on the node's serial number.
    The exception is a device id that an earlier record of the list
    already bears: the earlier record keeps the address. *)
Theorem device_info_addresses_the_node (d : static_data) (n : node_static)
    (s : client) (w : world) :
  node0 d = Return n ->
  (result_of (_create_device_info_inverter (JStatic d) s w) = Return tt /\
   target_serial (final_state (_create_device_info_inverter (JStatic d) s w))
     (device_id_of (node_Id n) "inv")
   = match found_device s (device_id_of (node_Id n) "inv") with
     | Some earlier => Some (di_serial_number earlier)
     | None => Some (node_Id n)
     end)
  /\
  (result_of (_create_device_info_battery (JStatic d) s w) = Return tt /\
   target_serial (final_state (_create_device_info_battery (JStatic d) s w))
     (device_id_of (node_Id n) "bat")
   = match found_device s (device_id_of (node_Id n) "bat") with
     | Some earlier => Some (di_serial_number earlier)
     | None => Some (node_Id n)
     end).
Proof.
  intros Hn.
  unfold _create_device_info_inverter, _create_device_info_battery,
    _create_device_info_for, append_device_info, target_serial, found_device.
  run_monad. simpl. rewrite Hn. simpl.
  split; (split; [reflexivity|]); destruct s; simpl; rewrite find_snoc; simpl;
    rewrite String.eqb_refl; destruct (find _ _); reflexivity.
Qed.

End Methods.
End Client.

(* ================================================================== *)
(** * The theorems at the samples *)
(* ================================================================== *)

Module Checks.

Import Samples.
Local Open Scope string_scope.
Local Open Scope Z_scope.
Local Open Scope list_scope.

(** The constants of the samples: no vendor error code counts as an
    authentication failure, device info is fresh for 300 seconds. *)
Local Abbreviation auth_codes := (@nil string).
Local Abbreviation modes := (VList [VStr "Auto"; VStr "ChargeBattery"]).

(** A new client has no token: the check logs in. *)
Lemma check_token_login_policy_witness :
  sent (final_world (Client._check_token auth_codes (init creds0) w_api))
  = [Client.login_request creds0].
Proof.
  exact (proj1 (Client.check_token_login_policy auth_codes (init creds0) w_api I)).
Defined.

(** The schedule of the samples: 2 h 15 min from 10:00 to 12:15. *)
Lemma schedule_normalization_witness :
  exists infos,
    Client._convert_responses_to_schedule_entities fromisoformat0
      (JSchedules [schedule_sample]) (init creds0) w_api
    = (Return tt, set_schedules (_redback_schedules (init creds0) ++ infos) (init creds0),
       w_api)
    /\ Forall2 (Client.normalized_as fromisoformat0) [schedule_sample] infos.
Proof.
  apply (Client.schedule_normalization fromisoformat0 [schedule_sample] (init creds0) w_api).
  constructor; [|constructor].
  exists 135, (mk_datetime (738885 * us_per_day + 36000 * us_per_second) (Some 0)).
  split; [|split; [reflexivity|split; vm_compute; split; discriminate]].
  apply (Client.form_days_hms "0" "02" "15" "00"); split; (discriminate || reflexivity).
Defined.

(** The battery of the samples is normalized without an exception. *)
Lemma battery_entity_id_twice_witness :
  ~ Client.unique_ids
      (_redback_entities
         (final_state
            (Client._convert_responses_to_battery_entities fromisoformat0
               (JStatic static_sample) (JDynamic dynamic_sample) (JConfig config_sample)
               after_inverter w_api))).
Proof.
  apply Client.battery_entity_id_twice. vm_compute. exact I.
Defined.

(** The two records that share the id, at the samples *)
Lemma battery_entity_id_twice_sample :
  let l := _redback_entities
             (final_state
                (Client._convert_responses_to_battery_entities fromisoformat0
                   (JStatic static_sample) (JDynamic dynamic_sample) (JConfig config_sample)
                   after_inverter w_api)) in
  filter (fun e => entity_id e = "9012batbattery_current_negative_is_charging_a") l
  = [ Client.ent (VNum (PyFloat (-3))) "battery_current_negative_is_charging_a"
        "9012bat" "battery";
      Client.ent (VNum (PyFloat (-0.4))) "battery_current_negative_is_charging_a"
        "9012bat" "battery" ].
Proof. vm_compute. reflexivity. Qed.

(** The inverter of the samples, three phases at 230 V: the total is
    398.4.  An inverter whose phase B reports no voltage, but its powers:
    the total is that of phase A alone.  With a phase B that is not
    connected the normalization raises, and no total is computed. *)
Lemma total_phase_voltage_entity_witness :
  Client.ent (VNum (PyFloat 398.4)) "inverter_phase_total_voltage_instantaneous_v"
    "9012inv" "inverter"
  ∈ _redback_entities
      (final_state
         (Client._convert_responses_to_inverter_entities fromisoformat0
            (JStatic static_sample) (JDynamic dynamic_sample) (init creds0) w_api))
  /\
  Client.ent (VNum (PyFloat 230)) "inverter_phase_total_voltage_instantaneous_v"
    "9012inv" "inverter"
  ∈ _redback_entities
      (final_state
         (Client._convert_responses_to_inverter_entities fromisoformat0
            (JStatic static_sample) (JDynamic dynamic_idle_phase) (init creds0) w_api))
  /\
  (~ returned
       (Client._convert_responses_to_inverter_entities fromisoformat0
          (JStatic static_sample) (JDynamic dynamic_one_phase) (init creds0) w_api)
   /\ _redback_temp_voltage
        (final_state
           (Client._convert_responses_to_inverter_entities fromisoformat0
              (JStatic static_sample) (JDynamic dynamic_one_phase) (init creds0) w_api))
      = _redback_temp_voltage (init creds0)).
Proof.
  split; [|split].
  - destruct (Client.total_phase_voltage_entity fromisoformat0 static_sample
                dynamic_sample (init creds0) w_api) as (H & _).
    apply (H node0_sample
             (mk_datetime (738885 * us_per_day + 36000 * us_per_second) (Some 0))
             (VNum (PyFloat 1.5)) VNone (VNum (PyFloat 1.2)) (VNum (PyFloat 0.7305))
             (PyFloat 398.4)); try (vm_compute; reflexivity); try discriminate.
    repeat (constructor;
            [split; [eexists; reflexivity
                    | split; [eexists; reflexivity | intros _; eexists; reflexivity]]|]).
    constructor.
  - destruct (Client.total_phase_voltage_entity fromisoformat0 static_sample
                dynamic_idle_phase (init creds0) w_api) as (H & _).
    apply (H node0_sample
             (mk_datetime (738885 * us_per_day + 36000 * us_per_second) (Some 0))
             (VNum (PyFloat 1.5)) VNone (VNum (PyFloat 1.2)) (VNum (PyFloat 0.7305))
             (PyFloat 230)); try (vm_compute; reflexivity); try discriminate.
    constructor; [|constructor; [|constructor]];
      (split; [eexists; reflexivity | split; [eexists; reflexivity|]]).
    + intros _. eexists. reflexivity.
    + intros Hv. contradiction.
  - apply (Client.total_phase_voltage_entity fromisoformat0 static_sample
             dynamic_one_phase (init creds0) w_api).
    apply Exists_cons_tl, Exists_cons_hd. left. reflexivity.
Defined.

(** C6 at the single-phase inverter: one phase has a voltage, the formula
    of the specification gives 230.0, and the normalization raises
    [TypeError] without an entity for the total. *)
Lemma total_phase_voltage_entity_sample :
  let r := Client._convert_responses_to_inverter_entities fromisoformat0
             (JStatic static_sample) (JDynamic dynamic_one_phase) (init creds0) w_api in
  Client.phase_voltages (Phases dynamic_one_phase) = [PyFloat 230] /\
  Client.spec_total_phase_voltage (Phases dynamic_one_phase) = Return (PyFloat 230) /\
  result_of r = Raise TypeError /\
  filter (fun e => entity_name e = "inverter_phase_total_voltage_instantaneous_v")
    (_redback_entities (final_state r)) = [].
Proof. vm_compute. repeat split; reflexivity. Qed.

(** The counters of the samples: 1500.0 kWh of PV, no export reading,
    1200 kWh of import, 730.5 kWh of load; 810.0 kWh of battery charge and
    no discharge reading. *)
Lemma energy_counters_in_mwh_witness :
  Forall
    (fun '(nm, v) =>
       Client.ent v nm "9012inv" "inverter"
       ∈ _redback_entities
           (final_state
              (Client._convert_responses_to_inverter_entities fromisoformat0
                 (JStatic static_sample) (JDynamic dynamic_sample) (init creds0) w_api)))
    [ ("pv_all_time_energy_mwh", VNum (PyFloat 1.5));
      ("export_all_time_energy_mwh", VNone);
      ("import_all_time_energy_mwh", VNum (PyFloat 1.2));
      ("load_all_time_energy_mwh", VNum (PyFloat 0.7305)) ]
  /\
  Forall
    (fun '(nm, v) =>
       Client.ent v nm "9012bat" "battery"
       ∈ _redback_entities
           (final_state
              (Client._convert_responses_to_battery_entities fromisoformat0
                 (JStatic static_sample) (JDynamic dynamic_sample) (JConfig config_sample)
                 after_inverter w_api)))
    [ ("battery_charge_all_time_energy_mwh", VNum (PyFloat 0.81));
      ("battery_discharge_all_time_energy_mwh", VNone) ].
Proof.
  destruct (Client.energy_counters_in_mwh fromisoformat0) as (_ & _ & _ & _ & Hi & Hb).
  split.
  - apply (Hi static_sample node0_sample dynamic_sample
             (mk_datetime (738885 * us_per_day + 36000 * us_per_second) (Some 0)));
      vm_compute; reflexivity.
  - apply (Hb static_sample node0_sample dynamic_sample config_sample
             (mk_datetime (738885 * us_per_day + 36000 * us_per_second) (Some 0)));
      try (vm_compute; reflexivity);
      unfold Client.has_percentage; eexists _, _; split;
        solve [reflexivity | vm_compute; reflexivity].
Defined.

(** C9 fails on the code: when the portal answers the first GET with an
    HTTP 500, the connection test and the mode-set raise
    [RedbackTechClientError] and the session they opened stays open; so it
    does when the page that is served has no form. *)
Lemma portal_session_left_open_on_error :
  let r := Client.test_portal_connection hidden0 (init creds0) w_down in
  let r' := Client.set_inverter_mode_portal hidden0 "9012inv" true known w_down in
  let r'' := Client.test_portal_connection hidden0 (init creds0) w_blank in
  result_of r = Raise RedbackTechClientError /\
  session_open (final_world r) (length (sessions w_down)) = true /\
  result_of r' = Raise RedbackTechClientError /\
  session_open (final_world r') (length (sessions w_down)) = true /\
  result_of r'' = Raise AttributeError /\
  session_open (final_world r'') (length (sessions w_blank)) = true.
Proof. vm_compute. repeat split; reflexivity. Qed.

(** A portal that serves its pages: the connection test returns [True]
    and has closed its session.  A portal that is down: the mode-set
    raises and leaves its session open. *)
Lemma portal_session_closed_only_on_return_witness :
  result_of (Client.test_portal_connection hidden0 (init creds0) w_portal) = Return true /\
  session_open (final_world (Client.test_portal_connection hidden0 (init creds0) w_portal))
    (length (sessions w_portal)) = false /\
  session_open
    (final_world (Client.set_inverter_mode_portal hidden0 "9012inv" true known w_down))
    (length (sessions w_down)) = true.
Proof.
  split; [vm_compute; reflexivity|]. split.
  - apply (Client.portal_session_closed_only_on_return hidden0 "9012inv" true
             (init creds0) w_portal).
    vm_compute. exact I.
  - destruct (Client.portal_session_closed_only_on_return hidden0 "9012inv" true
                known w_down) as (_ & _ & _ & H).
    destruct H as [H | (H & _)]; [vm_compute; exact id | exact H | discriminate H].
Defined.

(** The refresh of the samples, twice in a row *)
Local Abbreviation refresh := (Client._create_device_info auth_codes 300 modes fromisoformat0).



(** C3 at the samples: the refresh that finds the inverter raises
    [TypeError], and no site-load entity is among the entities it leaves
    behind. *)
Lemma site_load_entity_missing_sample :
  let r1 := refresh (init creds0) w_api in
  let r2 := refresh (final_state r1) (final_world r1) in
  result_of r2 = Raise TypeError /\
  filter (fun e => entity_name e = "inverter_site_load_instantaneous_kw")
    (_redback_entities (final_state r2)) = [].
Proof. vm_compute. split; reflexivity. Qed.

(** ** The further properties at the samples *)

(** A new client and a vendor that answers: the test answers [True].  A
    vendor that turns the credentials down with a code that counts as an
    authentication failure: the test raises [AuthError]. *)
Lemma test_api_connection_true_or_raises_witness :
  result_of (Client.test_api_connection auth_codes (init creds0) w_api) = Return true
  /\ Client.test_api_connection ["invalid_client"] (init creds0) w_rejecting
     = (Raise AuthError, init creds0,
        Client.sending (Client.login_request creds0) (tick w_rejecting)).
Proof.
  split.
  - apply (Client.test_api_connection_true_or_raises auth_codes (init creds0) w_api I).
    vm_compute. exact I.
  - exact (proj2 (proj2 (Client.test_api_connection_true_or_raises ["invalid_client"]
                           (init creds0) w_rejecting I))
             eq_refl "" "invalid_client" eq_refl).
Defined.

Lemma test_portal_connection_true_witness :
  result_of (Client.test_portal_connection hidden0 (init creds0) w_portal) = Return true.
Proof.
  apply Client.test_portal_connection_true. vm_compute. exact I.
Defined.

(** A body that is [null] is decoded, and the test for the error key
    raises [TypeError]; the request has gone out. *)
Lemma api_call_outcome_witness :
  result_of (Client._api_get auth_codes API_NODES "" None (init creds0) w_null)
    = Raise TypeError
  /\ sent (final_world (Client._api_get auth_codes API_NODES "" None (init creds0) w_null))
     = [mk_request None GET API_NODES "" None NoData].
Proof.
  destruct (Client.api_call_outcome auth_codes GET API_NODES "" None NoData
              (init creds0) w_null) as (_ & Hw & _ & H & _).
  split; [exact (H eq_refl) | rewrite Hw; reflexivity].
Defined.

(** The list of inverters once the vendor lists the inverter of the
    samples beside a meter *)
Lemma _get_inverter_list_result_witness :
  let r1 := refresh (init creds0) w_api in
  let r := Client._get_inverter_list auth_codes (final_state r1) (final_world r1) in
  exists w1 sites,
    final_world r
    = Client.sending (mk_request None GET API_NODES "" (token (final_state r)) NoData) w1 /\
    json (Client.answer w1 (mk_request None GET API_NODES "" (token (final_state r)) NoData))
      = Some (JNodes sites) /\
    [serial0] = Client.inverter_serials sites /\
    serial_numbers (final_state r) = Some [serial0].
Proof.
  cbv zeta.
  apply (Client._get_inverter_list_result auth_codes
           (final_state (refresh (init creds0) w_api))
           (final_world (refresh (init creds0) w_api))).
  apply Client.run_of_result. vm_compute. reflexivity.
Defined.

(** The token of the client has expired: the check logs in and stores
    ["Bearer abc"], and the POST of the schedule still carries
    ["Bearer old"]. *)
Lemma set_inverter_schedule_request_witness :
  let r := Client.set_inverter_schedule auth_codes "9012inv" known_expired w_api in
  token (final_state r) = Some "Bearer abc" /\
  exists c start dstr sn watts,
    _inverter_control_settings known_expired !! "9012inv" = Some c /\
    start_time c = Some start /\
    Client.duration_str (power_setting_duration c) = Return dstr /\
    Client.target_serial known_expired "9012inv" = Some sn /\
    Client.py_int (power_setting_watts c) = Return watts /\
    last (sent (final_world r))
    = Some (mk_request None POST API_SCHEDULE_CREATE_BY_SERIALNUMBER "" (Some "Bearer old")
              (ScheduleJson sn (Some start) dstr (power_setting_mode c) watts)).
Proof.
  cbv zeta. split; [vm_compute; reflexivity|].
  apply (Client.set_inverter_schedule_request auth_codes "9012inv" known_expired w_api tt
           (final_state (Client.set_inverter_schedule auth_codes "9012inv" known_expired w_api))).
  apply Client.run_of_result. vm_compute. reflexivity.
Defined.

(** The battery's device id has no control settings. *)
Lemma no_control_settings_no_request_witness :
  Client.set_inverter_schedule auth_codes "9012bat" known w_api
    = (Raise KeyError, known, w_api)
  /\ Client.set_inverter_mode_portal hidden0 "9012bat" false known w_portal
    = (Raise KeyError, known, w_portal).
Proof.
  split.
  - exact (proj1 (Client.no_control_settings_no_request auth_codes hidden0 "9012bat"
                    known w_api eq_refl)).
  - exact (proj2 (Client.no_control_settings_no_request auth_codes hidden0 "9012bat"
                    known w_portal eq_refl)).
Defined.

(** The schedule [sch-1] of the known inverter is deleted with the
    renewed token.  For a device id no record has, the request goes to the
    serial number an earlier call left behind. *)
Lemma delete_inverter_schedule_request_witness :
  let r := Client.delete_inverter_schedule auth_codes "9012inv" "sch-1" known_expired w_api in
  let r' := Client.delete_inverter_schedule auth_codes "0000inv" "sch-1"
              (set_serial_number (Some "RB17000000000000") known_expired) w_api in
  last (sent (final_world r))
    = Some (Client.delete_request serial0 "sch-1" (Some "Bearer abc"))
  /\ last (sent (final_world r'))
    = Some (Client.delete_request "RB17000000000000" "sch-1" (Some "Bearer abc")).
Proof.
  cbv zeta. split.
  - destruct (Client.delete_inverter_schedule_request auth_codes "9012inv" "sch-1"
                known_expired w_api tt
                (final_state (Client.delete_inverter_schedule auth_codes "9012inv" "sch-1"
                                known_expired w_api))
                (final_world (Client.delete_inverter_schedule auth_codes "9012inv" "sch-1"
                                known_expired w_api)))
      as (sn & Hsn & Hlast & _); [apply Client.run_of_result; vm_compute; reflexivity|].
    vm_compute in Hsn. injection Hsn as <-. rewrite Hlast.
    vm_compute. reflexivity.
  - destruct (Client.delete_inverter_schedule_request auth_codes "0000inv" "sch-1"
                (set_serial_number (Some "RB17000000000000") known_expired) w_api tt
                (final_state (Client.delete_inverter_schedule auth_codes "0000inv" "sch-1"
                                (set_serial_number (Some "RB17000000000000") known_expired)
                                w_api))
                (final_world (Client.delete_inverter_schedule auth_codes "0000inv" "sch-1"
                                (set_serial_number (Some "RB17000000000000") known_expired)
                                w_api)))
      as (sn & Hsn & Hlast & _); [apply Client.run_of_result; vm_compute; reflexivity|].
    vm_compute in Hsn. injection Hsn as <-. rewrite Hlast.
    vm_compute. reflexivity.
Defined.

(** Two of the three stored schedules are of the known inverter: two
    DELETEs go out, with the expired token, and no login. *)
Lemma delete_all_inverter_schedules_requests_witness :
  let r := Client.delete_all_inverter_schedules auth_codes "9012inv" known_expired w_api in
  sent (final_world r)
    = [ Client.delete_request serial0 "sch-1" (Some "Bearer old");
        Client.delete_request serial0 "sch-2" (Some "Bearer old") ]
  /\ length (_redback_schedules (final_state r)) = 3%nat.
Proof.
  cbv zeta.
  destruct (Client.delete_all_inverter_schedules_requests auth_codes "9012inv"
              known_expired w_api tt
              (final_state (Client.delete_all_inverter_schedules auth_codes "9012inv"
                              known_expired w_api))
              (final_world (Client.delete_all_inverter_schedules auth_codes "9012inv"
                              known_expired w_api)))
    as (Hsent & _ & _ & Hsch); [apply Client.run_of_result; vm_compute; reflexivity|].
  split; [rewrite Hsent | rewrite Hsch]; vm_compute; reflexivity.
Defined.

(** The mode of the known inverter is set through the portal, with the
    override: four requests through one session, which is closed. *)
Lemma set_inverter_mode_portal_exchange_witness :
  let r := Client.set_inverter_mode_portal hidden0 "9012inv" true known w_portal in
  let via := mk_request (Some 0%nat) in
  sent (final_world r)
    = [ via GET PORTAL_LOGIN "" None NoData;
        via POST PORTAL_LOGIN "" None
          (PortalLoginForm "me@example.org" "pw" (Some "login-token"));
        via GET PORTAL_CONFIGURE serial0 None NoData;
        via POST PORTAL_INVERTER_SET "" None
          (PortalSetForm serial0 (VStr "Auto") (VNum (PyInt 0)) (VStr "080819")
             (Some "forgery-token")) ]
  /\ sessions (final_world r) = [false].
Proof.
  cbv zeta.
  destruct (Client.set_inverter_mode_portal_exchange hidden0 "9012inv" true known w_portal tt
              (final_state (Client.set_inverter_mode_portal hidden0 "9012inv" true known
                              w_portal))
              (final_world (Client.set_inverter_mode_portal hidden0 "9012inv" true known
                              w_portal)))
    as (sn & ross & tok1 & tok2 & mode & power & Hsn & Hross & [-> ->] & Ht1 & Ht2
        & Hsent & Hsess); [apply Client.run_of_result; vm_compute; reflexivity|].
  vm_compute in Hsn, Hross, Ht1, Ht2.
  injection Hsn as <-. injection Hross as <-. injection Ht1 as <-. injection Ht2 as <-.
  split; [exact Hsent | exact Hsess].
Defined.

(** The vendor is down: the refresh raises and the lists of the known
    inverter stay. *)
Lemma refresh_without_inverter_list_witness :
  ~ returned (refresh known w_down) /\
  Client.rebuilt_lists (final_state (refresh known w_down)) = Client.rebuilt_lists known.
Proof.
  apply (Client.refresh_without_inverter_list auth_codes 300 modes fromisoformat0 known w_down).
  vm_compute. intros [].
Defined.

(** The vendor lists no inverter yet: the data set is empty. *)
Lemma get_redback_data_returns_empty_witness :
  let r := Client.get_redback_data auth_codes 300 modes fromisoformat0 (init creds0) w_api in
  result_of r = Return (Data.mk_RedbackTechData "id" ∅ ∅ ∅ ∅ ∅ ∅ ∅ ∅ ∅)
  /\ _serial_numbers (final_state r) = Some [].
Proof.
  cbv zeta. split; [vm_compute; reflexivity|].
  apply (Client.get_redback_data_returns_empty auth_codes 300 modes fromisoformat0
           (init creds0) w_api (Data.mk_RedbackTechData "id" ∅ ∅ ∅ ∅ ∅ ∅ ∅ ∅ ∅)
           (final_state (Client.get_redback_data auth_codes 300 modes fromisoformat0
                           (init creds0) w_api))
           (final_world (Client.get_redback_data auth_codes 300 modes fromisoformat0
                           (init creds0) w_api))).
  apply Client.run_of_result. vm_compute. reflexivity.
Defined.

(** The two battery currents of the samples share an id: the dictionary
    keeps the derived current and drops the vendor's reading. *)
Lemma filed_keeps_last_sample :
  let l := _redback_entities
             (final_state
                (Client._convert_responses_to_battery_entities fromisoformat0
                   (JStatic static_sample) (JDynamic dynamic_sample) (JConfig config_sample)
                   after_inverter w_api)) in
  Client.filed Client._handle_entity l !! "9012batbattery_current_negative_is_charging_a"
  = Some (Data.mk_RedbackEntitys "9012batbattery_current_negative_is_charging_a"
            "9012bat" "battery"
            (Client.ent (VNum (PyFloat (-0.4))) "battery_current_negative_is_charging_a"
               "9012bat" "battery"))
  /\ length l = 42%nat
  /\ size (Client.filed Client._handle_entity l) = 41%nat.
Proof. vm_compute. repeat split; reflexivity. Qed.

(** A new client has no control settings and no selected schedule. *)
Lemma control_values_unknown_device_witness :
  Client.update_inverter_control_values "9012inv" "power_setting_watts" (VNum (PyInt 2500))
    (init creds0) w_api = (Raise AttributeError, init creds0, w_api)
  /\ Client.reset_inverter_start_time_to_now "9012inv" (init creds0) w_api
     = (Raise AttributeError, init creds0, w_api)
  /\ Client.update_selected_schedule_id "9012inv" (VStr "sch-1") (init creds0) w_api
     = (Raise AttributeError, init creds0, w_api).
Proof.
  exact (Client.control_values_unknown_device "9012inv" "power_setting_watts"
           (VNum (PyInt 2500)) (VStr "sch-1") (init creds0) w_api eq_refl eq_refl).
Defined.

(** 45 minutes at 2500 W from 10:00, for the known inverter.  After a
    reset of the start time the same call raises [TypeError], and only the
    login of the token check has gone out. *)
Lemma control_values_reach_the_schedule_witness :
  let r := (Client.update_inverter_control_values "9012inv" "power_setting_duration"
              (VNum (PyInt 45));;
            Client.update_inverter_control_values "9012inv" "power_setting_watts"
              (VNum (PyFloat 2500.7));;
            Client.update_inverter_control_values "9012inv" "start_time"
              (VStr "2024-01-01T10:00:00Z");;
            Client.set_inverter_schedule auth_codes "9012inv") known_expired w_api in
  let r' := (Client.reset_inverter_start_time_to_now "9012inv";;
             Client.set_inverter_schedule auth_codes "9012inv") known_expired w_api in
  last (sent (final_world r))
  = Some (mk_request None POST API_SCHEDULE_CREATE_BY_SERIALNUMBER "" (Some "Bearer old")
            (ScheduleJson serial0 (Some (VStr "2024-01-01T10:00:00Z"))
               "0.00:45:00" (VStr "ChargeBattery") 2500))
  /\ ~ returned r'
  /\ result_of r' = Raise TypeError
  /\ sent (final_world r') = [Client.login_request creds0].
Proof.
  cbv zeta. split; [|split; [|split; vm_compute; reflexivity]].
  - match goal with
    | |- last (sent (final_world ?r)) = _ =>
        destruct (proj1 (Client.control_values_reach_the_schedule auth_codes "9012inv"
                           (VNum (PyInt 45)) (VNum (PyFloat 2500.7))
                           (VStr "2024-01-01T10:00:00Z") known_expired w_api)
                    tt (final_state r) (final_world r))
          as (c & sn & dstr & n & Hc & Hsn & Hd & Hn & _ & Hlast);
          [apply Client.run_of_result; vm_compute; reflexivity|]
    end.
    vm_compute in Hc, Hsn, Hd, Hn.
    injection Hc as <-. injection Hsn as <-. injection Hd as <-. injection Hn as <-.
    exact Hlast.
  - exact (proj1 (proj2 (Client.control_values_reach_the_schedule auth_codes "9012inv"
                           (VNum (PyInt 45)) (VNum (PyFloat 2500.7))
                           (VStr "2024-01-01T10:00:00Z") known_expired w_api))).
Defined.

(** The site load of the samples, after the inverter and after the
    battery *)
Lemma site_load_stored_witness :
  (exists net load,
     Client.net_import_from (PyInt 0) (Phases dynamic_sample) = Return net /\
     Client.jadd net (PvPowerInstantaneouskW dynamic_sample) = Return load /\
     _redback_site_load
       (final_state
          (Client._convert_responses_to_inverter_entities fromisoformat0
             (JStatic static_sample) (JDynamic dynamic_sample) (init creds0) w_api))
       !! serial0 = Some load)
  /\
  (exists load,
     Client.jadd (PyFloat 3.9) (BatteryPowerNegativeIsChargingkW dynamic_sample)
       = Return load /\
     _redback_site_load
       (final_state
          (Client._convert_responses_to_battery_entities fromisoformat0
             (JStatic static_sample) (JDynamic dynamic_sample) (JConfig config_sample)
             after_inverter w_api))
       !! serial0 = Some load).
Proof.
  destruct (Client.site_load_stored fromisoformat0 static_sample node0_sample dynamic_sample
              config_sample (init creds0) w_api eq_refl) as [H _].
  destruct (Client.site_load_stored fromisoformat0 static_sample node0_sample dynamic_sample
              config_sample after_inverter w_api eq_refl) as [_ H'].
  split.
  - apply (H tt _ (final_world
                     (Client._convert_responses_to_inverter_entities fromisoformat0
                        (JStatic static_sample) (JDynamic dynamic_sample) (init creds0)
                        w_api))).
    apply Client.run_of_result. vm_compute. reflexivity.
  - apply (H' (PyFloat 3.9) tt _
             (final_world
                (Client._convert_responses_to_battery_entities fromisoformat0
                   (JStatic static_sample) (JDynamic dynamic_sample) (JConfig config_sample)
                   after_inverter w_api))).
    + vm_compute. reflexivity.
    + apply Client.run_of_result. vm_compute. reflexivity.
Defined.

(** The values behind it: 1.5 kW of net import and 2.4 kW of PV, then
    0.16 kW into the battery *)
Lemma site_load_stored_sample :
  _redback_site_load
    (final_state
       (Client._convert_responses_to_inverter_entities fromisoformat0
          (JStatic static_sample) (JDynamic dynamic_sample) (init creds0) w_api))
    !! serial0 = Some (PyFloat 3.9)
  /\
  _redback_site_load
    (final_state
       (Client._convert_responses_to_battery_entities fromisoformat0
          (JStatic static_sample) (JDynamic dynamic_sample) (JConfig config_sample)
          after_inverter w_api))
    !! serial0 = Some (PyFloat 3.7399999999999998).
Proof. vm_compute. split; reflexivity. Qed.

(** The entities of the samples belong to the inverter [9012inv] and to
    the battery [9012bat]. *)
Lemma normalized_entities_belong_to_the_node_witness :
  Client.appended (fun e => device_id e = "9012inv" /\ device_type e = "inverter")
    (init creds0)
    (final_state
       (Client._convert_responses_to_inverter_entities fromisoformat0
          (JStatic static_sample) (JDynamic dynamic_sample) (init creds0) w_api))
  /\
  Client.appended (fun e => device_id e = "9012bat")
    after_inverter
    (final_state
       (Client._convert_responses_to_battery_entities fromisoformat0
          (JStatic static_sample) (JDynamic dynamic_sample) (JConfig config_sample)
          after_inverter w_api)).
Proof.
  split.
  - exact (proj1 (Client.normalized_entities_belong_to_the_node fromisoformat0 static_sample
                    node0_sample (JDynamic dynamic_sample) (JConfig config_sample)
                    (init creds0) w_api eq_refl)).
  - exact (proj2 (Client.normalized_entities_belong_to_the_node fromisoformat0 static_sample
                    node0_sample (JDynamic dynamic_sample) (JConfig config_sample)
                    after_inverter w_api eq_refl)).
Defined.

(** 135 minutes are written as ["0.02:15:00"] and read back as 135. *)
Lemma duration_round_trip_below_one_day_witness :
  Client.duration_str (VNum (PyInt 135)) = Return "0.02:15:00"
  /\ Client.duration_read_back (VNum (PyInt 135)) = Return 135.
Proof.
  split; [vm_compute; reflexivity|].
  exact (proj1 (Client.duration_round_trip_below_one_day 135 ltac:(lia))).
Defined.

(** A new client learns the inverter of the samples; a client that knows
    another record under the same device id keeps that one. *)
Lemma device_info_addresses_the_node_witness :
  Client.target_serial
    (final_state (Client._create_device_info_inverter (JStatic static_sample)
                    (init creds0) w_api)) "9012inv"
  = Some serial0
  /\
  Client.target_serial
    (final_state (Client._create_device_info_inverter (JStatic static_sample)
                    (set_device_info
                       [mk_device_info "9012inv" "ST10000 - inverter" "ST10000"
                          (VStr "080819") (VStr "080819") "RB17000000009012"]
                       (init creds0)) w_api)) "9012inv"
  = Some "RB17000000009012".
Proof.
  split.
  - exact (proj2 (proj1 (Client.device_info_addresses_the_node static_sample node0_sample
                           (init creds0) w_api eq_refl))).
  - exact (proj2 (proj1 (Client.device_info_addresses_the_node static_sample node0_sample
                           (set_device_info
                              [mk_device_info "9012inv" "ST10000 - inverter" "ST10000"
                                 (VStr "080819") (VStr "080819") "RB17000000009012"]
                              (init creds0)) w_api eq_refl))).
Defined.

End Checks.
